(** * Kindness wall: leaderboard aggregation, chart bars, certificates, submissions

    A shallow embedding of [app.py] (and of the submission handlers of [r.py])
    together with the properties of the aggregation logic.

    Conventions of the embedding:
    - a Python [int] is a [Z]; a [str] is a [string] of bytes; [None] is the
      [None] of an [option];
    - a Python [float] is the rational number it denotes (module [PyFloat]):
      every arithmetic operation computes the exact result and rounds it to
      the nearest binary64 value, ties to even;
    - a [dict] is an association list in insertion order, because [sorted]
      (stable) and [max] (first maximum) break ties by that order;
    - a table of the database is the list of its rows in primary-key order;
    - an exception is the [Raise] outcome of the [exc] monad. *)

From Stdlib Require Import ZArith QArith Qround Qpower Qabs Qreduction.
From Stdlib Require Import Lia Lqa Bool List String Ascii DecimalString.
From Stdlib Require Import Permutation Sorted SpecFloat.
Import ListNotations.

(* ================================================================== *)
(** * Exceptions *)

Inductive pyerror : Type :=
| ZeroDivisionError
| ValueError
| OverflowError.

Inductive exc (A : Type) : Type :=
| Ok (a : A)
| Raise (e : pyerror).

Arguments Ok {A} a.
Arguments Raise {A} e.

Definition bind {A B : Type} (c : exc A) (k : A -> exc B) : exc B :=
  match c with
  | Ok a => k a
  | Raise e => Raise e
  end.

Notation "x <- c ;; k" := (bind c (fun x => k))
  (at level 61, c at next level, right associativity).

(* ================================================================== *)
(** * Python floats *)

Module PyFloat.
Local Open Scope Q_scope.

(** The value of a finite float, kept in lowest terms so that equal floats
    are equal terms. *)
Definition pyfloat : Type := Q.

(** Nearest integer, ties to the even one. *)
Definition round_half_even (x : Q) : Z :=
  let f := Qfloor x in
  match Qcompare (x - inject_Z f) (1 # 2) with
  | Lt => f
  | Gt => (f + 1)%Z
  | Eq => if Z.even f then f else (f + 1)%Z
  end.

(** For [0 < x], the exponent [b] with [2^b <= x < 2^(b+1)]. *)
Definition binade (x : Q) : Z :=
  let e0 := (Z.log2 (Qnum x) - Z.log2 (Zpos (Qden x)))%Z in
  if Qle_bool (2 ^ e0) x then e0 else (e0 - 1)%Z.

(** A positive real rounded to a 53-bit significand. *)
Definition rne_pos (x : Q) : Q :=
  let s := 2 ^ (binade x - 52) in
  inject_Z (round_half_even (x / s)) * s.

(** Round to nearest binary64, ties to even.  The exponent is not bounded:
    the model is the IEEE one on the normal range of binary64, which the
    percentages computed below (between 0 and about 100) never leave for
    counts below [2^1000]. *)
Definition rne (x : Q) : pyfloat :=
  match Qcompare x 0 with
  | Eq => 0
  | Gt => Qred (rne_pos x)
  | Lt => Qred (- rne_pos (- x))
  end.

(** [float(n)] for an int [n], as in [n * 100.0] and [x / n]. *)
Definition of_int (n : Z) : pyfloat := rne (inject_Z n).

(** The float written [n/d] in decimal, e.g. [26.9] is [literal 269 10]. *)
Definition literal (n : Z) (d : positive) : pyfloat := rne (n # d).

Definition fadd (x y : pyfloat) : pyfloat := rne (x + y).
Definition fsub (x y : pyfloat) : pyfloat := rne (x - y).
Definition fmul (x y : pyfloat) : pyfloat := rne (x * y).

(** [x / y]: division by zero raises. *)
Definition fdiv (x y : pyfloat) : exc pyfloat :=
  if Qeq_bool y 0 then Raise ZeroDivisionError else Ok (rne (x / y)).

Definition flt (x y : pyfloat) : bool := negb (Qle_bool y x).

(** [max(x, y)]: the first argument unless the second is greater. *)
Definition fmax (x y : pyfloat) : pyfloat := if flt x y then y else x.

(** The one-decimal number nearest to a float, in tenths. *)
Definition tenths_of (x : pyfloat) : Z := round_half_even (10 * x).

(** The float nearest to [k] tenths. *)
Definition of_tenths (k : Z) : pyfloat := rne (inject_Z k / 10).

(** [round(x, 1)]: the exact value of [x] is rounded to one decimal, ties
    to even, and the float nearest to that decimal is returned. *)
Definition round1 (x : pyfloat) : pyfloat := of_tenths (tenths_of x).

(** Half a unit in the last place, relative: [2^-53]. *)
Definition ulp_half : Q := 1 # 9007199254740992.

(** The same operations in the Standard Library's IEEE 754 specification,
    used to cross-check the model on concrete values. *)
Definition b64_of_Z (z : Z) : spec_float := binary_normalize 53 1024 z 0 false.

Definition b64_value (f : spec_float) : option Q :=
  match f with
  | S754_zero _ => Some 0
  | S754_finite s m e =>
      Some (Qred ((if s then -1 else 1) * inject_Z (Zpos m) * 2 ^ e))
  | _ => None
  end.
(** [cnt * 100.0 / total] in both, compared for all counts up to a bound. *)
Definition quotient_agrees (cnt total : Z) : bool :=
  match b64_value (SFdiv 53 1024
                     (SFmul 53 1024 (b64_of_Z cnt) (b64_of_Z 100))
                     (b64_of_Z total)) with
  | Some x => Qeq_bool x (rne (fmul (of_int cnt) (literal 100 1) / of_int total))
  | None => false
  end.

(** [a/10 + b/10] and [100.0 - a/10] in both, for one-decimal numbers. *)
Definition b64_tenths (k : Z) : spec_float :=
  SFdiv 53 1024 (b64_of_Z k) (b64_of_Z 10).

Definition sum_agrees (a b : Z) : bool :=
  match b64_value (SFadd 53 1024 (b64_tenths a) (b64_tenths b)) with
  | Some x => Qeq_bool x (fadd (of_tenths a) (of_tenths b))
  | None => false
  end.

Definition difference_agrees (a : Z) : bool :=
  match b64_value (SFsub 53 1024 (b64_of_Z 100) (b64_tenths a)) with
  | Some x => Qeq_bool x (fsub (literal 100 1) (of_tenths a))
  | None => false
  end.

Definition sums_agree (bound : nat) : bool :=
  forallb (fun a =>
             forallb (fun b => sum_agrees (Z.of_nat a) (Z.of_nat b))
               (seq 0 (S bound)) && difference_agrees (Z.of_nat a))
    (seq 0 (S bound)).

Definition quotients_agree (bound : nat) : bool :=
  forallb (fun total =>
             forallb (fun cnt => quotient_agrees (Z.of_nat cnt) (Z.of_nat total))
               (seq 0 (S total)))
    (seq 1 bound).
End PyFloat.

(** The rounding functions are unfolded last when terms are compared. *)
Strategy 100 [PyFloat.rne PyFloat.rne_pos PyFloat.binade PyFloat.round_half_even].

(* ================================================================== *)
(** * Python built-ins *)

Module Py.
Local Open Scope string_scope.
Local Open Scope Z_scope.

(** Truth value of a [str] or [None], of an [int] or [None]. *)
Definition truthy_str (s : option string) : bool :=
  match s with
  | Some t => negb (String.eqb t "")
  | None => false
  end.

Definition truthy_int (n : option Z) : bool :=
  match n with
  | Some z => negb (z =? 0)
  | None => false
  end.

(** [x or d]. *)
Definition or_str (s : option string) (d : string) : string :=
  match s with
  | Some t => if String.eqb t "" then d else t
  | None => d
  end.

Definition or_int (n : option Z) (d : Z) : Z :=
  match n with
  | Some z => if z =? 0 then d else z
  | None => d
  end.

(** [str.isspace] on the ASCII range: tab to carriage return, the four
    separators, space.  Whitespace outside ASCII is not modelled. *)
Definition is_space (c : ascii) : bool :=
  let n := Z.of_nat (nat_of_ascii c) in
  ((9 <=? n) && (n <=? 13)) || ((28 <=? n) && (n <=? 32)).

Fixpoint lstrip (s : string) : string :=
  match s with
  | String c r => if is_space c then lstrip r else s
  | EmptyString => EmptyString
  end.

Fixpoint rstrip (s : string) : string :=
  match s with
  | String c r =>
      match rstrip r with
      | EmptyString => if is_space c then EmptyString else String c EmptyString
      | r' => String c r'
      end
  | EmptyString => EmptyString
  end.

Definition strip (s : string) : string := rstrip (lstrip s).

Definition digit_of (c : ascii) : option Z :=
  let n := Z.of_nat (nat_of_ascii c) in
  if (48 <=? n) && (n <=? 57) then Some (n - 48) else None.

(** Decimal digits, single underscores allowed between digits. *)
Fixpoint parse_digits (acc : Z) (after_digit : bool) (s : string) : option Z :=
  match s with
  | EmptyString => if after_digit then Some acc else None
  | String c r =>
      match digit_of c with
      | Some d => parse_digits (10 * acc + d) true r
      | None =>
          if Ascii.eqb c "_"%char && after_digit
          then parse_digits acc false r
          else None
      end
  end.

(** The whitespace that [int] skips around the digits of an ASCII [str]:
    tab to carriage return, and space.  The four separators that
    [str.strip] removes are not among them: [int] of a text with one raises
    [ValueError]. *)
Definition is_int_space (c : ascii) : bool :=
  let n := Z.of_nat (nat_of_ascii c) in
  ((9 <=? n) && (n <=? 13)) || (n =? 32).

Fixpoint int_lstrip (s : string) : string :=
  match s with
  | String c r => if is_int_space c then int_lstrip r else s
  | EmptyString => EmptyString
  end.

Fixpoint int_rstrip (s : string) : string :=
  match s with
  | String c r =>
      match int_rstrip r with
      | EmptyString => if is_int_space c then EmptyString else String c EmptyString
      | r' => String c r'
      end
  | EmptyString => EmptyString
  end.

(** The number of digits of a text, and the most digits that [int]
    converts: [sys.get_int_max_str_digits()], 4300 unless configured (since
    Python 3.11). *)
Fixpoint digit_count (s : string) : Z :=
  match s with
  | String c r =>
      match digit_of c with
      | Some _ => 1 + digit_count r
      | None => digit_count r
      end
  | EmptyString => 0
  end.

Definition max_str_digits : Z := 4300.

(** [int(s)] for a [str]: surrounding whitespace, an optional sign, decimal
    digits, no more than [max_str_digits].  Anything else raises
    [ValueError].  Digits and whitespace outside ASCII are not modelled. *)
Definition int (s : string) : exc Z :=
  let t := int_rstrip (int_lstrip s) in
  let parsed :=
    match t with
    | String "+" r => parse_digits 0 false r
    | String "-" r => option_map Z.opp (parse_digits 0 false r)
    | _ => parse_digits 0 false t
    end in
  match parsed with
  | Some z => if max_str_digits <? digit_count t then Raise ValueError else Ok z
  | None => Raise ValueError
  end.

(** [s.isascii()]. *)
Fixpoint isascii (s : string) : bool :=
  match s with
  | String c r => (nat_of_ascii c <? 128)%nat && isascii r
  | EmptyString => true
  end.

(** [str(n)] for an int. *)
Definition str (n : Z) : string := NilZero.string_of_int (Z.to_int n).

(** ** Dictionaries *)
Section Dict.
Variables K V : Type.
Variable eqb : K -> K -> bool.

Definition dict : Type := list (K * V).

Fixpoint dict_get (d : dict) (k : K) : option V :=
  match d with
  | [] => None
  | (k', v) :: r => if eqb k k' then Some v else dict_get r k
  end.

(** [d[k] = v]: an existing key keeps its place. *)
Fixpoint dict_set (d : dict) (k : K) (v : V) : dict :=
  match d with
  | [] => [(k, v)]
  | (k', v') :: r =>
      if eqb k k' then (k', v) :: r else (k', v') :: dict_set r k v
  end.
End Dict.

Arguments dict_get {K V} eqb d k.
Arguments dict_set {K V} eqb d k v.

(** [d[k] = d.get(k, 0) + w], also [d[k] += w] on a [defaultdict(int)]. *)
Definition dict_add {K : Type} (eqb : K -> K -> bool)
    (d : dict K Z) (k : K) (w : Z) : dict K Z :=
  dict_set eqb d k (match dict_get eqb d k with Some v => v | None => 0 end + w).

(** A loop of [d[k] = d.get(k, 0) + w] over a list: [entry] gives the key
    and the amount of an element, if it has any. *)
Section Tally.
Variables A K : Type.
Variable eqb : K -> K -> bool.
Variable entry : A -> option (K * Z).

Definition tally_step (d : dict K Z) (n : A) : dict K Z :=
  match entry n with
  | Some (k, w) => dict_add eqb d k w
  | None => d
  end.

Definition hits (s : K) (n : A) : bool :=
  match entry n with
  | Some (k, _) => eqb k s
  | None => false
  end.

Definition amount (n : A) : Z :=
  match entry n with
  | Some (_, w) => w
  | None => 0
  end.
End Tally.

Arguments tally_step {A K} eqb entry d n.
Arguments hits {A K} eqb entry s n.
Arguments amount {A K} entry n.

(** [sum(d.values())]. *)
Definition sum_values {K : Type} (d : dict K Z) : Z :=
  fold_left (fun acc e => acc + snd e) d 0.

(** ** [sorted(items, key=lambda x: x[1], reverse=True)]

    The sort is stable, also with [reverse=True]: items with equal counts
    keep their order.  Insertion from the right gives the same list. *)
Fixpoint insert_desc {K : Type} (x : K * Z) (l : list (K * Z)) : list (K * Z) :=
  match l with
  | [] => [x]
  | y :: r => if snd x <? snd y then y :: insert_desc x r else x :: l
  end.

Fixpoint sorted_desc {K : Type} (l : list (K * Z)) : list (K * Z) :=
  match l with
  | [] => []
  | x :: r => insert_desc x (sorted_desc r)
  end.

(** ** [max(items, key=lambda x: x[1])]: the first item of maximal count;
    [ValueError] on an empty sequence. *)
Fixpoint max_from {K : Type} (best : K * Z) (l : list (K * Z)) : K * Z :=
  match l with
  | [] => best
  | x :: r => if snd best <? snd x then max_from x r else max_from best r
  end.

Definition max_by_count {K : Type} (l : list (K * Z)) : exc (K * Z) :=
  match l with
  | [] => Raise ValueError
  | x :: r => Ok (max_from x r)
  end.

(** Items in the order of their counts, from the largest to the smallest. *)
Definition desc_counts {K : Type} : list (K * Z) -> Prop :=
  StronglySorted (fun a b => snd b <= snd a).

(** Truth value of a dict or list: non-empty. *)
Definition truthy_list {A : Type} (l : list A) : bool :=
  match l with
  | [] => false
  | _ :: _ => true
  end.
End Py.

(* ================================================================== *)
(** * The data model *)

Local Open Scope string_scope.
Local Open Scope Z_scope.

Record ClassSection : Type := {
  cs_id : Z;
  class_name : string;
  section_name : string
}.

(** [ClassSection.label]. *)
Definition label (s : ClassSection) : string :=
  class_name s ++ "-" ++ section_name s.

Record Student : Type := {
  st_id : Z;
  st_name : string;
  class_section_id : Z
}.

Record Teacher : Type := {
  t_id : Z;
  t_name : string;
  subject : string
}.

Record Staff : Type := {
  sf_id : Z;
  sf_name : string;
  role : string
}.

(** A row of the [note] table.  Nullable columns are options; [created_at]
    is a point of time in microseconds since 1970-01-01. *)
Record Note : Type := {
  id : Z;
  giver_type : string;
  giver_name : option string;
  giver_section_id : option Z;
  receiver_type : string;
  message : string;
  receiver_name_text : option string;
  receiver_section_id : option Z;
  receiver_student_id : option Z;
  receiver_teacher_id : option Z;
  receiver_staff_id : option Z;
  weight_applied : option Z;
  status : string;
  created_at : Z
}.

Record db : Type := {
  sections : list ClassSection;
  students : list Student;
  teachers : list Teacher;
  staff : list Staff;
  notes : list Note
}.

Definition with_notes (d : db) (ns : list Note) : db :=
  {| sections := sections d; students := students d; teachers := teachers d;
     staff := staff d; notes := ns |}.

(** [db.session.get(Model, key)], also the row behind a relationship. *)
Definition get_section (d : db) (k : Z) : option ClassSection :=
  find (fun s => cs_id s =? k) (sections d).

Definition get_student (d : db) (k : Z) : option Student :=
  find (fun s => st_id s =? k) (students d).

Definition get_teacher (d : db) (k : Z) : option Teacher :=
  find (fun t => t_id t =? k) (teachers d).

Definition get_staff (d : db) (k : Z) : option Staff :=
  find (fun s => sf_id s =? k) (staff d).

(** [n.receiver_teacher], [n.receiver_staff], [n.receiver_student]. *)
Definition receiver_teacher (d : db) (n : Note) : option Teacher :=
  match receiver_teacher_id n with
  | Some k => get_teacher d k
  | None => None
  end.

Definition receiver_staff (d : db) (n : Note) : option Staff :=
  match receiver_staff_id n with
  | Some k => get_staff d k
  | None => None
  end.

Definition receiver_student (d : db) (n : Note) : option Student :=
  match receiver_student_id n with
  | Some k => get_student d k
  | None => None
  end.

(** [Note.query.filter_by(status='approved').all()]. *)
Definition is_approved (n : Note) : bool := String.eqb (status n) "approved".

Definition approved_notes (d : db) : list Note := filter is_approved (notes d).

(** Two databases with the same sections, students, teachers and staff. *)
Definition same_tables (d1 d2 : db) : Prop :=
  sections d1 = sections d2 /\ students d1 = students d2 /\
  teachers d1 = teachers d2 /\ staff d1 = staff d2.

(** The database without the notes that are not approved. *)
Definition approved_only (d : db) : db := with_notes d (approved_notes d).

(** The primary key of the next inserted row. *)
Definition next_id (ns : list Note) : Z :=
  1 + fold_left (fun m n => Z.max m (id n)) ns 0.

(** The rows seeded by [create_app]. *)
Definition seed_db : db :=
  {| sections :=
       [ {| cs_id := 1; class_name := "6"; section_name := "A" |};
         {| cs_id := 2; class_name := "7"; section_name := "A" |};
         {| cs_id := 3; class_name := "7"; section_name := "B" |};
         {| cs_id := 4; class_name := "8"; section_name := "A" |};
         {| cs_id := 5; class_name := "8"; section_name := "B" |} ];
     students := [];
     teachers :=
       [ {| t_id := 1; t_name := "Mr. Rahman"; subject := "Mathematics" |};
         {| t_id := 2; t_name := "Ms. Ayesha"; subject := "English" |};
         {| t_id := 3; t_name := "Mr. Kabir"; subject := "Science" |};
         {| t_id := 4; t_name := "Mrs. Sultana"; subject := "Bangla" |} ];
     staff :=
       [ {| sf_id := 1; sf_name := "Anwar"; role := "Security" |};
         {| sf_id := 2; sf_name := "Rina"; role := "Cleaning" |};
         {| sf_id := 3; sf_name := "Masud"; role := "Office Assistant" |} ];
     notes := [] |}.

(* ================================================================== *)
(** * Requests and responses *)

(** [request.form]: the submitted fields in order; [get] returns the first
    value of a field. *)
Definition form_data : Type := list (string * string).

Definition form_get (f : form_data) (k : string) : option string :=
  Py.dict_get String.eqb f k.

Definition form_get_default (f : form_data) (k d : string) : string :=
  match form_get f k with
  | Some v => v
  | None => d
  end.

Record request : Type := {
  method : string;
  form : form_data
}.

(** What a handler answers: a redirect to an endpoint, with the message it
    flashed if any, or a rendered template. *)
Inductive response : Type :=
| Redirect (endpoint : string) (flashed : option (string * string))
| Render (template : string).

(** A bar of a chart. *)
Record bucket : Type := {
  bucket_label : string;
  pct : PyFloat.pyfloat
}.

(** The clock readings of [period_ranges]: [datetime.utcnow()] and its
    truncations to the start of the month and of the year. *)
Record clock : Type := {
  now : Z;
  monthly_start : Z;
  yearly_start : Z
}.

(** [timedelta(days=7)] and [datetime(1970,1,1)], in microseconds. *)
Definition seven_days : Z := 7 * 86400 * 1000000.
Definition epoch : Z := 0.

(* ================================================================== *)
(** * app.py *)

Module App.
Import PyFloat.

Definition period_ranges (c : clock) : list (string * (Z * Z)) :=
  [ ("weekly", (now c - seven_days, now c));
    ("monthly", (monthly_start c, now c));
    ("yearly", (yearly_start c, now c));
    ("alltime", (epoch, now c)) ].

(** ** compute_leaders *)

(** The three dictionaries of the loop. *)
Record tallies : Type := {
  app_sec : Py.dict Z Z;
  appr_sec : Py.dict Z Z;
  top_t : Py.dict Z Z
}.

Definition no_tallies : tallies :=
  {| app_sec := []; appr_sec := []; top_t := [] |}.

(** The query of one window. *)
Definition in_window (start end_ : Z) (n : Note) : bool :=
  is_approved n && (start <=? created_at n) && (created_at n <=? end_).

Definition window_notes (d : db) (start end_ : Z) : list Note :=
  filter (in_window start end_) (notes d).

(** The body of [for n in q]. *)
Definition tally_note (t : tallies) (n : Note) : tallies :=
  let a :=
    match receiver_section_id n with
    | Some s =>
        if String.eqb (receiver_type n) "student" && negb (s =? 0)
        then Py.dict_add Z.eqb (app_sec t) s 1
        else app_sec t
    | None => app_sec t
    end in
  let g :=
    match giver_section_id n with
    | Some s =>
        if String.eqb (giver_type n) "student" && negb (s =? 0)
        then Py.dict_add Z.eqb (appr_sec t) s (Py.or_int (weight_applied n) 1)
        else appr_sec t
    | None => appr_sec t
    end in
  let r :=
    match receiver_teacher_id n with
    | Some k =>
        if String.eqb (receiver_type n) "teacher" && negb (k =? 0)
        then Py.dict_add Z.eqb (top_t t) k 1
        else top_t t
    | None => top_t t
    end in
  {| app_sec := a; appr_sec := g; top_t := r |}.

Definition window_tallies (d : db) (start end_ : Z) : tallies :=
  fold_left tally_note (window_notes d start end_) no_tallies.

(** [max(m.items(), key=lambda x: x[1]) if m else None]. *)
Definition best_of (m : Py.dict Z Z) : exc (option (Z * Z)) :=
  if Py.truthy_list m
  then b <- Py.max_by_count m ;; Ok (Some b)
  else Ok None.

Definition sec_label (d : db) (sec_id : Z) : string :=
  match get_section d sec_id with
  | Some sec => label sec
  | None => "Unknown"
  end.

Definition teacher_label (d : db) (tid : Z) : string :=
  match get_teacher d tid with
  | Some t => t_name t ++ " — " ++ subject t
  | None => "Unknown"
  end.

(** The entry of [out] for one window. *)
Record window_leaders : Type := {
  top_appreciated_section : option string;
  top_appreciator_section : option string;
  top_teacher : option string
}.

Definition winner_text (name : Z -> string) (best : option (Z * Z))
    : option string :=
  match best with
  | Some (k, v) => Some (name k ++ " — " ++ Py.str v)
  | None => None
  end.

Definition leaders_of_window (d : db) (start end_ : Z) : exc window_leaders :=
  let t := window_tallies d start end_ in
  best_app_sec <- best_of (app_sec t) ;;
  best_appr_sec <- best_of (appr_sec t) ;;
  best_teacher <- best_of (top_t t) ;;
  Ok {| top_appreciated_section := winner_text (sec_label d) best_app_sec;
        top_appreciator_section := winner_text (sec_label d) best_appr_sec;
        top_teacher := winner_text (teacher_label d) best_teacher |}.

Fixpoint leaders_of_windows (d : db) (prs : list (string * (Z * Z)))
    : exc (list (string * window_leaders)) :=
  match prs with
  | [] => Ok []
  | (key, (start, end_)) :: rest =>
      w <- leaders_of_window d start end_ ;;
      out <- leaders_of_windows d rest ;;
      Ok ((key, w) :: out)
  end.

Definition compute_leaders (c : clock) (d : db)
    : exc (list (string * window_leaders)) :=
  leaders_of_windows d (period_ranges c).

(** What the three dictionaries are claimed to hold.  A note counts for
    section [s] as received when its receiver is a student of that section,
    for section [s] as given when its giver is a student of that section, for
    teacher [k] when its receiver is that teacher; an id of 0 is no id. *)
Definition student_receiver_in (s : Z) (n : Note) : bool :=
  match receiver_section_id n with
  | Some k => String.eqb (receiver_type n) "student" && negb (k =? 0) && (k =? s)
  | None => false
  end.

Definition student_giver_in (s : Z) (n : Note) : bool :=
  match giver_section_id n with
  | Some k => String.eqb (giver_type n) "student" && negb (k =? 0) && (k =? s)
  | None => false
  end.

Definition teacher_receiver_is (t : Z) (n : Note) : bool :=
  match receiver_teacher_id n with
  | Some k => String.eqb (receiver_type n) "teacher" && negb (k =? 0) && (k =? t)
  | None => false
  end.

(** The value under a key: absent when no note counts for it, else the
    number of the notes, or the sum of their weights. *)
Definition count_entry (ns : list Note) : option Z :=
  match ns with
  | [] => None
  | _ :: _ => Some (Z.of_nat (List.length ns))
  end.

Definition weight_entry (ns : list Note) : option Z :=
  match ns with
  | [] => None
  | _ :: _ =>
      Some (fold_right (fun n s => Py.or_int (weight_applied n) 1 + s) 0 ns)
  end.

(** [e] is the first entry of [m] of maximal count. *)
Definition first_max (e : Z * Z) (m : Py.dict Z Z) : Prop :=
  exists before after,
    m = (before ++ e :: after)%list /\
    (forall x, In x before -> snd x < snd e) /\
    (forall x, In x after -> snd x <= snd e).

(** The selected entry of a dictionary: none if it is empty. *)
Definition selected (m : Py.dict Z Z) (best : option (Z * Z)) : Prop :=
  match best with
  | None => m = []
  | Some e => first_max e m
  end.

(** The key and the amount that a note adds to each dictionary. *)
Definition app_entry (n : Note) : option (Z * Z) :=
  match receiver_section_id n with
  | Some s =>
      if String.eqb (receiver_type n) "student" && negb (s =? 0)
      then Some (s, 1) else None
  | None => None
  end.

Definition appr_entry (n : Note) : option (Z * Z) :=
  match giver_section_id n with
  | Some s =>
      if String.eqb (giver_type n) "student" && negb (s =? 0)
      then Some (s, Py.or_int (weight_applied n) 1) else None
  | None => None
  end.

Definition teacher_entry (n : Note) : option (Z * Z) :=
  match receiver_teacher_id n with
  | Some k =>
      if String.eqb (receiver_type n) "teacher" && negb (k =? 0)
      then Some (k, 1) else None
  | None => None
  end.

(** The entry that [best_of] returns, and the entry of [out] for a window,
    when nothing raises. *)
Definition first_of_max (m : Py.dict Z Z) : option (Z * Z) :=
  match m with
  | [] => None
  | x :: r => Some (Py.max_from x r)
  end.

Definition window_value (d : db) (start end_ : Z) : window_leaders :=
  let t := window_tallies d start end_ in
  {| top_appreciated_section := winner_text (sec_label d) (first_of_max (app_sec t));
     top_appreciator_section := winner_text (sec_label d) (first_of_max (appr_sec t));
     top_teacher := winner_text (teacher_label d) (first_of_max (top_t t)) |}.

(** ** top_four_plus_others

    Defined twice in the source, inside [wall] and inside [leaders], with the
    same text. *)

(** [round(cnt * 100.0 / total, 1)]. *)
Definition pct_of (cnt total : Z) : exc pyfloat :=
  q <- fdiv (fmul (of_int cnt) (literal 100 1)) (of_int total) ;;
  Ok (round1 q).

(** [sum(counts_map.values()) or 1]. *)
Definition total_of (counts_map : Py.dict string Z) : Z :=
  Py.or_int (Some (Py.sum_values counts_map)) 1.

(** The loop over [top]: the state is [(items, acc_pct)]. *)
Fixpoint bars_loop (total : Z) (top : list (string * Z))
    (items : list bucket) (acc_pct : pyfloat) : exc (list bucket * pyfloat) :=
  match top with
  | [] => Ok (items, acc_pct)
  | (name, cnt) :: rest =>
      p <- pct_of cnt total ;;
      bars_loop total rest
        (items ++ [{| bucket_label := name; pct := p |}])%list (fadd acc_pct p)
  end.

(** What [pct_of] returns when the division does not raise, the bar of an
    item and the value of [acc_pct] after the loop. *)
Definition pct_value (cnt total : Z) : pyfloat :=
  round1 (rne (fmul (of_int cnt) (literal 100 1) / of_int total)).

Definition bar_of (total : Z) (e : string * Z) : bucket :=
  {| bucket_label := fst e; pct := pct_value (snd e) total |}.

Definition acc_of (ps : list pyfloat) (start : pyfloat) : pyfloat :=
  fold_left fadd ps start.

(** The sum of the percentages of some bars, read as one-decimal numbers
    and counted in tenths. *)
Definition tenths_sum (bs : list bucket) : Z :=
  fold_right (fun b s => tenths_of (pct b) + s) 0 bs.

(** A count is not negative. *)
Definition counts_nonneg (counts_map : Py.dict string Z) : Prop :=
  Forall (fun e => 0 <= snd e) counts_map.

(** The bars of the top four items, their remainder to 100 in tenths, and
    the [Others] bar that carries it. *)
Definition top_bars (counts_map : Py.dict string Z) : list bucket :=
  map (bar_of (total_of counts_map)) (firstn 4 (Py.sorted_desc counts_map)).

Definition remainder (counts_map : Py.dict string Z) : Z :=
  1000 - tenths_sum (top_bars counts_map).

Definition others_bar (counts_map : Py.dict string Z) : bucket :=
  {| bucket_label := "Others"; pct := of_tenths (remainder counts_map) |}.

(** The percentages from the largest to the smallest. *)
Definition desc_pcts : list bucket -> Prop :=
  StronglySorted (fun a b => (pct b <= pct a)%Q).

(** The exact sum of the float values of some bars, and the bound "100
    plus 0.05 per bar" on it. *)
Definition pct_sum (bs : list bucket) : Q :=
  fold_right (fun b s => (pct b + s)%Q) 0%Q bs.

Definition epsilon_bound (n : nat) : Q :=
  (100 + (5 # 100) * inject_Z (Z.of_nat n))%Q.

(** A bar that is the float of a one-decimal number between 0 and 100. *)
Definition decimal_bar (b : bucket) : Prop :=
  pct b = of_tenths (tenths_of (pct b)) /\ 0 <= tenths_of (pct b) <= 1000.

(** The bound on the sum of the returned float values. *)
Definition sum_within_epsilon (items : list bucket) : Prop :=
  (pct_sum items <= epsilon_bound (List.length items))%Q.

(** The same sum and bound as Python computes them:
    [sum(b["pct"] for b in items)] and [100.0 + 0.05 * len(items)]. *)
Definition float_sum (bs : list bucket) : pyfloat :=
  fold_left (fun s b => fadd s (pct b)) bs (of_int 0).

Definition float_bound (n : nat) : pyfloat :=
  fadd (literal 100 1) (fmul (literal 5 100) (of_int (Z.of_nat n))).

(** [acc_pct] after the loop and [others_pct], as functions of the mapping. *)
Definition acc_pct_of (counts_map : Py.dict string Z) : pyfloat :=
  acc_of (map pct (top_bars counts_map)) (literal 0 1).

Definition others_pct_of (counts_map : Py.dict string Z) : pyfloat :=
  round1 (fmax (literal 0 1) (fsub (literal 100 1) (acc_pct_of counts_map))).

Definition top_four_plus_others (counts_map : Py.dict string Z)
    : exc (list bucket) :=
  let total := total_of counts_map in
  let top := firstn 4 (Py.sorted_desc counts_map) in
  r <- bars_loop total top [] (literal 0 1) ;;
  let '(items, acc_pct) := r in
  let others_pct :=
    round1 (fmax (literal 0 1) (fsub (literal 100 1) acc_pct)) in
  if flt 0%Q others_pct && (List.length top <? List.length counts_map)%nat
  then Ok (items ++ [{| bucket_label := "Others"; pct := others_pct |}])%list
  else Ok items.

(** The bound on the returned values, for every mapping of counts: on the
    exact sum of the floats, and on their sum as Python computes it. *)
Definition sums_within_epsilon : Prop :=
  forall (m : Py.dict string Z) (items : list bucket),
    counts_nonneg m -> top_four_plus_others m = Ok items ->
    sum_within_epsilon items.

Definition float_sums_within_epsilon : Prop :=
  forall (m : Py.dict string Z) (items : list bucket),
    counts_nonneg m -> top_four_plus_others m = Ok items ->
    flt (float_bound (List.length items)) (float_sum items) = false.

(** ** The chart tallies of [wall] and [leaders] *)

Record chart_counts : Type := {
  teacher_counts : Py.dict string Z;
  staff_counts : Py.dict string Z;
  student_counts : Py.dict string Z
}.

Definition no_counts : chart_counts :=
  {| teacher_counts := []; staff_counts := []; student_counts := [] |}.

(** The label of a student receiver: the linked student's name, else the
    free-text name when it is not empty. *)
Definition student_label (d : db) (n : Note) : option string :=
  match receiver_student d n with
  | Some s => Some (st_name s)
  | None => if Py.truthy_str (receiver_name_text n)
            then receiver_name_text n else None
  end.

(** The body of [for n in notes]: an [if]/[elif]/[elif] chain. *)
Definition count_note (d : db) (c : chart_counts) (n : Note) : chart_counts :=
  match (if String.eqb (receiver_type n) "teacher"
         then receiver_teacher d n else None) with
  | Some t =>
      {| teacher_counts := Py.dict_add String.eqb (teacher_counts c) (t_name t) 1;
         staff_counts := staff_counts c;
         student_counts := student_counts c |}
  | None =>
      match (if String.eqb (receiver_type n) "staff"
             then receiver_staff d n else None) with
      | Some s =>
          {| teacher_counts := teacher_counts c;
             staff_counts := Py.dict_add String.eqb (staff_counts c) (sf_name s) 1;
             student_counts := student_counts c |}
      | None =>
          if String.eqb (receiver_type n) "student"
          then
            if Py.truthy_str (student_label d n)
            then
              {| teacher_counts := teacher_counts c;
                 staff_counts := staff_counts c;
                 student_counts :=
                   Py.dict_add String.eqb (student_counts c)
                     (Py.or_str (student_label d n) "") 1 |}
            else c
          else c
      end
  end.

Definition chart_counts_of (d : db) (ns : list Note) : chart_counts :=
  fold_left (count_note d) ns no_counts.

Record bars : Type := {
  bars_teachers : list bucket;
  bars_students : list bucket;
  bars_staffs : list bucket
}.

Definition bars_of (c : chart_counts) : exc bars :=
  t <- top_four_plus_others (teacher_counts c) ;;
  s <- top_four_plus_others (student_counts c) ;;
  f <- top_four_plus_others (staff_counts c) ;;
  Ok {| bars_teachers := t; bars_students := s; bars_staffs := f |}.

(** [order_by(Note.created_at.desc())]: newest first; notes created at the
    same time are kept in table order. *)
Definition newest_first (ns : list Note) : list Note :=
  map fst (Py.sorted_desc (map (fun n => (n, created_at n)) ns)).

(** ** wall: the listed notes and the bars. *)
Definition wall (d : db) : exc (list Note * bars) :=
  let listed := firstn 200 (newest_first (approved_notes d)) in
  b <- bars_of (chart_counts_of d listed) ;;
  Ok (listed, b).

(** ** leaders *)

Record leaders_page : Type := {
  top_appreciators_section : list (Z * Z);
  top_appreciated_section_list : list (Z * Z);
  top_teachers : list (Z * Z);
  leaders_bars : bars
}.

Definition leaders (d : db) : exc leaders_page :=
  let approved := approved_notes d in
  let t := fold_left tally_note approved no_tallies in
  b <- bars_of (chart_counts_of d approved) ;;
  Ok {| top_appreciators_section := firstn 10 (Py.sorted_desc (appr_sec t));
        top_appreciated_section_list := firstn 10 (Py.sorted_desc (app_sec t));
        top_teachers := firstn 10 (Py.sorted_desc (top_t t));
        leaders_bars := b |}.

(** ** certificate *)

Inductive certificate_response : Type :=
| BackToLeaders
| NotEnoughData
| Certificate (category : string) (rank : Z) (winner : string).

(** The three count loops, one per category. *)
Definition teacher_count (d : db) (counts : Py.dict string Z) (n : Note)
    : Py.dict string Z :=
  match (if String.eqb (receiver_type n) "teacher"
         then receiver_teacher d n else None) with
  | Some t => Py.dict_add String.eqb counts (t_name t) 1
  | None => counts
  end.

Definition staff_count (d : db) (counts : Py.dict string Z) (n : Note)
    : Py.dict string Z :=
  match (if String.eqb (receiver_type n) "staff"
         then receiver_staff d n else None) with
  | Some s => Py.dict_add String.eqb counts (sf_name s) 1
  | None => counts
  end.

Definition section_count (counts : Py.dict Z Z) (n : Note) : Py.dict Z Z :=
  match receiver_section_id n with
  | Some s =>
      if String.eqb (receiver_type n) "student" && negb (s =? 0)
      then Py.dict_add Z.eqb counts s 1
      else counts
  | None => counts
  end.

(** [items[rank-1][0] if len(items) >= rank else None]. *)
Definition ranked {K : Type} (items : list (K * Z)) (rank : Z) : option K :=
  if Z.of_nat (List.length items) >=? rank
  then option_map fst (nth_error items (Z.to_nat (rank - 1)))
  else None.

(** The sorted items and the label of each category. *)
Definition certificate_label (d : db) (category : string) (rank : Z)
    : option string :=
  let approved := approved_notes d in
  if String.eqb category "teacher" then
    ranked (Py.sorted_desc (fold_left (teacher_count d) approved [])) rank
  else if String.eqb category "staff" then
    ranked (Py.sorted_desc (fold_left (staff_count d) approved [])) rank
  else
    match ranked (Py.sorted_desc (fold_left section_count approved [])) rank with
    | Some k => option_map label (get_section d k)
    | None => None
    end.

Definition certificate (d : db) (category : string) (rank : Z)
    : certificate_response :=
  if negb (String.eqb category "teacher" || String.eqb category "staff"
           || String.eqb category "student_section")
     || negb ((rank =? 1) || (rank =? 2) || (rank =? 3))
  then BackToLeaders
  else
    let lbl := certificate_label d category rank in
    if Py.truthy_str lbl
    then Certificate category rank (Py.or_str lbl "")
    else NotEnoughData.

(** The key under which a note counts in the teacher and staff categories,
    the three sorted item lists, and the items of a category with the label
    each resolves to: a name unless it is empty, the label of a section
    unless the section is missing. *)
Definition teacher_name_entry (d : db) (n : Note) : option (string * Z) :=
  match (if String.eqb (receiver_type n) "teacher"
         then receiver_teacher d n else None) with
  | Some t => Some (t_name t, 1)
  | None => None
  end.

Definition staff_name_entry (d : db) (n : Note) : option (string * Z) :=
  match (if String.eqb (receiver_type n) "staff"
         then receiver_staff d n else None) with
  | Some s => Some (sf_name s, 1)
  | None => None
  end.

Definition teacher_items (d : db) : list (string * Z) :=
  Py.sorted_desc (fold_left (teacher_count d) (approved_notes d) []).

Definition staff_items (d : db) : list (string * Z) :=
  Py.sorted_desc (fold_left (staff_count d) (approved_notes d) []).

Definition section_items (d : db) : list (Z * Z) :=
  Py.sorted_desc (fold_left section_count (approved_notes d) []).

Definition shown (s : string) : option string :=
  if String.eqb s "" then None else Some s.

Definition category_items (d : db) (category : string)
    : list (option string * Z) :=
  if String.eqb category "teacher" then
    map (fun e => (shown (fst e), snd e)) (teacher_items d)
  else if String.eqb category "staff" then
    map (fun e => (shown (fst e), snd e)) (staff_items d)
  else
    map (fun e => (option_map label (get_section d (fst e)), snd e))
      (section_items d).

Definition valid_category (category : string) : Prop :=
  category = "teacher" \/ category = "staff" \/ category = "student_section".

Definition valid_rank (rank : Z) : Prop := rank = 1 \/ rank = 2 \/ rank = 3.

(** The failure of [certificate] as claimed: exactly when the category has
    fewer than [rank] entries. *)
Definition fails_iff_too_few (d : db) (category : string) (rank : Z) : Prop :=
  certificate d category rank = NotEnoughData <->
  Z.of_nat (List.length (category_items d category)) < rank.

(** ** The submission handlers *)

(** The fields read by the three forms. *)
Definition field_giver_type (f : form_data) : string :=
  Py.strip (form_get_default f "giver_type" "student").

Definition field_stripped (f : form_data) (k : string) : string :=
  Py.strip (Py.or_str (form_get f k) "").

(** [request.form.get(k) or None]. *)
Definition field_or_none (f : form_data) (k : string) : option string :=
  if Py.truthy_str (form_get f k) then form_get f k else None.

(** [int(x) if x else None]. *)
Definition int_or_none (x : option string) : exc (option Z) :=
  match x with
  | Some s => z <- Py.int s ;; Ok (Some z)
  | None => Ok None
  end.

(** The database with one more note at the end of the table. *)
Definition add_note (d : db) (n : Note) : db :=
  with_notes d (notes d ++ [n])%list.

(** An [INTEGER] of the database holds 64 bits: binding an [int] outside
    them raises [OverflowError]. *)
Definition fits_integer (z : Z) : bool :=
  (- 2 ^ 63 <=? z) && (z <? 2 ^ 63).

Definition column_fits (c : option Z) : bool :=
  match c with
  | Some z => fits_integer z
  | None => true
  end.

(** [db.session.add(note); db.session.commit()]: the note is stored, unless
    one of the ids that the form gave it does not fit its column; then the
    commit raises and nothing is stored.  (The other integer columns of a
    note that a handler builds are unset or hold the weight 1 or 2.) *)
Definition insert_note (d : db) (n : Note) : exc db :=
  if column_fits (giver_section_id n) && column_fits (receiver_section_id n)
     && column_fits (receiver_teacher_id n) && column_fits (receiver_staff_id n)
  then Ok (add_note d n)
  else Raise OverflowError.

Definition flash_error (endpoint msg : string) : response :=
  Redirect endpoint (Some (msg, "error")).

Definition thanks : response :=
  Redirect "wall"
    (Some ("Thanks! Your appreciation is pending admin approval.", "ok")).

(** [str(x)] for a form field: [str(None)] is ["None"]. *)
Definition str_of_field (x : option string) : string :=
  match x with
  | Some s => s
  | None => "None"
  end.

(** The weight of a note to a student: the two section fields are compared
    as submitted. *)
Definition weight_of (giver_type : string) (giver_section_id : option string)
    (receiver_section_id : option string) : Z :=
  if String.eqb giver_type "student" && Py.truthy_str giver_section_id
  then
    if negb (String.eqb (str_of_field giver_section_id)
               (str_of_field receiver_section_id))
    then 2 else 1
  else 1.

Definition post_student (t : Z) (rq : request) (d : db) : exc (db * response) :=
  if String.eqb (method rq) "POST" then
    let f := form rq in
    let giver_type := field_giver_type f in
    let giver_name := field_stripped f "giver_name" in
    let giver_section_id := field_or_none f "giver_section_id" in
    let receiver_name := field_stripped f "receiver_name" in
    let receiver_section_id := form_get f "receiver_section_id" in
    let message := field_stripped f "message" in
    if String.eqb giver_type "teacher" && String.eqb giver_name "" then
      Ok (d, flash_error "post_student" "Teacher name is required.")
    else if String.eqb giver_type "student"
            && negb (Py.truthy_str giver_section_id) then
      Ok (d, flash_error "post_student"
               "Please select your own Class–Section.")
    else if String.eqb receiver_name ""
            || negb (Py.truthy_str receiver_section_id) then
      Ok (d, flash_error "post_student"
               "Please enter the student name and select their Class–Section.")
    else if String.eqb message "" then
      Ok (d, flash_error "post_student"
               "Please write a short appreciation message.")
    else
      let giver_name :=
        if String.eqb giver_type "student" && String.eqb giver_name ""
        then "Anonymous" else giver_name in
      let weight := weight_of giver_type giver_section_id receiver_section_id in
      g <- int_or_none giver_section_id ;;
      r <- Py.int (Py.or_str receiver_section_id "") ;;
      let note :=
        {| id := next_id (notes d);
           giver_type := giver_type;
           giver_name := Some giver_name;
           giver_section_id := g;
           receiver_type := "student";
           message := message;
           receiver_name_text := Some receiver_name;
           receiver_section_id := Some r;
           receiver_student_id := None;
           receiver_teacher_id := None;
           receiver_staff_id := None;
           weight_applied := Some weight;
           status := "pending";
           created_at := t |} in
      d' <- insert_note d note ;;
      Ok (d', thanks)
  else Ok (d, Render "post_student.html").

Definition post_teacher (t : Z) (rq : request) (d : db) : exc (db * response) :=
  if String.eqb (method rq) "POST" then
    let f := form rq in
    let giver_type := field_giver_type f in
    let giver_name := field_stripped f "giver_name" in
    let giver_section_id := field_or_none f "giver_section_id" in
    let teacher_id := form_get f "teacher_id" in
    let message := field_stripped f "message" in
    if String.eqb giver_type "teacher" && String.eqb giver_name "" then
      Ok (d, flash_error "post_teacher" "Teacher name is required.")
    else if String.eqb giver_type "student"
            && negb (Py.truthy_str giver_section_id) then
      Ok (d, flash_error "post_teacher" "Please select your Class–Section.")
    else if negb (Py.truthy_str teacher_id) || String.eqb message "" then
      Ok (d, flash_error "post_teacher"
               "Please select a teacher and write a message.")
    else
      let giver_name :=
        if String.eqb giver_type "student" && String.eqb giver_name ""
        then "Anonymous" else giver_name in
      g <- int_or_none giver_section_id ;;
      k <- Py.int (Py.or_str teacher_id "") ;;
      let note :=
        {| id := next_id (notes d);
           giver_type := giver_type;
           giver_name := Some giver_name;
           giver_section_id := g;
           receiver_type := "teacher";
           message := message;
           receiver_name_text := None;
           receiver_section_id := None;
           receiver_student_id := None;
           receiver_teacher_id := Some k;
           receiver_staff_id := None;
           weight_applied := Some 1;
           status := "pending";
           created_at := t |} in
      d' <- insert_note d note ;;
      Ok (d', thanks)
  else Ok (d, Render "post_teacher.html").

Definition post_staff (t : Z) (rq : request) (d : db) : exc (db * response) :=
  if String.eqb (method rq) "POST" then
    let f := form rq in
    let giver_type := field_giver_type f in
    let giver_name := field_stripped f "giver_name" in
    let giver_section_id := field_or_none f "giver_section_id" in
    let staff_id := form_get f "staff_id" in
    let message := field_stripped f "message" in
    if String.eqb giver_type "teacher" && String.eqb giver_name "" then
      Ok (d, flash_error "post_staff" "Teacher name is required.")
    else if String.eqb giver_type "student"
            && negb (Py.truthy_str giver_section_id) then
      Ok (d, flash_error "post_staff" "Please select your Class–Section.")
    else if negb (Py.truthy_str staff_id) || String.eqb message "" then
      Ok (d, flash_error "post_staff"
               "Please select a staff member and write a message.")
    else
      let giver_name :=
        if String.eqb giver_type "student" && String.eqb giver_name ""
        then "Anonymous" else giver_name in
      g <- int_or_none giver_section_id ;;
      k <- Py.int (Py.or_str staff_id "") ;;
      let note :=
        {| id := next_id (notes d);
           giver_type := giver_type;
           giver_name := Some giver_name;
           giver_section_id := g;
           receiver_type := "staff";
           message := message;
           receiver_name_text := None;
           receiver_section_id := None;
           receiver_student_id := None;
           receiver_teacher_id := None;
           receiver_staff_id := Some k;
           weight_applied := Some 1;
           status := "pending";
           created_at := t |} in
      d' <- insert_note d note ;;
      Ok (d', thanks)
  else Ok (d, Render "post_staff.html").

(** ** admin_note_action, for an administrator ([admin_ok] in the session) *)

Definition set_status (s : string) (n : Note) : Note :=
  {| id := id n; giver_type := giver_type n; giver_name := giver_name n;
     giver_section_id := giver_section_id n; receiver_type := receiver_type n;
     message := message n; receiver_name_text := receiver_name_text n;
     receiver_section_id := receiver_section_id n;
     receiver_student_id := receiver_student_id n;
     receiver_teacher_id := receiver_teacher_id n;
     receiver_staff_id := receiver_staff_id n;
     weight_applied := weight_applied n; status := s;
     created_at := created_at n |}.

Definition admin_note_action (admin_ok : bool) (nid : Z) (action : string)
    (d : db) : db :=
  if admin_ok then
    let s n :=
      if String.eqb action "approve" then "approved"
      else if String.eqb action "hide" then "hidden"
      else if String.eqb action "unhide" then "approved"
      else status n in
    with_notes d
      (map (fun n => if id n =? nid then set_status (s n) n else n) (notes d))
  else d.
End App.

(* ================================================================== *)
(** * r.py: the submission handlers *)

Module R.
(** The keyword arguments of [Note(...)].  The handlers pass the section,
    teacher and staff fields of the form to the integer columns as
    submitted. *)
Record NoteRow : Type := {
  giver_type : string;
  giver_name : string;
  giver_section_id : option string;
  receiver_type : string;
  receiver_name_text : option string;
  receiver_section_id : option string;
  receiver_teacher_id : option string;
  receiver_staff_id : option string;
  message : string;
  weight_applied : Z;
  status : string
}.

Definition field_giver_type (f : form_data) : string :=
  Py.strip (form_get_default f "giver_type" "student").

(** [giver_name or ('Anonymous' if giver_type == 'student' else '')]. *)
Definition shown_giver (giver_type giver_name : string) : string :=
  if String.eqb giver_name ""
  then (if String.eqb giver_type "student" then "Anonymous" else "")
  else giver_name.

Definition weight_of (giver_type : string) (giver_section_id : option string)
    (receiver_section_id : option string) : Z :=
  if String.eqb giver_type "student" && Py.truthy_str giver_section_id
     && Py.truthy_str receiver_section_id
     && negb (String.eqb (Py.or_str giver_section_id "")
                (Py.or_str receiver_section_id ""))
  then 2 else 1.

Definition posted : response :=
  Redirect "wall"
    (Some ("Note posted successfully and pending approval.", "success")).

Definition post_student (rq : request) (rows : list NoteRow)
    : list NoteRow * response :=
  if String.eqb (method rq) "POST" then
    let f := form rq in
    let giver_type := field_giver_type f in
    let giver_name := Py.strip (Py.or_str (form_get f "giver_name") "") in
    let giver_section_id := form_get f "giver_section_id" in
    if String.eqb giver_type "teacher" && String.eqb giver_name "" then
      (rows, Redirect "post_student"
               (Some ("Teacher giver must provide a name.", "error")))
    else
      let receiver_name := Py.strip (form_get_default f "receiver_name" "") in
      let receiver_section_id := form_get f "receiver_section_id" in
      let message := Py.strip (form_get_default f "message" "") in
      if String.eqb receiver_name "" || String.eqb message "" then
        (rows, Redirect "post_student"
                 (Some ("Receiver name and message are required.", "error")))
      else
        let weight := weight_of giver_type giver_section_id receiver_section_id in
        let note :=
          {| giver_type := giver_type;
             giver_name := shown_giver giver_type giver_name;
             giver_section_id := giver_section_id;
             receiver_type := "student";
             receiver_name_text := Some receiver_name;
             receiver_section_id := receiver_section_id;
             receiver_teacher_id := None;
             receiver_staff_id := None;
             message := message;
             weight_applied := weight;
             status := "pending" |} in
        ((rows ++ [note])%list, posted)
  else (rows, Render "post_student.html").

Definition post_teacher (rq : request) (rows : list NoteRow)
    : list NoteRow * response :=
  if String.eqb (method rq) "POST" then
    let f := form rq in
    let giver_type := field_giver_type f in
    let giver_name := Py.strip (Py.or_str (form_get f "giver_name") "") in
    let giver_section_id := form_get f "giver_section_id" in
    if String.eqb giver_type "teacher" && String.eqb giver_name "" then
      (rows, Redirect "post_teacher"
               (Some ("Teacher giver must provide a name.", "error")))
    else
      let receiver_teacher_id := form_get f "receiver_teacher_id" in
      let message := Py.strip (form_get_default f "message" "") in
      if negb (Py.truthy_str receiver_teacher_id) || String.eqb message "" then
        (rows, Redirect "post_teacher"
                 (Some ("Receiver teacher and message are required.", "error")))
      else
        let note :=
          {| giver_type := giver_type;
             giver_name := shown_giver giver_type giver_name;
             giver_section_id := giver_section_id;
             receiver_type := "teacher";
             receiver_name_text := None;
             receiver_section_id := None;
             receiver_teacher_id := receiver_teacher_id;
             receiver_staff_id := None;
             message := message;
             weight_applied := 1;
             status := "pending" |} in
        ((rows ++ [note])%list, posted)
  else (rows, Render "post_teacher.html").

Definition post_staff (rq : request) (rows : list NoteRow)
    : list NoteRow * response :=
  if String.eqb (method rq) "POST" then
    let f := form rq in
    let giver_type := field_giver_type f in
    let giver_name := Py.strip (Py.or_str (form_get f "giver_name") "") in
    let giver_section_id := form_get f "giver_section_id" in
    if String.eqb giver_type "teacher" && String.eqb giver_name "" then
      (rows, Redirect "post_staff"
               (Some ("Teacher giver must provide a name.", "error")))
    else
      let receiver_staff_id := form_get f "receiver_staff_id" in
      let message := Py.strip (form_get_default f "message" "") in
      if negb (Py.truthy_str receiver_staff_id) || String.eqb message "" then
        (rows, Redirect "post_staff"
                 (Some ("Receiver staff and message are required.", "error")))
      else
        let note :=
          {| giver_type := giver_type;
             giver_name := shown_giver giver_type giver_name;
             giver_section_id := giver_section_id;
             receiver_type := "staff";
             receiver_name_text := None;
             receiver_section_id := None;
             receiver_teacher_id := None;
             receiver_staff_id := receiver_staff_id;
             message := message;
             weight_applied := 1;
             status := "pending" |} in
        ((rows ++ [note])%list, posted)
  else (rows, Render "post_staff.html").
End R.

(* ================================================================== *)
(** * What a submission does to the notes *)

(** Nothing, or one more note, which satisfies [P]; the other tables stay. *)
Definition adds_at_most (P : Note -> Prop) (d d' : db) : Prop :=
  same_tables d d' /\
  (notes d' = notes d \/ exists n, notes d' = (notes d ++ [n])%list /\ P n).

Definition adds_row_at_most (P : R.NoteRow -> Prop)
    (rows rows' : list R.NoteRow) : Prop :=
  rows' = rows \/ exists n, rows' = (rows ++ [n])%list /\ P n.

(* ================================================================== *)
(** * Concrete inputs *)

Module Examples.
Import App.

(** A handler run on a database: the database it leaves. *)
Definition after (h : db -> exc (db * response)) (d : db) : db :=
  match h d with
  | Ok (d', _) => d'
  | Raise _ => d
  end.

Definition post (fields : form_data) : request :=
  {| method := "POST"; form := fields |}.

(** A point of time, and a clock that reads one hour later in the same
    month and year. *)
Definition t0 : Z := 1762000000000000.

Definition clock0 : clock :=
  {| now := t0 + 3600000000;
     monthly_start := t0 - 86400000000;
     yearly_start := t0 - 300 * 86400000000 |}.

(** Student A of 6-A thanks a student of 6-A, student B of 6-A thanks a
    student of 7-A; the administrator approves both notes. *)
Definition form_same_section : request :=
  post [ ("giver_type", "student"); ("giver_name", "A");
         ("giver_section_id", "1"); ("receiver_name", "C");
         ("receiver_section_id", "1"); ("message", "Thank you") ].

Definition form_cross_section : request :=
  post [ ("giver_type", "student"); ("giver_name", "B");
         ("giver_section_id", "1"); ("receiver_name", "D");
         ("receiver_section_id", "2"); ("message", "Thank you") ].

Definition two_notes_db : db :=
  admin_note_action true 2 "approve"
    (admin_note_action true 1 "approve"
       (after (post_student t0 form_cross_section)
          (after (post_student t0 form_same_section) seed_db))).

(** A note to a student of a section that does not exist, approved. *)
Definition form_unknown_section : request :=
  post [ ("giver_type", "student"); ("giver_section_id", "1");
         ("receiver_name", "E"); ("receiver_section_id", "999");
         ("message", "Thank you") ].

Definition unknown_section_db : db :=
  admin_note_action true 1 "approve"
    (after (post_student t0 form_unknown_section) seed_db).

(** A student of section 1 thanks a student of section 1, the receiver's
    section being submitted as "01". *)
Definition form_noncanonical : request :=
  post [ ("giver_type", "student"); ("giver_name", "A");
         ("giver_section_id", "1"); ("receiver_name", "C");
         ("receiver_section_id", "01"); ("message", "Thank you") ].

(** The same database after a third note was submitted and left pending,
    and after that note was hidden. *)
Definition form_teacher : request :=
  post [ ("giver_type", "student"); ("giver_section_id", "2");
         ("teacher_id", "3"); ("message", "Great lessons") ].

Definition with_pending_db : db :=
  after (post_teacher t0 form_teacher) two_notes_db.

Definition with_hidden_db : db :=
  admin_note_action true 3 "hide" with_pending_db.

(** The teacher counts of the specification's example. *)
Definition teacher_counts_5 : Py.dict string Z :=
  [("T1", 10); ("T2", 7); ("T3", 5); ("T4", 3); ("T5", 1)].

(** Two labels whose percentages are both rounded up from a tie. *)
Definition two_ties : Py.dict string Z := [("a", 1923); ("b", 77)].

(** Five labels whose four largest percentages add up to 100.0. *)
Definition full_top : Py.dict string Z :=
  [("a", 30); ("b", 4453); ("c", 2); ("d", 3); ("e", 5)].
End Examples.

(* ================================================================== *)
(** * app.py: the rows seeded at start-up *)

Module Startup.
(** The primary key of a new row: one more than the largest of the table. *)
Definition fresh_id (ids : list Z) : Z := 1 + fold_left Z.max ids 0.

Definition with_sections (d : db) (l : list ClassSection) : db :=
  {| sections := l; students := students d; teachers := teachers d;
     staff := staff d; notes := notes d |}.

Definition with_teachers (d : db) (l : list Teacher) : db :=
  {| sections := sections d; students := students d; teachers := l;
     staff := staff d; notes := notes d |}.

Definition with_staff (d : db) (l : list Staff) : db :=
  {| sections := sections d; students := students d; teachers := teachers d;
     staff := l; notes := notes d |}.

(** [Model.query.filter_by(...).first()] on the two text columns. *)
Definition section_named (d : db) (c s : string) : option ClassSection :=
  find (fun x => String.eqb (class_name x) c && String.eqb (section_name x) s)
    (sections d).

Definition teacher_named (d : db) (name subj : string) : option Teacher :=
  find (fun x => String.eqb (t_name x) name && String.eqb (subject x) subj)
    (teachers d).

Definition staff_named (d : db) (name r : string) : option Staff :=
  find (fun x => String.eqb (sf_name x) name && String.eqb (role x) r)
    (staff d).

(** [db.session.add(Model(...))], flushed. *)
Definition add_section (d : db) (c s : string) : db :=
  with_sections d
    (sections d ++
     [ {| cs_id := fresh_id (map cs_id (sections d));
          class_name := c; section_name := s |} ])%list.

Definition add_teacher (d : db) (name subj : string) : db :=
  with_teachers d
    (teachers d ++
     [ {| t_id := fresh_id (map t_id (teachers d));
          t_name := name; subject := subj |} ])%list.

Definition add_staff (d : db) (name r : string) : db :=
  with_staff d
    (staff d ++
     [ {| sf_id := fresh_id (map sf_id (staff d));
          sf_name := name; role := r |} ])%list.

Definition default_sections : list (string * string) :=
  [("6", "A"); ("7", "A"); ("7", "B"); ("8", "A"); ("8", "B")].

Definition default_teachers : list (string * string) :=
  [ ("Mr. Rahman", "Mathematics"); ("Ms. Ayesha", "English");
    ("Mr. Kabir", "Science"); ("Mrs. Sultana", "Bangla") ].

Definition default_staff : list (string * string) :=
  [("Anwar", "Security"); ("Rina", "Cleaning"); ("Masud", "Office Assistant")].

(** The bodies of the three seeding loops. *)
Definition seed_section (d : db) (e : string * string) : db :=
  match section_named d (fst e) (snd e) with
  | Some _ => d
  | None => add_section d (fst e) (snd e)
  end.

Definition seed_teacher (d : db) (e : string * string) : db :=
  match teacher_named d (fst e) (snd e) with
  | Some _ => d
  | None => add_teacher d (fst e) (snd e)
  end.

Definition seed_staff (d : db) (e : string * string) : db :=
  match staff_named d (fst e) (snd e) with
  | Some _ => d
  | None => add_staff d (fst e) (snd e)
  end.

(** The seeding of [create_app], run on the database found at start-up. *)
Definition seed_defaults (d : db) : db :=
  fold_left seed_staff default_staff
    (fold_left seed_teacher default_teachers
       (fold_left seed_section default_sections d)).

Definition empty_db : db :=
  {| sections := []; students := []; teachers := []; staff := []; notes := [] |}.

(** No two sections with the same class and section name (the constraint
    [uix_class_section]), no two teachers with the same name and subject. *)
Definition section_key (s : ClassSection) : string * string :=
  (class_name s, section_name s).

Definition teacher_key (t : Teacher) : string * string := (t_name t, subject t).

Definition staff_key (s : Staff) : string * string := (sf_name s, role s).

Definition unique_sections (d : db) : Prop :=
  NoDup (map section_key (sections d)) /\ NoDup (map cs_id (sections d)).

Definition unique_teachers (d : db) : Prop :=
  NoDup (map teacher_key (teachers d)) /\ NoDup (map t_id (teachers d)).

Definition unique_staff (d : db) : Prop :=
  NoDup (map staff_key (staff d)) /\ NoDup (map sf_id (staff d)).
(** A row found by its key of two text columns. *)
Definition has_key {Row : Type} (key : Row -> string * string)
    (k : string * string) (x : Row) : bool :=
  String.eqb (fst (key x)) (fst k) && String.eqb (snd (key x)) (snd k).

(** The three seeding loops, one after the other, and what a loop leaves
    alone. *)
Definition seeded_sections (d : db) : db :=
  fold_left seed_section default_sections d.

Definition seeded_teachers (d : db) : db :=
  fold_left seed_teacher default_teachers d.

Definition seeded_staff (d : db) : db := fold_left seed_staff default_staff d.

Definition others_kept (d d' : db) : Prop :=
  students d' = students d /\ notes d' = notes d.

(** The three seeded tables hold no row twice. *)
Definition unique_tables (d : db) : Prop :=
  unique_sections d /\ unique_teachers d /\ unique_staff d.
End Startup.

(* ================================================================== *)
(** * app.py: users, sessions and the remaining routes *)

Module Site.
Import App Startup.

(** [str.upper] and [str.lower] on the ASCII letters; letters outside ASCII
    are not modelled. *)
Definition upper_char (c : ascii) : ascii :=
  let n := nat_of_ascii c in
  if (97 <=? n)%nat && (n <=? 122)%nat then ascii_of_nat (n - 32) else c.

Definition lower_char (c : ascii) : ascii :=
  let n := nat_of_ascii c in
  if (65 <=? n)%nat && (n <=? 90)%nat then ascii_of_nat (n + 32) else c.

Fixpoint upper (s : string) : string :=
  match s with
  | String c r => String (upper_char c) (upper r)
  | EmptyString => EmptyString
  end.

Fixpoint lower (s : string) : string :=
  match s with
  | String c r => String (lower_char c) (lower r)
  | EmptyString => EmptyString
  end.

(** [s.startswith(p)]. *)
Definition startswith (s p : string) : bool := String.prefix p s.

(** A row of the [user] table. *)
Record User : Type := {
  u_id : Z;
  u_role : string;
  u_name : string;
  u_class_section_id : option Z;
  username : string;
  password_hash : string;
  u_created_at : Z
}.

(** The session of a client: the keys [uid], [unlocked] and [admin_ok], and
    the [permanent] flag.  The messages a handler flashes are given with its
    response. *)
Record session : Type := {
  uid : option Z;
  unlocked : option bool;
  admin_ok : option bool;
  permanent : bool
}.

Definition new_session : session :=
  {| uid := None; unlocked := None; admin_ok := None; permanent := false |}.

(** The configuration: the PIN of the administrator, and the two password
    functions of the library; [generate_password_hash] is given the salt
    that it draws. *)
Record config : Type := {
  ADMIN_PIN : string;
  generate_password_hash : string -> string -> string;
  check_password_hash : string -> string -> bool
}.

(** [session.get(key) is True]. *)
Definition is_true (b : option bool) : bool :=
  match b with
  | Some true => true
  | _ => false
  end.

Definition admin_required (s : session) : bool := is_true (admin_ok s).

Definition current_user (us : list User) (s : session) : option User :=
  match uid s with
  | Some k => if k =? 0 then None else find (fun u => u_id u =? k) us
  | None => None
  end.

(** ** require_unlock, run before every request: [None] lets the request
    through. *)
Definition allowed : list string :=
  ["auth_login"; "auth_register"; "auth_logout"; "lock"].

Definition require_unlock (endpoint : option string) (path : string)
    (us : list User) (s : session) : option response :=
  if match endpoint with
     | Some e => existsb (String.eqb e) allowed
     | None => false
     end || startswith path "/static"
  then None
  else if match current_user us s with Some _ => true | None => false end
          || is_true (unlocked s)
  then None
  else Some (Redirect "lock" None).

(** ** home *)
Record home_page : Type := {
  counts_pending : Z;
  counts_approved : Z;
  counts_hidden : Z;
  recent : list Note;
  leader : list (string * window_leaders);
  school : list (string * string)
}.

(** [Note.query.filter_by(status=s)], and its [count()]. *)
Definition with_status (s : string) (d : db) : list Note :=
  filter (fun n => String.eqb (status n) s) (notes d).

Definition count_status (s : string) (d : db) : Z :=
  Z.of_nat (List.length (with_status s d)).

Definition home (c : clock) (d : db) : exc home_page :=
  let recent := firstn 5 (newest_first (with_status "approved" d)) in
  leader <- compute_leaders c d ;;
  Ok {| counts_pending := count_status "pending" d;
        counts_approved := count_status "approved" d;
        counts_hidden := count_status "hidden" d;
        recent := recent;
        leader := leader;
        school := [ ("name", "Green Valley High School");
                    ("motto", "Kindness Every Day"); ("session", "2025") ] |}.

(** ** auth_register, auth_login, auth_logout, lock *)

(** [request.form.get(k) == v]. *)
Definition field_is (f : form_data) (k v : string) : bool :=
  match form_get f k with
  | Some x => String.eqb x v
  | None => false
  end.

Definition auth_register (cfg : config) (t : Z) (salt : string) (rq : request)
    (us : list User) : exc (list User * response) :=
  if String.eqb (method rq) "POST" then
    let f := form rq in
    let role := field_stripped f "role" in
    let name := field_stripped f "name" in
    let username_ := lower (field_stripped f "username") in
    let password := Py.or_str (form_get f "password") "" in
    let section_id := field_or_none f "class_section_id" in
    if negb (existsb (String.eqb role) ["student"; "teacher"; "staff"]) then
      Ok (us, flash_error "auth_register" "Select a valid role")
    else if String.eqb name "" || String.eqb username_ ""
            || String.eqb password "" then
      Ok (us, flash_error "auth_register" "Fill all required fields")
    else match find (fun u => String.eqb (username u) username_) us with
    | Some _ => Ok (us, flash_error "auth_register" "Username already taken")
    | None =>
      sec <- (if String.eqb role "student" && Py.truthy_str section_id
              then int_or_none section_id else Ok None) ;;
      let u :=
        {| u_id := fresh_id (map u_id us);
           u_role := role;
           u_name := name;
           u_class_section_id := sec;
           username := username_;
           password_hash := generate_password_hash cfg salt password;
           u_created_at := t |} in
      if column_fits sec then
        Ok ((us ++ [u])%list,
            Redirect "auth_login" (Some ("Account created. Please sign in.", "ok")))
      else Raise OverflowError
    end
  else Ok (us, Render "auth_register.html").

Definition auth_login (cfg : config) (rq : request) (us : list User)
    (s : session) : session * response :=
  if String.eqb (method rq) "POST" then
    let f := form rq in
    let username_ := lower (field_stripped f "username") in
    let password := Py.or_str (form_get f "password") "" in
    let remember := field_is f "remember" "1" in
    match find (fun u => String.eqb (username u) username_) us with
    | Some u =>
        if check_password_hash cfg (password_hash u) password then
          ({| uid := Some (u_id u);
              unlocked := Some true;
              admin_ok := admin_ok s;
              permanent := if remember then true else permanent s |},
           Redirect "home" (Some ("Welcome back, " ++ u_name u, "ok")))
        else (s, flash_error "auth_login" "Invalid credentials")
    | None => (s, flash_error "auth_login" "Invalid credentials")
    end
  else (s, Render "auth_login.html").

Definition auth_logout (s : session) : session * response :=
  ({| uid := None; unlocked := Some false; admin_ok := admin_ok s;
      permanent := permanent s |},
   Redirect "home" (Some ("Signed out.", "ok"))).

Definition lock (rq : request) (s : session) : session * response :=
  if String.eqb (method rq) "POST" then
    ({| uid := uid s; unlocked := Some true; admin_ok := admin_ok s;
        permanent := permanent s |},
     Redirect "home" None)
  else (s, Render "lock.html").

(** ** The routes of the administrator *)

(** What a request is answered with: a response, a rendered page with a
    message flashed before it, a static file, "not found", "method not
    allowed", the answer to an OPTIONS request, or the failure that an
    exception of the handler ends in. *)
Inductive outcome : Type :=
| Sent (r : response)
| SentFlashed (flashed : string * string) (r : response)
| StaticFile
| NotFound
| MethodNotAllowed
| OptionsReply
| ServerError (e : pyerror).

Definition admin_login (cfg : config) (rq : request) (s : session)
    : session * outcome :=
  if String.eqb (method rq) "POST" then
    if field_is (form rq) "pin" (ADMIN_PIN cfg) then
      ({| uid := uid s; unlocked := unlocked s; admin_ok := Some true;
          permanent := permanent s |},
       Sent (Redirect "admin_panel" None))
    else (s, SentFlashed ("Wrong PIN", "error") (Render "admin_login.html"))
  else (s, Sent (Render "admin_login.html")).

(** [session.clear()]. *)
Definition admin_logout (s : session) : session * response :=
  (new_session, Redirect "home" None).

(** [db.session.get(Note, nid)].  A key beyond the 64 bits of the column is
    the key of no row; that the lookup of such a key fails, changing
    nothing, is not modelled. *)
Definition get_note (d : db) (nid : Z) : option Note :=
  find (fun n => id n =? nid) (notes d).

Definition admin_delete (admin : bool) (nid : Z) (d : db) : db * response :=
  if admin then
    match get_note d nid with
    | Some _ =>
        (with_notes d (filter (fun n => negb (id n =? nid)) (notes d)),
         Redirect "admin_panel" (Some ("Note permanently deleted.", "ok")))
    | None => (d, Redirect "admin_panel" None)
    end
  else (d, Redirect "admin_login" None).

(** The response of [admin_note_action]. *)
Definition admin_note_action_response (admin : bool) : response :=
  if admin then Redirect "admin_panel" None else Redirect "admin_login" None.

(** The three lists of notes of the admin panel.  The lists of sections,
    teachers and staff, which the page shows in the order of the database's
    collation, are left out. *)
Record panel_page : Type := {
  pending : list Note;
  approved : list Note;
  hidden : list Note
}.

Definition panel_notes (d : db) : panel_page :=
  {| pending := newest_first (with_status "pending" d);
     approved := newest_first (with_status "approved" d);
     hidden := newest_first (with_status "hidden" d) |}.

Definition admin_panel (admin : bool) (rq : request) (d : db)
    : db * response :=
  if negb admin then (d, Redirect "admin_login" None)
  else
    let f := form rq in
    if String.eqb (method rq) "POST" && field_is f "form" "section" then
      let c := field_stripped f "class_name" in
      let s := upper (field_stripped f "section_name") in
      if negb (String.eqb c "") && negb (String.eqb s "") then
        match section_named d c s with
        | None =>
            (add_section d c s,
             Redirect "admin_panel" (Some ("Section added.", "ok")))
        | Some _ =>
            (d, Redirect "admin_panel" (Some ("Section exists.", "error")))
        end
      else (d, Redirect "admin_panel" None)
    else if String.eqb (method rq) "POST" && field_is f "form" "teacher" then
      let tname := field_stripped f "teacher_name" in
      let tsubj := field_stripped f "teacher_subject" in
      if negb (String.eqb tname "") && negb (String.eqb tsubj "") then
        match teacher_named d tname tsubj with
        | Some _ =>
            (d, Redirect "admin_panel" (Some ("Teacher already exists.", "error")))
        | None =>
            (add_teacher d tname tsubj,
             Redirect "admin_panel" (Some ("Teacher added.", "ok")))
        end
      else
        (d, Redirect "admin_panel"
              (Some ("Please provide teacher name and subject.", "error")))
    else (d, Render "admin_panel.html").

(** ** The application: a request is matched to an endpoint, passes
    [require_unlock] and is handled. *)

Inductive endpoint : Type :=
| Ep_static
| Ep_home
| Ep_post_student
| Ep_post_teacher
| Ep_post_staff
| Ep_wall
| Ep_leaders
| Ep_auth_register
| Ep_auth_login
| Ep_auth_logout
| Ep_lock
| Ep_certificate (category : string) (rank : Z)
| Ep_admin_delete (nid : Z)
| Ep_admin_login
| Ep_admin_logout
| Ep_admin_panel
| Ep_admin_note_action (nid : Z) (action : string).

(** [request.endpoint]. *)
Definition endpoint_name (e : endpoint) : string :=
  match e with
  | Ep_static => "static"
  | Ep_home => "home"
  | Ep_post_student => "post_student"
  | Ep_post_teacher => "post_teacher"
  | Ep_post_staff => "post_staff"
  | Ep_wall => "wall"
  | Ep_leaders => "leaders"
  | Ep_auth_register => "auth_register"
  | Ep_auth_login => "auth_login"
  | Ep_auth_logout => "auth_logout"
  | Ep_lock => "lock"
  | Ep_certificate _ _ => "certificate"
  | Ep_admin_delete _ => "admin_delete"
  | Ep_admin_login => "admin_login"
  | Ep_admin_logout => "admin_logout"
  | Ep_admin_panel => "admin_panel"
  | Ep_admin_note_action _ _ => "admin_note_action"
  end.

(** The routes declared with [methods=['GET','POST']]; the others take GET
    only. *)
Definition takes_post (e : endpoint) : bool :=
  match e with
  | Ep_post_student | Ep_post_teacher | Ep_post_staff
  | Ep_auth_register | Ep_auth_login | Ep_lock
  | Ep_admin_login | Ep_admin_panel => true
  | _ => false
  end.

(** The methods that the rule of an endpoint matches: those of the route,
    HEAD with GET, and OPTIONS. *)
Definition method_matches (e : endpoint) (m : string) : bool :=
  String.eqb m "GET" || String.eqb m "HEAD" || String.eqb m "OPTIONS"
  || (takes_post e && String.eqb m "POST").

(** A request as the application sees it: the client whose session comes
    with it, the endpoint whose rule matches its URL ([None] when no rule
    does) with the arguments taken from the URL, the path, the method and
    the form, the readings of the clock and the salt drawn for a password. *)
Record visit : Type := {
  client : Z;
  target : option endpoint;
  path : string;
  rq : request;
  clk : clock;
  salt : string
}.

(** The state of the site: the database, the users, and the session that
    each client holds. *)
Record site : Type := {
  data : db;
  users : list User;
  sessions : Z -> session
}.

Definition set_data (st : site) (d : db) : site :=
  {| data := d; users := users st; sessions := sessions st |}.

Definition set_users (st : site) (us : list User) : site :=
  {| data := data st; users := us; sessions := sessions st |}.

Definition set_session (st : site) (c : Z) (s : session) : site :=
  {| data := data st; users := users st;
     sessions := fun c' => if c' =? c then s else sessions st c' |}.

(** The response to the answer of [certificate]. *)
Definition certificate_reply (a : certificate_response) : response :=
  match a with
  | BackToLeaders => Redirect "leaders" None
  | NotEnoughData =>
      Redirect "leaders" (Some ("Not enough data for this certificate.", "error"))
  | Certificate _ _ _ => Render "certificate.html"
  end.

(** A page that only reads the database. *)
Definition page {A : Type} (st : site) (template : string) (r : exc A)
    : site * outcome :=
  match r with
  | Ok _ => (st, Sent (Render template))
  | Raise e => (st, ServerError e)
  end.

(** A handler that writes the database: an exception leaves it as it was. *)
Definition stored (st : site) (r : exc (db * response)) : site * outcome :=
  match r with
  | Ok (d', resp) => (set_data st d', Sent resp)
  | Raise e => (st, ServerError e)
  end.

Definition view (cfg : config) (v : visit) (st : site) : site * outcome :=
  let c := client v in
  let s := sessions st c in
  let d := data st in
  match target v with
  | None => (st, NotFound)
  | Some Ep_static => (st, StaticFile)
  | Some Ep_home => page st "home.html" (home (clk v) d)
  | Some Ep_post_student => stored st (post_student (now (clk v)) (rq v) d)
  | Some Ep_post_teacher => stored st (post_teacher (now (clk v)) (rq v) d)
  | Some Ep_post_staff => stored st (post_staff (now (clk v)) (rq v) d)
  | Some Ep_wall => page st "wall.html" (wall d)
  | Some Ep_leaders => page st "leaders.html" (leaders d)
  | Some Ep_auth_register =>
      match auth_register cfg (now (clk v)) (salt v) (rq v) (users st) with
      | Ok (us, resp) => (set_users st us, Sent resp)
      | Raise e => (st, ServerError e)
      end
  | Some Ep_auth_login =>
      let (s', resp) := auth_login cfg (rq v) (users st) s in
      (set_session st c s', Sent resp)
  | Some Ep_auth_logout =>
      let (s', resp) := auth_logout s in (set_session st c s', Sent resp)
  | Some Ep_lock =>
      let (s', resp) := lock (rq v) s in (set_session st c s', Sent resp)
  | Some (Ep_certificate category rank) =>
      (st, Sent (certificate_reply (certificate d category rank)))
  | Some (Ep_admin_delete nid) =>
      let (d', resp) := admin_delete (admin_required s) nid d in
      (set_data st d', Sent resp)
  | Some Ep_admin_login =>
      let (s', o) := admin_login cfg (rq v) s in (set_session st c s', o)
  | Some Ep_admin_logout =>
      let (s', resp) := admin_logout s in (set_session st c s', Sent resp)
  | Some Ep_admin_panel =>
      let (d', resp) := admin_panel (admin_required s) (rq v) d in
      (set_data st d', Sent resp)
  | Some (Ep_admin_note_action nid action) =>
      (set_data st (admin_note_action (admin_required s) nid action d),
       Sent (admin_note_action_response (admin_required s)))
  end.

(** [request.endpoint]: the endpoint of the rule that matches the URL and
    the method, if any. *)
Definition routed (v : visit) : option endpoint :=
  match target v with
  | Some e => if method_matches e (method (rq v)) then Some e else None
  | None => None
  end.

(** A request passes [require_unlock]; then a request that no rule matches
    is refused, an OPTIONS request is answered without its handler, and any
    other is handled. *)
Definition handle (cfg : config) (v : visit) (st : site) : site * outcome :=
  match require_unlock (option_map endpoint_name (routed v)) (path v)
          (users st) (sessions st (client v)) with
  | Some r => (st, Sent r)
  | None =>
      match target v with
      | None => (st, NotFound)
      | Some e =>
          if negb (method_matches e (method (rq v))) then (st, MethodNotAllowed)
          else if String.eqb (method (rq v)) "OPTIONS" then (st, OptionsReply)
          else view cfg v st
      end
  end.

(** The site after a sequence of requests. *)
Definition run (cfg : config) (vs : list visit) (st : site) : site :=
  fold_left (fun st v => fst (handle cfg v st)) vs st.
End Site.

(* ================================================================== *)
(** * r.py: adding a section, and the two implementations side by side *)

Module RAdmin.
Import App Startup Site.
(** [admin_add_section] of [r.py], for a POST (the route has no other
    method). *)
Definition admin_add_section (admin : bool) (rq : request) (d : db)
    : db * response :=
  if negb admin then (d, Redirect "admin_login" None)
  else
    let f := form rq in
    let class_name := Py.strip (form_get_default f "class_name" "") in
    let section_name := Py.strip (form_get_default f "section_name" "") in
    if String.eqb class_name "" || String.eqb section_name "" then
      (d, Redirect "admin_panel"
            (Some ("Class and Section are required.", "error")))
    else
      match section_named d class_name section_name with
      | Some _ =>
          (d, Redirect "admin_panel" (Some ("Section already exists.", "error")))
      | None =>
          (add_section d class_name section_name,
           Redirect "admin_panel" (Some ("New section added.", "success")))
      end.

(** The giver's section of a row of [r.py] against the column of a note of
    [app.py]: no section, or the text of the integer. *)
Definition same_section (raw : option string) (stored : option Z) : Prop :=
  (stored = None /\ Py.truthy_str raw = false) \/
  (exists s z, raw = Some s /\ Py.int s = Ok z /\ stored = Some z).

(** A row of [r.py] and a note of [app.py] that hold the same submission. *)
Definition same_submission (m : R.NoteRow) (n : Note) : Prop :=
  R.giver_type m = giver_type n /\
  Some (R.giver_name m) = giver_name n /\
  same_section (R.giver_section_id m) (giver_section_id n) /\
  R.receiver_type m = receiver_type n /\
  R.receiver_name_text m = receiver_name_text n /\
  same_section (R.receiver_section_id m) (receiver_section_id n) /\
  R.message m = message n /\
  Some (R.weight_applied m) = weight_applied n /\
  R.status m = status n.

(** The database after [admin_add_section], and after the section form of
    the admin panel of [app.py] when the section name is in upper case. *)
Definition section_added (c s : string) (d : db) : db :=
  if String.eqb c "" || String.eqb s "" then d
  else match section_named d c s with
       | Some _ => d
       | None => add_section d c s
       end.
End RAdmin.

(* ================================================================== *)
(** * The notions of the properties below *)

Module Notions.
Import App Startup Site.
Local Open Scope list_scope.

Definition newest_order : list Note -> Prop :=
  StronglySorted (fun a b => created_at b <= created_at a).
Definition valid_status (n : Note) : Prop :=
  status n = "pending" \/ status n = "approved" \/ status n = "hidden".

(** The notes of a list with their times of creation, as [newest_first]
    sorts them. *)
Definition stamped (ns : list Note) : list (Note * Z) :=
  map (fun n => (n, created_at n)) ns.

(** The notes that a chart counts under a name: the notes to a teacher, to a
    staff member, to a student of that name. *)
Definition to_teacher_named (d : db) (name : string) (n : Note) : bool :=
  String.eqb (receiver_type n) "teacher" &&
  match receiver_teacher d n with
  | Some t => String.eqb (t_name t) name
  | None => false
  end.

Definition to_staff_named (d : db) (name : string) (n : Note) : bool :=
  String.eqb (receiver_type n) "staff" &&
  match receiver_staff d n with
  | Some s => String.eqb (sf_name s) name
  | None => false
  end.

Definition to_student_named (d : db) (name : string) (n : Note) : bool :=
  String.eqb (receiver_type n) "student" && negb (String.eqb name "") &&
  match student_label d n with
  | Some l => String.eqb l name
  | None => false
  end.

(** The key under which a note counts in the chart of the students. *)
Definition student_name_entry (d : db) (n : Note) : option (string * Z) :=
  if String.eqb (receiver_type n) "student" && Py.truthy_str (student_label d n)
  then Some (Py.or_str (student_label d n) "", 1)
  else None.

(** A ranking of the leaders page against the value that each key should
    have: at most ten entries in descending order, no key twice, each entry
    with the value of its key, and every key that has a value either listed
    or not above any of ten listed entries. *)
Definition top_ten (value : Z -> option Z) (l : list (Z * Z)) : Prop :=
  (List.length l <= 10)%nat /\
  Py.desc_counts l /\
  NoDup (map fst l) /\
  (forall k v, In (k, v) l -> value k = Some v) /\
  (forall k v, value k = Some v ->
               In (k, v) l \/
               (List.length l = 10%nat /\ forall e, In e l -> v <= snd e)).

(** The chart of the leaders page for a category of certificates. *)
Definition category_bars (category : string) (b : bars) : list bucket :=
  if String.eqb category "teacher" then bars_teachers b else bars_staffs b.

(** The status that an action of the administrator gives to a note. *)
Definition status_after (action : string) (n : Note) : string :=
  if String.eqb action "approve" then "approved"
  else if String.eqb action "hide" then "hidden"
  else if String.eqb action "unhide" then "approved"
  else status n.

(** A text column that holds a text that is not empty. *)
Definition named (x : option string) : Prop :=
  exists s, x = Some s /\ s <> "".

(** The receiver columns of a note, by the type of the receiver. *)
Definition receiver_shape (n : Note) : Prop :=
  (receiver_type n = "student" /\ named (receiver_name_text n) /\
   receiver_section_id n <> None /\
   receiver_teacher_id n = None /\ receiver_staff_id n = None) \/
  (receiver_type n = "teacher" /\ receiver_teacher_id n <> None /\
   receiver_name_text n = None /\ receiver_section_id n = None /\
   receiver_staff_id n = None) \/
  (receiver_type n = "staff" /\ receiver_staff_id n <> None /\
   receiver_name_text n = None /\ receiver_section_id n = None /\
   receiver_teacher_id n = None).

(** What holds of every note that the three forms store, whatever its
    status becomes. *)
Definition sound_note (n : Note) : Prop :=
  valid_status n /\
  message n <> "" /\
  receiver_student_id n = None /\
  receiver_shape n /\
  (weight_applied n = Some 1 \/ weight_applied n = Some 2) /\
  (weight_applied n = Some 2 ->
   giver_type n = "student" /\ receiver_type n = "student" /\
   giver_section_id n <> None) /\
  (giver_type n = "student" ->
   giver_section_id n <> None /\ named (giver_name n)) /\
  (giver_type n = "teacher" -> named (giver_name n)) /\
  giver_name n <> None.

(** The outcome of a submission to the form of a kind of receiver: nothing
    is stored and the answer is not the thanks, or a POST is thanked and one
    note is stored. *)
Definition submitted (kind : string) (t : Z) (rq : request) (d d' : db)
    (resp : response) : Prop :=
  (d' = d /\ resp <> thanks) \/
  (resp = thanks /\ method rq = "POST" /\
   exists n,
     d' = add_note d n /\
     receiver_type n = kind /\
     status n = "pending" /\
     sound_note n /\
     id n = next_id (notes d) /\
     ~ In (id n) (map id (notes d)) /\
     created_at n = t /\
     message n = field_stripped (form rq) "message" /\
     giver_type n = field_giver_type (form rq)).

(** The two ids that a handler converts: the giver's section, if the form
    gives one, and the receiver's id, which the form holds under [key]. *)
Definition giver_id (rq : request) : exc (option Z) :=
  int_or_none (field_or_none (form rq) "giver_section_id").

Definition receiver_id (key : string) (rq : request) : exc Z :=
  Py.int (Py.or_str (form_get (form rq) key) "").

(** The two ids are written as integers, and these fit their columns. *)
Definition ids_fit (key : string) (rq : request) : bool :=
  match giver_id rq, receiver_id key rq with
  | Ok g, Ok r => column_fits g && fits_integer r
  | _, _ => false
  end.

(** The failure of a submission whose form holds the receiver's id under
    [key]: the [ValueError] of a POST of which one of the two ids is not
    written as an integer, or the [OverflowError] of a POST of which the ids
    are integers that do not both fit their columns. *)
Definition fails_on (key : string) (rq : request) (e : pyerror) : Prop :=
  method rq = "POST" /\ ids_fit key rq = false /\
  ((e = ValueError /\
    (giver_id rq = Raise ValueError \/ receiver_id key rq = Raise ValueError)) \/
   (e = OverflowError /\
    exists g r, giver_id rq = Ok g /\ receiver_id key rq = Ok r)).

(** A form of ASCII text: no value holds a character outside ASCII. *)
Definition ascii_form (f : form_data) : bool :=
  forallb (fun kv => Py.isascii (snd kv)) f.

(** A request that [require_unlock] lets through whatever the session. *)
Definition exempt (v : visit) : bool :=
  match routed v with
  | Some e => existsb (String.eqb (endpoint_name e)) allowed
  | None => false
  end || startswith (path v) "/static".

(** A request that reaches the handler of an endpoint once it has passed
    [require_unlock]. *)
Definition reaches (v : visit) (e : endpoint) : Prop :=
  target v = Some e /\ method_matches e (method (rq v)) = true /\
  method (rq v) <> "OPTIONS".

(** A client that is neither signed in nor unlocked. *)
Definition locked (st : site) (c : Z) : Prop :=
  current_user (users st) (sessions st c) = None /\
  is_true (unlocked (sessions st c)) = false.

(** A POST of the administrator's PIN to [admin_login]. *)
Definition enters_pin (cfg : config) (v : visit) : bool :=
  match target v with
  | Some Ep_admin_login =>
      String.eqb (method (rq v)) "POST"
      && field_is (form (rq v)) "pin" (ADMIN_PIN cfg)
  | _ => false
  end.

(** No client holds the administrator's session. *)
Definition no_admin (st : site) : Prop :=
  forall c, admin_required (sessions st c) = false.

(** The notes of a database: distinct keys, each note sound. *)
Definition sound_notes (d : db) : Prop :=
  NoDup (map id (notes d)) /\ Forall sound_note (notes d).

(** A user as [auth_register] stores them. *)
Definition sound_user (u : User) : Prop :=
  username u <> "" /\ lower (username u) = username u /\
  u_name u <> "" /\
  In (u_role u) ["student"; "teacher"; "staff"] /\
  (u_class_section_id u <> None -> u_role u = "student").

Definition sound_users (us : list User) : Prop :=
  NoDup (map username us) /\ NoDup (map u_id us) /\ Forall sound_user us.

(** A section and a teacher as the admin panel stores them. *)
Definition panel_section (s : ClassSection) : Prop :=
  class_name s <> "" /\ section_name s <> "" /\
  upper (section_name s) = section_name s.

Definition panel_teacher (t : Teacher) : Prop :=
  t_name t <> "" /\ subject t <> "".

(** The site as [create_app] starts it: the defaults are seeded. *)
Definition started (st : site) : site := set_data st (seed_defaults (data st)).

(** One of the three forms took the database from [d] to [d']. *)
Definition posted_to (d d' : db) : Prop :=
  exists t rq resp,
    post_student t rq d = Ok (d', resp) \/
    post_teacher t rq d = Ok (d', resp) \/
    post_staff t rq d = Ok (d', resp).

(** Notes only come, pending, at the end of the table; nothing else moves. *)
Definition grown (d d' : db) : Prop :=
  same_tables d d' /\
  exists added, notes d' = notes d ++ added /\
                Forall (fun n => status n = "pending") added.

(** Sections and teachers only come, at the end of their tables. *)
Definition extended (d d' : db) : Prop :=
  students d' = students d /\ staff d' = staff d /\
  exists a b,
    sections d' = sections d ++ a /\ Forall panel_section a /\
    teachers d' = teachers d ++ b /\ Forall panel_teacher b.
End Notions.

(* ================================================================== *)
(** * Concrete sites and requests *)

Module Scenarios.
Import App Startup Site.

(** The database of the examples above after the note to a teacher was
    approved. *)
Definition teacher_noted_db : db :=
  admin_note_action true 3 "approve" Examples.with_pending_db.

(** The note that the first form of the examples stores. *)
Definition first_note : Note :=
  {| id := 1;
     giver_type := "student";
     giver_name := Some "A";
     giver_section_id := Some 1;
     receiver_type := "student";
     message := "Thank you";
     receiver_name_text := Some "C";
     receiver_section_id := Some 1;
     receiver_student_id := None;
     receiver_teacher_id := None;
     receiver_staff_id := None;
     weight_applied := Some 1;
     status := "pending";
     created_at := Examples.t0 |}.

(** A configuration whose password functions keep the password as it is. *)
Definition plain_config : config :=
  {| ADMIN_PIN := "1234";
     generate_password_hash := fun _ raw => raw;
     check_password_hash := String.eqb |}.

(** The site on an empty database, and after the seeding, with no user and
    no session. *)
Definition empty_site : site :=
  {| data := empty_db; users := []; sessions := fun _ => new_session |}.

Definition fresh_site : site :=
  {| data := seed_db; users := []; sessions := fun _ => new_session |}.

Definition visit_of (c : Z) (e : endpoint) (p : string) (r : request) : visit :=
  {| client := c; target := Some e; path := p; rq := r;
     clk := Examples.clock0; salt := "c2FsdA" |}.

Definition get : request := {| method := "GET"; form := [] |}.

(** Client 1 unlocks the site, submits a note, tries a wrong PIN, enters
    the right one, approves the note and adds the section 9-c. *)
Definition unlock : visit := visit_of 1 Ep_lock "/lock" (Examples.post []).

Definition submit : visit :=
  visit_of 1 Ep_post_student "/post/student" Examples.form_same_section.

Definition wrong_pin : visit :=
  visit_of 1 Ep_admin_login "/admin/login" (Examples.post [("pin", "0000")]).

Definition right_pin : visit :=
  visit_of 1 Ep_admin_login "/admin/login" (Examples.post [("pin", "1234")]).

Definition approve_first : visit :=
  visit_of 1 (Ep_admin_note_action 1 "approve") "/admin/note/1/approve" get.

Definition section_form : request :=
  Examples.post [ ("form", "section"); ("class_name", "9");
                  ("section_name", "c") ].

Definition upper_section_form : request :=
  Examples.post [ ("form", "section"); ("class_name", "9");
                  ("section_name", "C") ].

Definition add_section_9c : visit :=
  visit_of 1 Ep_admin_panel "/admin" section_form.

(** Client 2 registers. *)
Definition register_form : request :=
  Examples.post [ ("role", "student"); ("name", "Ayon");
                  ("username", " Ayon "); ("password", "secret");
                  ("class_section_id", "1") ].

Definition register_ayon : visit :=
  visit_of 2 Ep_auth_register "/auth/register" register_form.

(** Client 3 asks for the wall before unlocking the site. *)
Definition see_wall : visit := visit_of 3 Ep_wall "/wall" get.

(** A form whose receiver's section is not written as an integer, and one
    whose receiver's section is the integer [2^63]. *)
Definition form_section_in_words : request :=
  Examples.post [ ("giver_type", "student"); ("giver_name", "A");
                  ("giver_section_id", "1"); ("receiver_name", "C");
                  ("receiver_section_id", "six"); ("message", "Thank you") ].

Definition form_section_too_large : request :=
  Examples.post [ ("giver_type", "student"); ("giver_name", "A");
                  ("giver_section_id", "1"); ("receiver_name", "C");
                  ("receiver_section_id", "9223372036854775808");
                  ("message", "Thank you") ].
End Scenarios.

(* ================================================================== *)
(** * Properties of the float model *)

Module PyFloatFacts.
Import PyFloat.
Local Open Scope Q_scope.


Lemma rhe_cases x :
  let f := Qfloor x in
  (x - inject_Z f < (1#2) /\ round_half_even x = f) \/
  (x - inject_Z f > (1#2) /\ round_half_even x = (f + 1)%Z) \/
  (x - inject_Z f == (1#2) /\ round_half_even x = (if Z.even f then f else (f + 1)%Z)).
Proof.
  intros f. unfold round_half_even. fold f.
  destruct (Qcompare_spec (x - inject_Z f) (1#2)) as [H|H|H]; auto.
Qed.

Lemma floor_bounds x : inject_Z (Qfloor x) <= x /\ x < inject_Z (Qfloor x) + 1.
Proof.
  split. apply Qfloor_le.
  generalize (Qlt_floor x). rewrite inject_Z_plus. auto.
Qed.

Lemma rhe_bounds x :
  x - (1#2) <= inject_Z (round_half_even x) <= x + (1#2).
Proof.
  destruct (floor_bounds x) as [H1 H2].
  destruct (rhe_cases x) as [[H ->]|[[H ->]|[H ->]]].
  - lra.
  - rewrite inject_Z_plus. change (inject_Z 1) with 1. lra.
  - destruct (Z.even (Qfloor x)).
    + lra.
    + rewrite inject_Z_plus. change (inject_Z 1) with 1. lra.
Qed.

Lemma Zlt_Q_succ a b : inject_Z a < inject_Z b + 1 -> (a <= b)%Z.
Proof.
  intros H. change 1 with (inject_Z 1) in H. rewrite <- inject_Z_plus in H.
  rewrite <- Zlt_Qlt in H. lia.
Qed.

Lemma rhe_near x k :
  Qabs (x - inject_Z k) < (1#2) -> round_half_even x = k.
Proof.
  intros H. apply Qabs_Qlt_condition in H. destruct H as [Ha Hb].
  destruct (rhe_bounds x) as [H1 H2].
  set (r := round_half_even x) in *.
  assert (inject_Z r < inject_Z k + 1) by lra.
  assert (inject_Z k < inject_Z r + 1) by lra.
  apply Zlt_Q_succ in H, H0. lia.
Qed.

Lemma rhe_mono x y : x <= y -> (round_half_even x <= round_half_even y)%Z.
Proof.
  intros Hxy.
  pose proof (Qfloor_resp_le _ _ Hxy) as Hf.
  destruct (floor_bounds x) as [Hx1 Hx2], (floor_bounds y) as [Hy1 Hy2].
  destruct (Z.eq_dec (Qfloor x) (Qfloor y)) as [E|NE].
  - destruct (rhe_cases x) as [[Hx ->]|[[Hx ->]|[Hx ->]]];
    destruct (rhe_cases y) as [[Hy ->]|[[Hy ->]|[Hy ->]]];
    rewrite E in *; try lia; try lra;
    destruct (Z.even (Qfloor y)); try lia; lra.
  - assert (Qfloor x + 1 <= Qfloor y)%Z by lia.
    assert (round_half_even x <= Qfloor x + 1)%Z.
    { destruct (rhe_cases x) as [[Hx ->]|[[Hx ->]|[Hx ->]]]; try lia.
      destruct (Z.even (Qfloor x)); lia. }
    assert (Qfloor y <= round_half_even y)%Z.
    { destruct (rhe_cases y) as [[Hx ->]|[[Hx ->]|[Hx ->]]]; try lia.
      destruct (Z.even (Qfloor y)); lia. }
    lia.
Qed.


Lemma pow2_pos e : 0 < 2 ^ e.
Proof. apply Qpower_0_lt. reflexivity. Qed.

Lemma pow2_succ e : 2 ^ (e + 1) == 2 * 2 ^ e.
Proof. rewrite Qpower_plus by discriminate. change (2 ^ 1) with 2. ring. Qed.

Lemma pow2_pred e : 2 * 2 ^ (e - 1) == 2 ^ e.
Proof. rewrite <- pow2_succ. replace (e - 1 + 1)%Z with e by lia. reflexivity. Qed.

Lemma pow2_le a b : (a <= b)%Z -> 2 ^ a <= 2 ^ b.
Proof. intros H. apply Qpower_le_compat_l; [exact H | discriminate]. Qed.

Lemma pow2_log2 n : (0 < n)%Z ->
  2 ^ Z.log2 n <= inject_Z n /\ inject_Z n < 2 * 2 ^ Z.log2 n.
Proof.
  intros Hn. destruct (Z.log2_spec n Hn) as [H1 H2].
  pose proof (Z.log2_nonneg n) as H0.
  rewrite <- pow2_succ.
  pose proof (Zpower_Qpower 2 (Z.log2 n) H0) as E1.
  pose proof (Zpower_Qpower 2 (Z.log2 n + 1) ltac:(lia)) as E2.
  change (inject_Z 2) with 2 in E1, E2. rewrite <- E1, <- E2.
  rewrite <- Zle_Qle, <- Zlt_Qlt. replace (Z.log2 n + 1)%Z with (Z.succ (Z.log2 n)) by lia.
  auto.
Qed.

Lemma binade_spec x : 0 < x -> 2 ^ binade x <= x /\ x < 2 ^ (binade x + 1).
Proof.
  intros Hx. unfold binade.
  set (e0 := (Z.log2 (Qnum x) - Z.log2 (Z.pos (Qden x)))%Z).
  assert (Hn : (0 < Qnum x)%Z).
  { destruct x as [n d]. unfold Qlt in Hx. simpl in *. lia. }
  destruct (pow2_log2 _ Hn) as [N1 N2].
  destruct (pow2_log2 (Z.pos (Qden x)) ltac:(lia)) as [D1 D2].
  assert (Ex : x == inject_Z (Qnum x) / inject_Z (Z.pos (Qden x))).
  { destruct x as [n d]. simpl. apply Qmake_Qdiv. }
  assert (E0 : 2 ^ e0 == 2 ^ Z.log2 (Qnum x) / 2 ^ Z.log2 (Z.pos (Qden x))).
  { unfold e0. apply Qpower_minus. discriminate. }
  pose proof (pow2_pos (Z.log2 (Qnum x))) as PN.
  pose proof (pow2_pos (Z.log2 (Z.pos (Qden x)))) as PD.
  set (N := inject_Z (Qnum x)) in *. set (D := inject_Z (Z.pos (Qden x))) in *.
  set (pn := 2 ^ Z.log2 (Qnum x)) in *. set (pd := 2 ^ Z.log2 (Z.pos (Qden x))) in *.
  assert (HD : 0 < D) by lra.
  assert (Hup : x < 2 * 2 ^ e0).
  { rewrite Ex, E0. apply Qlt_shift_div_r; [exact HD|].
    setoid_replace (2 * (pn / pd) * D) with ((2 * pn) * (D / pd)) by (field; lra).
    assert (1 <= D / pd) by (apply Qle_shift_div_l; lra).
    nra. }
  assert (Hlo : 2 ^ e0 < 2 * x).
  { rewrite Ex, E0. apply Qlt_shift_div_r; [exact PD|].
    setoid_replace (2 * (N / D) * pd) with (2 * N * (pd / D)) by (field; lra).
    assert (1 < 2 * (pd / D)).
    { setoid_replace (2 * (pd / D)) with ((2 * pd) / D) by (field; lra).
      apply Qlt_shift_div_l; lra. }
    nra. }
  destruct (Qle_bool (2 ^ e0) x) eqn:B.
  - apply Qle_bool_iff in B. rewrite pow2_succ. split; [exact B | exact Hup].
  - assert (~ 2 ^ e0 <= x) by (intro C; apply Qle_bool_iff in C; congruence).
    replace (e0 - 1 + 1)%Z with e0 by lia. pose proof (pow2_pred e0). split; lra.
Qed.

Lemma binade_unique x b : 2 ^ b <= x -> x < 2 ^ (b + 1) -> binade x = b.
Proof.
  intros H1 H2. assert (Hx : 0 < x) by (pose proof (pow2_pos b); lra).
  destruct (binade_spec x Hx) as [B1 B2].
  destruct (Z.lt_trichotomy (binade x) b) as [L|[E|G]]; auto; exfalso.
  - assert (2 ^ (binade x + 1) <= 2 ^ b) by (apply pow2_le; lia). lra.
  - assert (2 ^ (b + 1) <= 2 ^ binade x) by (apply pow2_le; lia). lra.
Qed.

Lemma binade_mono x y : 0 < x -> x <= y -> (binade x <= binade y)%Z.
Proof.
  intros Hx Hxy. destruct (binade_spec x Hx) as [X1 X2].
  destruct (binade_spec y ltac:(lra)) as [Y1 Y2].
  destruct (Z_le_gt_dec (binade x) (binade y)); auto. exfalso.
  assert (2 ^ (binade y + 1) <= 2 ^ binade x) by (apply pow2_le; lia). lra.
Qed.



Lemma rhe_ext : Proper (Qeq ==> eq) round_half_even.
Proof.
  intros x y E. unfold round_half_even.
  rewrite (Qfloor_comp _ _ E).
  assert (E' : x - inject_Z (Qfloor y) == y - inject_Z (Qfloor y)) by (rewrite E; reflexivity).
  rewrite (Qcompare_comp _ _ E' (1#2) (1#2) (Qeq_refl _)). reflexivity.
Qed.

Lemma rhe_inject k : round_half_even (inject_Z k) = k.
Proof.
  apply rhe_near. setoid_replace (inject_Z k - inject_Z k) with 0 by ring. reflexivity.
Qed.

Section Positive.
Variable x : Q.
Hypothesis Hx : 0 < x.
Local Abbreviation s := (2 ^ (binade x - 52)).

Lemma scale_pos : 0 < s.
Proof. apply pow2_pos. Qed.

Lemma scale_binade : 2 ^ binade x == (2 ^ 52) * s.
Proof.
  rewrite <- Qpower_plus by discriminate.
  replace (52 + (binade x - 52))%Z with (binade x) by lia. reflexivity.
Qed.

Lemma scaled_range : 2 ^ 52 <= x / s /\ x / s < 2 ^ 53.
Proof.
  destruct (binade_spec x Hx) as [H1 H2]. pose proof scale_pos as Hs.
  rewrite pow2_succ, scale_binade in H2. rewrite scale_binade in H1.
  split.
  - apply Qle_shift_div_l; [exact Hs|]. exact H1.
  - apply Qlt_shift_div_r; [exact Hs|]. change (2 ^ 53) with (2 * 2 ^ 52). lra.
Qed.

Lemma mant_range :
  (2 ^ 52 <= round_half_even (x / s) <= 2 ^ 53)%Z.
Proof.
  destruct scaled_range as [H1 H2].
  split.
  - rewrite <- (rhe_inject (2 ^ 52)). apply rhe_mono. exact H1.
  - rewrite <- (rhe_inject (2 ^ 53)). apply rhe_mono. apply Qlt_le_weak. exact H2.
Qed.

Lemma rne_pos_range : 2 ^ binade x <= rne_pos x <= 2 ^ (binade x + 1).
Proof.
  unfold rne_pos. destruct mant_range as [M1 M2].
  rewrite Zle_Qle in M1, M2. pose proof scale_pos as Hs.
  rewrite pow2_succ, scale_binade.
  change (inject_Z (2 ^ 52)) with (2 ^ 52) in M1.
  change (inject_Z (2 ^ 53)) with (2 * 2 ^ 52) in M2.
  set (m := inject_Z _) in *. clearbody m. split; nra.
Qed.

Lemma rne_pos_err : x * (1 - ulp_half) <= rne_pos x <= x * (1 + ulp_half).
Proof.
  unfold rne_pos. pose proof scale_pos as Hs.
  destruct (rhe_bounds (x / s)) as [B1 B2].
  destruct (binade_spec x Hx) as [H1 _]. rewrite scale_binade in H1.
  set (m := inject_Z _) in *. clearbody m.
  assert (E : x == (x / s) * s) by (field; lra).
  set (q := x / s) in *. clearbody q.
  assert (m * s <= q * s + (1#2) * s) by nra.
  assert (q * s - (1#2) * s <= m * s) by nra.
  unfold ulp_half. change (2 ^ 52) with 4503599627370496 in H1.
  split; lra.
Qed.
End Positive.

Lemma rne_pos_mono x y : 0 < x -> x <= y -> rne_pos x <= rne_pos y.
Proof.
  intros Hx Hxy. assert (Hy : 0 < y) by lra.
  pose proof (binade_mono x y Hx Hxy) as Hb.
  destruct (Z.eq_dec (binade x) (binade y)) as [E|NE].
  - unfold rne_pos. rewrite E. set (s := 2 ^ (binade y - 52)).
    assert (Hs : 0 < s) by apply pow2_pos.
    assert (x / s <= y / s).
    { apply Qle_shift_div_l; [exact Hs|].
      setoid_replace (x / s * s) with x by (field; lra). exact Hxy. }
    apply rhe_mono in H. rewrite Zle_Qle in H.
    set (mx := inject_Z _) in *. set (my := inject_Z _) in *. nra.
  - destruct (rne_pos_range x Hx) as [_ X]. destruct (rne_pos_range y Hy) as [Y _].
    assert (2 ^ (binade x + 1) <= 2 ^ binade y) by (apply pow2_le; lia). lra.
Qed.

Lemma rne_pos_ext x y : 0 < x -> x == y -> rne_pos x == rne_pos y.
Proof.
  intros Hx E. apply Qle_antisym; apply rne_pos_mono; rewrite ?E; try rewrite <- E; lra.
Qed.

Lemma rne_pos_positive x : 0 < x -> 0 < rne_pos x.
Proof.
  intros Hx. destruct (rne_pos_range x Hx) as [H _].
  pose proof (pow2_pos (binade x)). lra.
Qed.

Lemma rne_zero : rne 0 = 0.
Proof. reflexivity. Qed.

Lemma rne_gt x : 0 < x -> rne x == rne_pos x.
Proof.
  intros Hx. unfold rne. rewrite (proj1 (Qgt_alt x 0) Hx). apply Qred_correct.
Qed.

Lemma rne_lt x : x < 0 -> rne x == - rne_pos (- x).
Proof.
  intros Hx. unfold rne. rewrite (proj1 (Qlt_alt x 0) Hx). apply Qred_correct.
Qed.

Lemma rne_eq0 x : x == 0 -> rne x = 0.
Proof.
  intros Hx. unfold rne. rewrite (proj1 (Qeq_alt x 0) Hx). reflexivity.
Qed.

Lemma rne_ext x y : x == y -> rne x = rne y.
Proof.
  intros E. unfold rne. rewrite <- (Qcompare_comp _ _ E 0 0 (Qeq_refl 0)).
  destruct (Qcompare_spec x 0) as [H|H|H].
  - reflexivity.
  - apply Qred_complete. apply Qopp_comp. apply rne_pos_ext; [lra | rewrite E; reflexivity].
  - apply Qred_complete. apply rne_pos_ext; auto.
Qed.

Lemma rne_sign x : (0 <= x -> 0 <= rne x) /\ (x <= 0 -> rne x <= 0).
Proof.
  destruct (Q_dec x 0) as [[H|H]|H].
  - rewrite (rne_lt x H). pose proof (rne_pos_positive (- x) ltac:(lra)). split; intros; lra.
  - rewrite (rne_gt x H). pose proof (rne_pos_positive x H). split; intros; lra.
  - rewrite (rne_eq0 x H). split; intros; lra.
Qed.

Lemma rne_mono x y : x <= y -> rne x <= rne y.
Proof.
  intros Hxy.
  destruct (Qlt_le_dec 0 x) as [Hx|Hx].
  - rewrite (rne_gt x Hx), (rne_gt y ltac:(lra)). apply rne_pos_mono; auto.
  - destruct (Qlt_le_dec y 0) as [Hy|Hy].
    + rewrite (rne_lt x ltac:(lra)), (rne_lt y Hy).
      pose proof (rne_pos_mono (- y) (- x) ltac:(lra) ltac:(lra)). lra.
    + pose proof (proj2 (rne_sign x) Hx). pose proof (proj1 (rne_sign y) Hy). lra.
Qed.

Lemma rne_err_nonneg x : 0 <= x ->
  x * (1 - ulp_half) <= rne x <= x * (1 + ulp_half).
Proof.
  intros Hx. destruct (Qle_lt_or_eq _ _ Hx) as [H|H].
  - rewrite (rne_gt x H). apply rne_pos_err. exact H.
  - rewrite (rne_eq0 x (Qeq_sym _ _ H)). rewrite <- H. split; lra.
Qed.

Lemma rne_err x : Qabs (rne x - x) <= ulp_half * Qabs x.
Proof.
  unfold ulp_half.
  destruct (Qlt_le_dec x 0) as [H|H].
  - rewrite (rne_lt x H). pose proof (rne_pos_err (- x) ltac:(lra)) as [E1 E2].
    unfold ulp_half in *.
    rewrite (Qabs_neg x) by lra. apply Qabs_Qle_condition. split; lra.
  - pose proof (rne_err_nonneg x H) as [E1 E2].
    unfold ulp_half in *.
    rewrite (Qabs_pos x) by lra. apply Qabs_Qle_condition. split; lra.
Qed.

(** ** The model against the Standard Library's IEEE 754 operations *)

Example division_agrees :
  b64_value (SFdiv 53 1024 (SFmul 53 1024 (b64_of_Z 7) (b64_of_Z 100)) (b64_of_Z 26))
  = Some (rne (fmul (of_int 7) (literal 100 1) / of_int 26)).
Proof. vm_compute. reflexivity. Qed.

Example inexact_tie_agrees :
  b64_value (SFdiv 53 1024 (SFmul 53 1024 (b64_of_Z 3) (b64_of_Z 100)) (b64_of_Z 2000))
  = Some (rne (fmul (of_int 3) (literal 100 1) / of_int 2000)).
Proof. vm_compute. reflexivity. Qed.

Example literal_agrees :
  b64_value (SFdiv 53 1024 (b64_of_Z 269) (b64_of_Z 10)) = Some (literal 269 10).
Proof. vm_compute. reflexivity. Qed.

Example addition_agrees :
  b64_value (SFadd 53 1024 (SFdiv 53 1024 (b64_of_Z 385) (b64_of_Z 10))
               (SFdiv 53 1024 (b64_of_Z 269) (b64_of_Z 10)))
  = Some (fadd (literal 385 10) (literal 269 10)).
Proof. vm_compute. reflexivity. Qed.

Example subtraction_agrees :
  b64_value (SFsub 53 1024 (b64_of_Z 100) (SFdiv 53 1024 (b64_of_Z 961) (b64_of_Z 10)))
  = Some (fsub (literal 100 1) (literal 961 10)).
Proof. vm_compute. reflexivity. Qed.

Example quotients_agree_to_100 : quotients_agree 100 = true.
Proof. vm_compute. reflexivity. Qed.

Example sums_agree_to_50 : sums_agree 50 = true.
Proof. vm_compute. reflexivity. Qed.

Example large_int_agrees :
  b64_value (b64_of_Z (2 ^ 60 + 1)) = Some (of_int (2 ^ 60 + 1)).
Proof. vm_compute. reflexivity. Qed.

(** [round(0.15, 1)] is [0.1], [round(0.25, 1)] is [0.2], [round(0.35, 1)]
    is [0.3] (the float [0.35] is below 0.35) and [round(6.25, 1)] is [6.2]. *)
Example round1_values :
  round1 (literal 15 100) = literal 1 10 /\
  round1 (literal 25 100) = literal 2 10 /\
  round1 (literal 35 100) = literal 3 10 /\
  round1 (literal 625 100) = literal 62 10.
Proof. vm_compute. repeat split. Qed.
End PyFloatFacts.

(* ================================================================== *)
(** * Properties of the built-ins *)

Module PyFacts.
Import Py.
Local Open Scope Z_scope.
Local Open Scope list_scope.

Section Sorting.
Variable K : Type.
Implicit Types (x : K * Z) (l : list (K * Z)).

Lemma insert_desc_perm x l : Permutation (x :: l) (insert_desc x l).
Proof.
  induction l as [|y r IH]; simpl.
  - apply Permutation_refl.
  - destruct (snd x <? snd y).
    + apply perm_trans with (y :: x :: r).
      * apply perm_swap.
      * apply perm_skip. exact IH.
    + apply Permutation_refl.
Qed.

Lemma sorted_desc_perm l : Permutation l (sorted_desc l).
Proof.
  induction l as [|x r IH]; simpl.
  - apply perm_nil.
  - apply perm_trans with (x :: sorted_desc r).
    + apply perm_skip. exact IH.
    + apply insert_desc_perm.
Qed.

Lemma sorted_desc_length l : List.length (sorted_desc l) = List.length l.
Proof. symmetry. apply Permutation_length. apply sorted_desc_perm. Qed.

Lemma insert_desc_sorted x l : desc_counts l -> desc_counts (insert_desc x l).
Proof.
  unfold desc_counts. induction l as [|y r IH]; intros H; simpl.
  - constructor; constructor.
  - inversion H as [|? ? Hr Hy]; subst.
    destruct (snd x <? snd y) eqn:E.
    + apply Z.ltb_lt in E. constructor.
      * apply IH. exact Hr.
      * apply Forall_forall. intros z Hz.
        apply (Permutation_in _ (Permutation_sym (insert_desc_perm x r))) in Hz.
        destruct Hz as [<-|Hz]; [lia|].
        rewrite Forall_forall in Hy. apply Hy. exact Hz.
    + apply Z.ltb_ge in E. constructor.
      * exact H.
      * constructor; [exact E|].
        rewrite Forall_forall in Hy |- *. intros z Hz.
        specialize (Hy z Hz). lia.
Qed.

Lemma sorted_desc_sorted l : desc_counts (sorted_desc l).
Proof.
  induction l as [|x r IH]; simpl.
  - constructor.
  - apply insert_desc_sorted. exact IH.
Qed.

Lemma desc_counts_app l1 l2 :
  desc_counts (l1 ++ l2) ->
  desc_counts l1 /\ desc_counts l2 /\
  (forall a b, In a l1 -> In b l2 -> snd b <= snd a).
Proof.
  unfold desc_counts. induction l1 as [|x r IH]; simpl; intros H.
  - repeat split; [constructor | exact H | intros a b []].
  - inversion H as [|? ? Hr Hx]; subst.
    destruct (IH Hr) as (S1 & S2 & C).
    rewrite Forall_app in Hx. destruct Hx as [Hx1 Hx2].
    repeat split.
    + constructor; assumption.
    + exact S2.
    + intros a b [<-|Ha] Hb.
      * rewrite Forall_forall in Hx2. apply Hx2. exact Hb.
      * apply C; assumption.
Qed.

(** The items sorted, cut after the first [n]: the kept ones are sorted
    and no dropped one has a larger count than a kept one. *)
Lemma top_of_sorted (n : nat) l :
  let top := firstn n (sorted_desc l) in
  let rest := skipn n (sorted_desc l) in
  Permutation l (top ++ rest) /\
  List.length top = Nat.min n (List.length l) /\
  desc_counts top /\
  (forall a b, In a top -> In b rest -> snd b <= snd a).
Proof.
  intros top rest. unfold top, rest.
  pose proof (sorted_desc_sorted l) as S.
  rewrite <- (firstn_skipn n (sorted_desc l)) in S.
  destruct (desc_counts_app _ _ S) as (S1 & _ & C).
  repeat split.
  - rewrite firstn_skipn. apply sorted_desc_perm.
  - rewrite length_firstn, sorted_desc_length. reflexivity.
  - exact S1.
  - exact C.
Qed.

Lemma sum_values_from (l : list (K * Z)) (a : Z) :
  fold_left (fun acc e => acc + snd e) l a = a + sum_values l.
Proof.
  unfold sum_values. revert a. induction l as [|x r IH]; intros a; simpl.
  - lia.
  - rewrite IH, (IH (snd x)). lia.
Qed.

Lemma sum_values_cons x l : sum_values (x :: l) = snd x + sum_values l.
Proof. unfold sum_values at 1. simpl. rewrite sum_values_from. lia. Qed.

Lemma sum_values_app l1 l2 :
  sum_values (l1 ++ l2) = sum_values l1 + sum_values l2.
Proof.
  induction l1 as [|x r IH]; simpl.
  - reflexivity.
  - rewrite !sum_values_cons, IH. lia.
Qed.

Lemma sum_values_perm l1 l2 :
  Permutation l1 l2 -> sum_values l1 = sum_values l2.
Proof.
  induction 1; rewrite ?sum_values_cons; lia.
Qed.

Lemma sum_values_nonneg l :
  Forall (fun e => 0 <= snd e) l -> 0 <= sum_values l.
Proof.
  induction 1 as [|x r Hx _ IH].
  - reflexivity.
  - rewrite sum_values_cons. lia.
Qed.

Lemma count_le_sum l x :
  Forall (fun e => 0 <= snd e) l -> In x l -> snd x <= sum_values l.
Proof.
  induction 1 as [|y r Hy Hr IH]; intros Hin.
  - destruct Hin.
  - rewrite sum_values_cons. pose proof (sum_values_nonneg r Hr).
    destruct Hin as [->|Hin]; [lia|]. specialize (IH Hin). lia.
Qed.
End Sorting.
End PyFacts.

(* ================================================================== *)
(** * Properties of the chart bars *)

Module BarsFacts.
Import PyFloat PyFloatFacts Py PyFacts App.
Local Open Scope Z_scope.
Local Open Scope list_scope.

Lemma rne_nonzero (x : Q) : ~ (x == 0)%Q -> ~ (rne x == 0)%Q.
Proof.
  intros Hx H0. destruct (Q_dec x 0) as [[H|H]|H]; [| |contradiction].
  - rewrite (rne_lt x H) in H0.
    pose proof (rne_pos_positive (- x)%Q ltac:(lra)). lra.
  - rewrite (rne_gt x H) in H0. pose proof (rne_pos_positive x H). lra.
Qed.

Lemma of_int_nonzero (z : Z) : z <> 0 -> Qeq_bool (of_int z) 0 = false.
Proof.
  intros Hz. destruct (Qeq_bool (of_int z) 0) eqn:E; [|reflexivity].
  apply Qeq_bool_iff in E. exfalso. revert E. apply rne_nonzero.
  intros H. apply Hz. unfold Qeq in H. simpl in H. lia.
Qed.

Lemma total_of_nonzero (m : dict string Z) : total_of m <> 0.
Proof.
  unfold total_of, or_int. destruct (sum_values m =? 0) eqn:E.
  - discriminate.
  - apply Z.eqb_neq. exact E.
Qed.

Lemma total_of_cases (m : dict string Z) :
  (sum_values m <> 0 /\ total_of m = sum_values m) \/
  (sum_values m = 0 /\ total_of m = 1).
Proof.
  unfold total_of, or_int. destruct (sum_values m =? 0) eqn:E.
  - right. apply Z.eqb_eq in E. auto.
  - left. apply Z.eqb_neq in E. auto.
Qed.

Lemma pct_of_ok (cnt total : Z) :
  total <> 0 -> pct_of cnt total = Ok (pct_value cnt total).
Proof.
  intros Ht. unfold pct_of, fdiv. rewrite (of_int_nonzero _ Ht). reflexivity.
Qed.

Lemma bars_loop_ok (total : Z) (top : list (string * Z)) :
  total <> 0 ->
  forall items acc,
    bars_loop total top items acc =
    Ok (items ++ map (bar_of total) top,
        acc_of (map (fun e => pct_value (snd e) total) top) acc).
Proof.
  intros Ht. induction top as [|[name cnt] rest IH]; intros items acc; simpl.
  - rewrite app_nil_r. reflexivity.
  - rewrite (pct_of_ok cnt _ Ht). simpl. rewrite IH, <- app_assoc. reflexivity.
Qed.

(** ** Rounding errors *)

Local Open Scope Q_scope.

Lemma rne_within (x B : Q) :
  - B <= x <= B -> x - ulp_half * B <= rne x <= x + ulp_half * B.
Proof.
  intros [H1 H2]. unfold ulp_half.
  destruct (Qlt_le_dec x 0) as [H|H].
  - rewrite (rne_lt x H).
    destruct (rne_pos_err (- x) ltac:(lra)) as [E1 E2]. unfold ulp_half in *.
    split; lra.
  - destruct (rne_err_nonneg x H) as [E1 E2]. unfold ulp_half in *.
    split; lra.
Qed.

Lemma inject_Z_tenth (k : Z) : 10 * (inject_Z k / 10) == inject_Z k.
Proof. field. Qed.

Lemma rhe_within (x : Q) (k : Z) :
  inject_Z k - (1 # 4) <= x <= inject_Z k + (1 # 4) -> round_half_even x = k.
Proof.
  intros [H1 H2]. apply rhe_near. apply Qabs_Qlt_condition. split; lra.
Qed.

(** A one-decimal number of moderate size is recovered from its float. *)
Lemma tenths_of_of_tenths (k : Z) :
  (- 1000000 <= k <= 1000000)%Z -> tenths_of (of_tenths k) = k.
Proof.
  intros [H1 H2]. unfold tenths_of, of_tenths.
  rewrite Zle_Qle in H1, H2.
  change (inject_Z (-1000000)) with (- 1000000) in H1.
  change (inject_Z 1000000) with 1000000 in H2.
  destruct (rne_within (inject_Z k / 10) 100000) as [E1 E2].
  { set (z := inject_Z k) in *. clearbody z. split.
    - apply Qle_shift_div_l; lra.
    - apply Qle_shift_div_r; lra. }
  pose proof (inject_Z_tenth k) as T. unfold ulp_half in *.
  apply rhe_within. set (z := inject_Z k) in *. clearbody z.
  set (t := z / 10) in *. clearbody t. set (r := rne t) in *. clearbody r.
  split; lra.
Qed.

Lemma of_tenths_mono (j k : Z) : (j <= k)%Z -> of_tenths j <= of_tenths k.
Proof.
  intros H. unfold of_tenths. apply rne_mono. rewrite Zle_Qle in H.
  apply Qle_shift_div_l; [reflexivity|].
  setoid_replace (inject_Z j / 10 * 10) with (inject_Z j) by field. exact H.
Qed.

Lemma round1_mono (x y : Q) : x <= y -> round1 x <= round1 y.
Proof.
  intros H. unfold round1, tenths_of. apply of_tenths_mono, rhe_mono. lra.
Qed.

Lemma of_int_mono (a b : Z) : (a <= b)%Z -> of_int a <= of_int b.
Proof. intros H. unfold of_int. apply rne_mono. rewrite <- Zle_Qle. exact H. Qed.

Lemma of_int_pos (t : Z) : (0 < t)%Z -> 0 < of_int t.
Proof.
  intros H. unfold of_int. rewrite Zlt_Qlt in H. rewrite (rne_gt _ H).
  apply rne_pos_positive. exact H.
Qed.

Lemma hundred : literal 100 1 = 100.
Proof. reflexivity. Qed.

Lemma zero_float : literal 0 1 = 0.
Proof. reflexivity. Qed.

(** The quotient [cnt * 100.0 / total] before [round(., 1)]. *)
Lemma quotient_mono (c1 c2 t : Z) :
  (0 < t)%Z -> (c1 <= c2)%Z ->
  rne (fmul (of_int c1) (literal 100 1) / of_int t) <=
  rne (fmul (of_int c2) (literal 100 1) / of_int t).
Proof.
  intros Ht Hc. apply rne_mono. pose proof (of_int_pos t Ht) as HT.
  assert (H : fmul (of_int c1) (literal 100 1) <= fmul (of_int c2) (literal 100 1)).
  { unfold fmul. apply rne_mono. rewrite hundred.
    pose proof (of_int_mono c1 c2 Hc). lra. }
  apply Qle_shift_div_l; [exact HT|].
  setoid_replace (fmul (of_int c1) (literal 100 1) / of_int t * of_int t)
    with (fmul (of_int c1) (literal 100 1)) by (field; lra).
  exact H.
Qed.

Lemma pct_value_mono (c1 c2 t : Z) :
  (0 < t)%Z -> (c1 <= c2)%Z -> pct_value c1 t <= pct_value c2 t.
Proof.
  intros Ht Hc. unfold pct_value. apply round1_mono, quotient_mono; assumption.
Qed.

(** The quotient is at most the exact ratio, up to the rounding of the
    three operations that compute it. *)
Lemma quotient_upper (c t : Z) :
  (0 <= c)%Z -> (0 < t)%Z ->
  let q := rne (fmul (of_int c) (literal 100 1) / of_int t) in
  0 <= q /\
  q * inject_Z t <= 100 * inject_Z c * (1 + 5 * ulp_half).
Proof.
  intros Hc Ht q. subst q.
  pose proof (of_int_pos t Ht) as HT.
  rewrite Zle_Qle in Hc. rewrite Zlt_Qlt in Ht.
  change (inject_Z 0) with 0 in Hc, Ht.
  destruct (rne_err_nonneg (inject_Z c) Hc) as [C1 C2].
  destruct (rne_err_nonneg (inject_Z t) (Qlt_le_weak _ _ Ht)) as [T1 _].
  fold (of_int c) in C1, C2. fold (of_int t) in T1.
  assert (HC : 0 <= of_int c) by (apply rne_sign; exact Hc).
  assert (HA0 : 0 <= of_int c * literal 100 1) by (rewrite hundred; lra).
  destruct (rne_err_nonneg _ HA0) as [_ A2].
  fold (fmul (of_int c) (literal 100 1)) in A2.
  assert (HA : 0 <= fmul (of_int c) (literal 100 1)) by (apply rne_sign; exact HA0).
  set (A := fmul (of_int c) (literal 100 1)) in *.
  rewrite hundred in A2.
  assert (HX0 : 0 <= A / of_int t).
  { apply Qle_shift_div_l; [exact HT|]. lra. }
  destruct (rne_err_nonneg _ HX0) as [_ X2].
  assert (Hq : 0 <= rne (A / of_int t)) by (apply rne_sign; exact HX0).
  assert (XT : A / of_int t * of_int t == A) by (field; lra).
  unfold ulp_half in *.
  set (C := of_int c) in *. set (T := of_int t) in *.
  set (X := A / T) in *. set (q := rne X) in *.
  set (zc := inject_Z c) in *. set (zt := inject_Z t) in *.
  clearbody q X A C T zc zt.
  split; [exact Hq|].
  assert (P1 : q * (zt * (1 - (1 # 9007199254740992))) <= q * T).
  { rewrite (Qmult_comm q), (Qmult_comm q T).
    apply Qmult_le_compat_r; [exact T1 | exact Hq]. }
  assert (P2 : q * T <= X * (1 + (1 # 9007199254740992)) * T)
    by (apply Qmult_le_compat_r; lra).
  set (qt := q * zt) in *.
  setoid_replace (q * (zt * (1 - (1 # 9007199254740992))))
    with (qt * (1 - (1 # 9007199254740992))) in P1 by (unfold qt; ring).
  setoid_replace (X * (1 + (1 # 9007199254740992)) * T)
    with (X * T * (1 + (1 # 9007199254740992))) in P2 by ring.
  rewrite XT in P2. clearbody qt. set (qT := q * T) in *. clearbody qT.
  lra.
Qed.

(** A percentage is a one-decimal number between 0 and 100, and it exceeds
    the exact ratio by at most half a tenth and the rounding of the
    quotient. *)
Lemma pct_tenths (c t : Z) :
  (0 <= c <= t)%Z -> (0 < t)%Z ->
  let k := tenths_of (pct_value c t) in
  (0 <= k <= 1000)%Z /\
  pct_value c t = of_tenths k /\
  inject_Z t * inject_Z k <=
    1000 * inject_Z c * (1 + 5 * ulp_half) + inject_Z t * (1 # 2).
Proof.
  intros [Hc Hct] Ht.
  destruct (quotient_upper c t Hc Ht) as [Q0 Q1].
  set (q := rne (fmul (of_int c) (literal 100 1) / of_int t)) in *.
  assert (E : pct_value c t = of_tenths (tenths_of q)) by reflexivity.
  destruct (rhe_bounds (10 * q)) as [_ B2]. fold (tenths_of q) in B2.
  assert (Hq : q <= 100 * (1 + 5 * ulp_half)).
  { rewrite Zle_Qle in Hct. rewrite Zlt_Qlt in Ht. rewrite Zle_Qle in Hc.
    change (inject_Z 0) with 0 in *. unfold ulp_half in *.
    apply (Qmult_le_r _ _ (inject_Z t) Ht).
    set (zc := inject_Z c) in *. set (zt := inject_Z t) in *.
    set (qt := q * zt) in *. clearbody qt zc zt. lra. }
  assert (K : (0 <= tenths_of q <= 1000)%Z).
  { split.
    - rewrite <- (rhe_inject 0). apply rhe_mono. change (inject_Z 0) with 0. lra.
    - assert (R : round_half_even (1000 + (1 # 4)) = 1000%Z)
        by (apply rhe_within; change (inject_Z 1000) with 1000; lra).
      rewrite <- R. apply rhe_mono. unfold ulp_half in Hq. lra. }
  intros k. subst k. rewrite E.
  rewrite tenths_of_of_tenths by lia.
  split; [exact K|]. split; [reflexivity|].
  rewrite Zlt_Qlt in Ht. change (inject_Z 0) with 0 in Ht.
  assert (P : inject_Z t * inject_Z (tenths_of q) <=
              inject_Z t * (10 * q + (1 # 2))).
  { rewrite !(Qmult_comm (inject_Z t)). apply Qmult_le_compat_r; lra. }
  unfold ulp_half in *.
  set (zk := inject_Z (tenths_of q)) in *. set (zt := inject_Z t) in *.
  set (zc := inject_Z c) in *.
  setoid_replace (zt * (10 * q + (1 # 2))) with (10 * (q * zt) + zt * (1 # 2))
    in P by ring.
  set (qt := q * zt) in *. set (tk := zt * zk) in *. clearbody qt tk zc zt. lra.
Qed.

Lemma flt_true (x y : Q) : flt x y = true <-> x < y.
Proof.
  unfold flt. rewrite negb_true_iff. split; intros H.
  - apply Qnot_le_lt. intros C. apply Qle_bool_iff in C. congruence.
  - destruct (Qle_bool y x) eqn:E; [|reflexivity].
    apply Qle_bool_iff in E. lra.
Qed.

Lemma flt_false (x y : Q) : flt x y = false <-> y <= x.
Proof.
  unfold flt. rewrite negb_false_iff. apply Qle_bool_iff.
Qed.

(** The error allowed on [acc_pct] per addition: [2^-40]. *)
Local Abbreviation slack := (1 # 1099511627776).

(** [acc_pct] follows the sum of the one-decimal numbers. *)
Lemma acc_of_tenths (ks : list Z) :
  Forall (fun k => 0 <= k <= 1000)%Z ks ->
  forall (n s : Z) (acc : Q),
    (0 <= n)%Z -> (n + Z.of_nat (List.length ks) <= 4)%Z ->
    (0 <= s <= 1000 * n)%Z ->
    inject_Z s / 10 - inject_Z n * slack <= acc /\
    acc <= inject_Z s / 10 + inject_Z n * slack ->
    inject_Z (fold_right Z.add s ks) / 10
      - inject_Z (n + Z.of_nat (List.length ks)) * slack
      <= acc_of (map of_tenths ks) acc /\
    acc_of (map of_tenths ks) acc
      <= inject_Z (fold_right Z.add s ks) / 10
         + inject_Z (n + Z.of_nat (List.length ks)) * slack.
Proof.
  induction 1 as [|k ks Hk Hks IH]; intros n s acc Hn Hlen Hs Hacc.
  - cbn [List.length Z.of_nat fold_right map acc_of fold_left].
    rewrite Z.add_0_r. exact Hacc.
  - change (acc_of (map of_tenths (k :: ks)) acc)
      with (acc_of (map of_tenths ks) (fadd acc (of_tenths k))).
    change (fold_right Z.add s (k :: ks)) with (k + fold_right Z.add s ks)%Z.
    change (List.length (k :: ks)) with (S (List.length ks)) in *.
    rewrite Nat2Z.inj_succ in *.
    specialize (IH (n + 1)%Z (s + k)%Z (fadd acc (of_tenths k))
                  ltac:(lia) ltac:(lia) ltac:(lia)).
    replace (fold_right Z.add (s + k)%Z ks) with (k + fold_right Z.add s ks)%Z in IH.
    2:{ clear. induction ks as [|j r IHr]; simpl; lia. }
    replace (n + Z.succ (Z.of_nat (List.length ks)))%Z
      with (n + 1 + Z.of_nat (List.length ks))%Z by lia.
    apply IH. clear IH.
    assert (Hn4 : (n <= 3)%Z) by lia.
    rewrite !inject_Z_plus. change (inject_Z 1) with 1.
    destruct Hk as [K0 K1]. destruct Hs as [S0 S1].
    rewrite Zle_Qle in K0, K1, S0, S1, Hn, Hn4. rewrite inject_Z_mult in S1.
    change (inject_Z 0) with 0 in *. change (inject_Z 1000) with 1000 in *.
    change (inject_Z 3) with 3 in *.
    destruct (rne_within (inject_Z k / 10) 100) as [P1 P2].
    { split; [apply Qle_shift_div_l | apply Qle_shift_div_r]; lra. }
    fold (of_tenths k) in P1, P2.
    destruct Hacc as [A1 A2].
    assert (T1 : 10 * (inject_Z k / 10) == inject_Z k) by field.
    assert (T2 : 10 * (inject_Z s / 10) == inject_Z s) by field.
    assert (T3 : (inject_Z s + inject_Z k) / 10 == inject_Z s / 10 + inject_Z k / 10)
      by field.
    rewrite T3.
    set (zk := inject_Z k) in *. set (zs := inject_Z s) in *.
    set (zn := inject_Z n) in *. set (p := of_tenths k) in *.
    set (k10 := zk / 10) in *. set (s10 := zs / 10) in *.
    clearbody p k10 s10 zk zs zn. unfold ulp_half in *.
    destruct (rne_within (acc + p) 1000) as [R1 R2]; [split; lra|].
    fold (fadd acc p) in R1, R2. unfold ulp_half in *.
    set (a := fadd acc p) in *. clearbody a. split; lra.
Qed.

Lemma of_tenths_pos (k : Z) : (0 < k)%Z -> 0 < of_tenths k.
Proof.
  intros H. unfold of_tenths. rewrite Zlt_Qlt in H. change (inject_Z 0) with 0 in H.
  assert (P : 0 < inject_Z k / 10) by (apply Qlt_shift_div_l; lra).
  rewrite (rne_gt _ P). apply rne_pos_positive. exact P.
Qed.

(** [round(max(0.0, 100.0 - acc_pct), 1)] is the remainder of the
    one-decimal numbers, or zero when they exceed 100. *)
Lemma others_pct_value (acc : Q) (s : Z) :
  (0 <= s <= 4000)%Z ->
  inject_Z s / 10 - 4 * slack <= acc /\ acc <= inject_Z s / 10 + 4 * slack ->
  round1 (fmax (literal 0 1) (fsub (literal 100 1) acc)) =
  of_tenths (Z.max 0 (1000 - s)).
Proof.
  intros [S0 S1] [A1 A2]. rewrite hundred, zero_float.
  unfold round1. f_equal. unfold tenths_of.
  rewrite Zle_Qle in S0, S1.
  change (inject_Z 0) with 0 in *. change (inject_Z 4000) with 4000 in *.
  assert (T : 10 * (inject_Z s / 10) == inject_Z s) by field.
  destruct (rne_within (100 - acc) 1000) as [R1 R2].
  { set (zs := inject_Z s) in *. set (s10 := zs / 10) in *.
    clearbody s10 zs. split; lra. }
  fold (fsub 100 acc) in R1, R2. unfold ulp_half in *.
  set (d := fsub 100 acc) in *.
  apply rhe_within.
  destruct (Z_le_gt_dec (1000 - s) 0) as [L|G].
  - rewrite Z.max_l by lia. change (inject_Z 0) with 0.
    assert (L' : 1000 <= inject_Z s).
    { change 1000 with (inject_Z 1000). rewrite <- Zle_Qle. lia. }
    unfold fmax. destruct (flt 0 d) eqn:F.
    + apply flt_true in F.
      set (zs := inject_Z s) in *. set (s10 := zs / 10) in *.
      clearbody d s10 zs. split; lra.
    + split; lra.
  - rewrite Z.max_r by lia.
    assert (G' : inject_Z s <= 999).
    { change 999 with (inject_Z 999). rewrite <- Zle_Qle. lia. }
    unfold Z.sub. rewrite inject_Z_plus, inject_Z_opp.
    change (inject_Z 1000) with 1000.
    assert (F : flt 0 d = true).
    { apply flt_true. set (zs := inject_Z s) in *. set (s10 := zs / 10) in *.
      clearbody d s10 zs. lra. }
    unfold fmax. rewrite F.
    set (zs := inject_Z s) in *. set (s10 := zs / 10) in *.
    clearbody d s10 zs. split; lra.
Qed.

Lemma In_firstn {A : Type} (n : nat) (l : list A) (x : A) :
  In x (firstn n l) -> In x l.
Proof.
  intros H. rewrite <- (firstn_skipn n l). apply in_or_app. left. exact H.
Qed.

(** ** The items the bars are computed from *)

Lemma total_of_pos (m : dict string Z) :
  counts_nonneg m -> (1 <= total_of m /\ sum_values m <= total_of m)%Z.
Proof.
  intros H. pose proof (sum_values_nonneg _ m H).
  destruct (total_of_cases m) as [[? ->]|[-> ->]]; lia.
Qed.

Lemma top_counts (m : dict string Z) (e : string * Z) :
  counts_nonneg m -> In e (firstn 4 (sorted_desc m)) ->
  In e m /\ (0 <= snd e <= total_of m)%Z.
Proof.
  intros H He. apply In_firstn in He.
  apply (Permutation_in _ (Permutation_sym (sorted_desc_perm _ m))) in He.
  split; [exact He|].
  pose proof (count_le_sum _ m e H He). destruct (total_of_pos m H).
  unfold counts_nonneg in H. rewrite Forall_forall in H. specialize (H e He). lia.
Qed.

Lemma tenths_sum_map (t : Z) (top : list (string * Z)) :
  fold_right Z.add 0%Z (map (fun e => tenths_of (pct_value (snd e) t)) top) =
  tenths_sum (map (bar_of t) top).
Proof.
  induction top as [|e r IH].
  - reflexivity.
  - change (tenths_sum (map (bar_of t) (e :: r)))
      with (tenths_of (pct_value (snd e) t) + tenths_sum (map (bar_of t) r))%Z.
    rewrite <- IH. reflexivity.
Qed.

Lemma top_tenths (m : dict string Z) :
  counts_nonneg m ->
  let top := firstn 4 (sorted_desc m) in
  let ks := map (fun e => tenths_of (pct_value (snd e) (total_of m))) top in
  map (fun e => pct_value (snd e) (total_of m)) top = map of_tenths ks /\
  Forall (fun k => 0 <= k <= 1000)%Z ks /\
  (List.length ks <= 4)%nat.
Proof.
  intros H top ks. subst ks. destruct (total_of_pos m H) as [Ht _].
  repeat split.
  - rewrite map_map. apply map_ext_in. intros e He.
    destruct (top_counts m e H He) as [_ Hc].
    apply (pct_tenths (snd e) (total_of m) Hc ltac:(lia)).
  - apply Forall_forall. intros k Hk. apply in_map_iff in Hk.
    destruct Hk as (e & <- & He). destruct (top_counts m e H He) as [_ Hc].
    apply (pct_tenths (snd e) (total_of m) Hc ltac:(lia)).
  - rewrite length_map. apply firstn_le_length.
Qed.

Lemma tenths_bounded (ks : list Z) :
  Forall (fun k => 0 <= k <= 1000)%Z ks ->
  (0 <= fold_right Z.add 0 ks <= 1000 * Z.of_nat (List.length ks))%Z.
Proof.
  induction 1 as [|k r Hk _ IH].
  - simpl. lia.
  - cbn [fold_right List.length]. rewrite Nat2Z.inj_succ. lia.
Qed.

Lemma top_bars_sum (m : dict string Z) :
  counts_nonneg m -> (0 <= tenths_sum (top_bars m) <= 4000)%Z.
Proof.
  intros H. destruct (top_tenths m H) as (_ & F & L). cbv zeta in F, L.
  unfold top_bars. rewrite <- tenths_sum_map.
  pose proof (tenths_bounded _ F). lia.
Qed.

Lemma others_pct_of_value (m : dict string Z) :
  counts_nonneg m -> others_pct_of m = of_tenths (Z.max 0 (remainder m)).
Proof.
  intros H. unfold others_pct_of, acc_pct_of, remainder.
  destruct (top_tenths m H) as (E & F & L). cbv zeta in E, F, L.
  assert (P : map pct (top_bars m) =
              map (fun e => pct_value (snd e) (total_of m))
                (firstn 4 (sorted_desc m))).
  { unfold top_bars. rewrite map_map. reflexivity. }
  rewrite P, E.
  pose proof (acc_of_tenths _ F 0%Z 0%Z (literal 0 1)
                ltac:(lia) ltac:(lia) ltac:(lia)) as A.
  rewrite tenths_sum_map in A. fold (top_bars m) in A.
  rewrite (others_pct_value _ (tenths_sum (top_bars m)) (top_bars_sum m H));
    [reflexivity|].
  destruct A as [A1 A2]; [split; apply Qle_bool_iff; reflexivity|].
  rewrite Z.add_0_l in A1, A2.
  assert (N : inject_Z (Z.of_nat (List.length
                (map (fun e => tenths_of (pct_value (snd e) (total_of m)))
                   (firstn 4 (sorted_desc m))))) <= 4).
  { change 4 with (inject_Z 4). rewrite <- Zle_Qle. lia. }
  assert (N0 : 0 <= inject_Z (Z.of_nat (List.length
                (map (fun e => tenths_of (pct_value (snd e) (total_of m)))
                   (firstn 4 (sorted_desc m)))))).
  { change 0 with (inject_Z 0). rewrite <- Zle_Qle. lia. }
  set (zn := inject_Z (Z.of_nat _)) in *.
  set (s10 := inject_Z _ / 10) in *.
  set (a := acc_of _ _) in *. clearbody a s10 zn.
  split; lra.
Qed.

(** The result of [top_four_plus_others], in closed form. *)
Lemma top_four_plus_others_value (m : dict string Z) :
  counts_nonneg m ->
  top_four_plus_others m =
  Ok (top_bars m ++
      if (4 <? List.length m)%nat && (0 <? remainder m)%Z
      then [others_bar m] else []).
Proof.
  intros H. unfold top_four_plus_others.
  rewrite (bars_loop_ok _ _ (total_of_nonzero m)). cbn [bind app].
  fold (top_bars m).
  assert (P : map (fun e => pct_value (snd e) (total_of m))
                (firstn 4 (sorted_desc m)) = map pct (top_bars m)).
  { unfold top_bars. rewrite map_map. reflexivity. }
  rewrite P. fold (acc_pct_of m). fold (others_pct_of m).
  rewrite (others_pct_of_value m H).
  assert (C1 : flt 0 (of_tenths (Z.max 0 (remainder m))) = (0 <? remainder m)%Z).
  { destruct (0 <? remainder m)%Z eqn:R.
    - apply Z.ltb_lt in R. rewrite Z.max_r by lia.
      apply flt_true, of_tenths_pos. exact R.
    - apply Z.ltb_ge in R. rewrite Z.max_l by lia. reflexivity. }
  assert (C2 : (List.length (firstn 4 (sorted_desc m)) <? List.length m)%nat
               = (4 <? List.length m)%nat).
  { rewrite length_firstn, sorted_desc_length.
    destruct (4 <? List.length m)%nat eqn:R.
    - apply Nat.ltb_lt in R. apply Nat.ltb_lt. lia.
    - apply Nat.ltb_ge in R. apply Nat.ltb_ge. lia. }
  rewrite C1, C2, andb_comm.
  destruct ((4 <? List.length m)%nat && (0 <? remainder m)%Z) eqn:R.
  - apply andb_true_iff in R. destruct R as [_ R]. apply Z.ltb_lt in R.
    unfold others_bar. rewrite Z.max_r by lia. reflexivity.
  - rewrite app_nil_r. reflexivity.
Qed.

(** ** The sum of the bars *)

Lemma sum_values_firstn (n : nat) (l : list (string * Z)) :
  Forall (fun e => 0 <= snd e)%Z l ->
  (0 <= sum_values (firstn n l) <= sum_values l)%Z.
Proof.
  intros H. rewrite <- (firstn_skipn n l) in H. apply Forall_app in H.
  destruct H as [H1 H2].
  pose proof (sum_values_nonneg _ _ H1). pose proof (sum_values_nonneg _ _ H2).
  assert (E : sum_values l =
              (sum_values (firstn n l) + sum_values (skipn n l))%Z)
    by (rewrite <- sum_values_app, firstn_skipn; reflexivity).
  lia.
Qed.

(** Over any items with counts between 0 and the total: the tenths of their
    bars against their counts. *)
Lemma bars_tenths_sum (t : Z) (l : list (string * Z)) :
  (0 < t)%Z -> Forall (fun e => 0 <= snd e <= t)%Z l ->
  inject_Z t * inject_Z (tenths_sum (map (bar_of t) l)) <=
    1000 * inject_Z (sum_values l) * (1 + 5 * ulp_half)
    + inject_Z (Z.of_nat (List.length l)) * (inject_Z t * (1 # 2)).
Proof.
  intros Ht. induction 1 as [|e r He _ IH].
  - cbn. unfold Qle. simpl. lia.
  - change (tenths_sum (map (bar_of t) (e :: r)))
      with (tenths_of (pct_value (snd e) t) + tenths_sum (map (bar_of t) r))%Z.
    change (List.length (e :: r)) with (S (List.length r)).
    rewrite sum_values_cons, Nat2Z.inj_succ. unfold Z.succ.
    rewrite !inject_Z_plus. change (inject_Z 1) with 1.
    destruct (pct_tenths (snd e) t He Ht) as (_ & _ & P).
    set (k := inject_Z (tenths_of (pct_value (snd e) t))) in *.
    set (K := inject_Z (tenths_sum (map (bar_of t) r))) in *.
    set (zt := inject_Z t) in *. set (zc := inject_Z (snd e)) in *.
    set (zs := inject_Z (sum_values r)) in *.
    set (zn := inject_Z (Z.of_nat (List.length r))) in *.
    setoid_replace (zt * (k + K)) with (zt * k + zt * K) by ring.
    set (tk := zt * k) in *. set (tK := zt * K) in *.
    setoid_replace ((zn + 1) * (zt * (1 # 2))) with (zn * (zt * (1 # 2)) + zt * (1 # 2))
      by ring.
    set (nt := zn * (zt * (1 # 2))) in *.
    unfold ulp_half in *. clearbody tk tK nt zt zc zs. lra.
Qed.

(** The top bars, as one-decimal numbers, exceed 100 by at most half a
    tenth each. *)
Lemma top_bars_sum_tight (m : dict string Z) :
  counts_nonneg m ->
  (2 * tenths_sum (top_bars m) <= 2000 + Z.of_nat (List.length (top_bars m)))%Z.
Proof.
  intros H. destruct (total_of_pos m H) as [Ht Hs].
  set (top := firstn 4 (sorted_desc m)).
  assert (F : Forall (fun e => 0 <= snd e <= total_of m)%Z top).
  { apply Forall_forall. intros e He. apply (top_counts m e H He). }
  pose proof (bars_tenths_sum (total_of m) top ltac:(lia) F) as B.
  change (map (bar_of (total_of m)) top) with (top_bars m) in B.
  assert (S : (sum_values top <= total_of m)%Z).
  { assert (P : Forall (fun e => 0 <= snd e)%Z (sorted_desc m)).
    { apply Forall_forall. intros e He.
      apply (Permutation_in _ (Permutation_sym (sorted_desc_perm _ m))) in He.
      unfold counts_nonneg in H. rewrite Forall_forall in H. apply H. exact He. }
    pose proof (sum_values_firstn 4 _ P) as Q.
    rewrite <- (sum_values_perm _ _ _ (sorted_desc_perm _ m)) in Q.
    unfold top. lia. }
  assert (L : List.length (top_bars m) = List.length top)
    by (unfold top_bars; apply length_map).
  rewrite L. assert (L4 : (List.length top <= 4)%nat) by apply firstn_le_length.
  apply Z.lt_succ_r. rewrite Zlt_Qlt. unfold Z.succ.
  rewrite !inject_Z_plus, inject_Z_mult.
  change (inject_Z 2) with 2. change (inject_Z 2000) with 2000.
  change (inject_Z 1) with 1.
  rewrite Zle_Qle in S, Ht. change (inject_Z 1) with 1 in Ht.
  set (K := inject_Z (tenths_sum (top_bars m))) in *.
  set (zt := inject_Z (total_of m)) in *.
  set (zs := inject_Z (sum_values top)) in *.
  set (zn := inject_Z (Z.of_nat (List.length top))) in *.
  apply (Qmult_lt_l _ _ zt); [lra|].
  setoid_replace (zt * (2 * K)) with (2 * (zt * K)) by ring.
  setoid_replace (zt * (2000 + zn + 1)) with (2000 * zt + 2 * (zn * (zt * (1 # 2))) + zt)
    by ring.
  set (tK := zt * K) in *. set (nt := zn * (zt * (1 # 2))) in *.
  unfold ulp_half in *. clearbody tK nt zt zs. lra.
Qed.
End BarsFacts.

(* ================================================================== *)
(** * The chart bars: statements *)

Module Bars.
Import PyFloat PyFloatFacts Py PyFacts App BarsFacts Examples.
Local Open Scope Z_scope.
Local Open Scope list_scope.

Lemma desc_pcts_bars (t : Z) (top : list (string * Z)) :
  (0 < t)%Z -> desc_counts top -> desc_pcts (map (bar_of t) top).
Proof.
  intros Ht. unfold desc_counts, desc_pcts.
  induction 1 as [|e r Hr IH He]; simpl.
  - constructor.
  - constructor; [exact IH|].
    apply Forall_forall. intros b Hb. apply in_map_iff in Hb.
    destruct Hb as (e' & <- & He'). rewrite Forall_forall in He.
    simpl. apply pct_value_mono; [exact Ht | apply He; exact He'].
Qed.

(** C9.  [top_four_plus_others] of the empty mapping is the empty list; on
    every mapping it returns without raising a division by zero; and the
    divisor [total] is at least 1 on every mapping of counts, also when
    the counts sum to 0. *)
Theorem top_four_plus_others_total (m : dict string Z) :
  top_four_plus_others [] = Ok [] /\
  (forall e : pyerror, top_four_plus_others m <> Raise e) /\
  total_of m <> 0 /\
  (counts_nonneg m -> 1 <= total_of m) /\
  (sum_values m = 0 -> total_of m = 1).
Proof.
  split; [reflexivity|]. split; [|split; [apply total_of_nonzero|split]].
  - intros e. unfold top_four_plus_others.
    rewrite (bars_loop_ok _ _ (total_of_nonzero m)). cbn [bind].
    destruct (_ && _); discriminate.
  - intros H. apply (total_of_pos m H).
  - intros H. destruct (total_of_cases m) as [[N _]|[_ E]]; [contradiction|exact E].
Qed.

Lemma top_four_plus_others_total_witness :
  counts_nonneg [("a", 0)] /\ 1 <= total_of [("a", 0)].
Proof.
  assert (H : counts_nonneg [("a", 0)]).
  { repeat constructor. simpl. lia. }
  split; [exact H|].
  exact (proj1 (proj2 (proj2 (proj2 (top_four_plus_others_total [("a", 0)])))) H).
Defined.

Lemma Forall2_bars (t : Z) (m top : list (string * Z)) :
  (forall e, In e top -> In e m) ->
  Forall2 (fun b e => In e m /\ bucket_label b = fst e /\
                      pct b = round1 (rne (fmul (of_int (snd e)) (literal 100 1)
                                           / of_int t)))
    (map (bar_of t) top) top.
Proof.
  induction top as [|e r IH]; intros Hin; cbn [map].
  - constructor.
  - constructor.
    + split; [apply Hin; left; reflexivity|]. split; reflexivity.
    + apply IH. intros x Hx. apply Hin. right. exact Hx.
Qed.

(** C2.  On a mapping of counts, [top_four_plus_others] returns the bars of
    the first four items in descending count order, followed by nothing or
    by the one [Others] bar: at most 5 buckets.  The percentage of each bar
    but [Others] is [round(count * 100.0 / total, 1)] for its item of the
    mapping: the float nearest to [count * 100.0], divided by the float of
    [total], rounded to the nearest float and then to one decimal; [total]
    is the sum of the counts (1 when that sum is 0).  These percentages are
    in descending order. *)
Theorem top_four_plus_others_buckets (m : dict string Z) :
  counts_nonneg m ->
  exists top others,
    top_four_plus_others m = Ok (top ++ others) /\
    (List.length (top ++ others) <= 5)%nat /\
    (others = [] \/
     exists p, others = [{| bucket_label := "Others"; pct := p |}]) /\
    Forall2 (fun b e => In e m /\ bucket_label b = fst e /\
                        pct b = round1 (rne (fmul (of_int (snd e)) (literal 100 1)
                                             / of_int (total_of m))))
      top (firstn 4 (sorted_desc m)) /\
    (sum_values m <> 0 -> total_of m = sum_values m) /\
    desc_pcts top.
Proof.
  intros H. exists (top_bars m).
  exists (if (4 <? List.length m)%nat && (0 <? remainder m)%Z
          then [others_bar m] else []).
  destruct (top_of_sorted _ 4 m) as (_ & L & S & _).
  split; [apply top_four_plus_others_value; exact H|].
  assert (L4 : (List.length (top_bars m) <= 4)%nat).
  { unfold top_bars. rewrite length_map. apply firstn_le_length. }
  split.
  { rewrite length_app. destruct (_ && _); cbn [List.length]; lia. }
  split.
  { destruct (_ && _); [right; eexists; reflexivity | left; reflexivity]. }
  split.
  { apply Forall2_bars. intros e He. apply (top_counts m e H He). }
  split.
  { intros N. destruct (total_of_cases m) as [[_ E]|[E _]]; [exact E|contradiction]. }
  unfold top_bars. apply desc_pcts_bars; [|exact S].
  destruct (total_of_pos m H). lia.
Qed.

Lemma top_four_plus_others_buckets_witness :
  counts_nonneg teacher_counts_5 /\
  exists top others,
    top_four_plus_others teacher_counts_5 = Ok (top ++ others) /\
    (List.length (top ++ others) <= 5)%nat /\
    (others = [] \/
     exists p, others = [{| bucket_label := "Others"; pct := p |}]) /\
    Forall2 (fun b e => In e teacher_counts_5 /\ bucket_label b = fst e /\
                        pct b = round1 (rne (fmul (of_int (snd e)) (literal 100 1)
                                             / of_int (total_of teacher_counts_5))))
      top (firstn 4 (sorted_desc teacher_counts_5)) /\
    (sum_values teacher_counts_5 <> 0 ->
     total_of teacher_counts_5 = sum_values teacher_counts_5) /\
    desc_pcts top.
Proof.
  assert (H : counts_nonneg teacher_counts_5).
  { unfold counts_nonneg, teacher_counts_5. repeat constructor; simpl; lia. }
  split; [exact H|]. exact (top_four_plus_others_buckets teacher_counts_5 H).
Defined.

(** C3.  On a mapping of counts, the bars are those of the top 4 items by
    count, descending (the items kept are the first four of the sorted
    items, none of the others has a larger count), and one [Others] bar
    follows exactly when the mapping has more than 4 labels and the
    remainder, 100 minus the sum of the top percentages in one-decimal
    arithmetic, is positive; it carries that remainder, which is the value
    [round(max(0.0, 100.0 - acc_pct), 1)] computed by the code.  For
    [{T1: 10, T2: 7, T3: 5, T4: 3, T5: 1}] the result is T1 38.5, T2 26.9,
    T3 19.2, T4 11.5, Others 3.9. *)
Theorem top_four_plus_others_others :
  (forall m : dict string Z,
     counts_nonneg m ->
     let top := firstn 4 (sorted_desc m) in
     let rest := skipn 4 (sorted_desc m) in
     (Permutation m (top ++ rest) /\
      List.length top = Nat.min 4 (List.length m) /\
      desc_counts top /\
      (forall a b, In a top -> In b rest -> snd b <= snd a)) /\
     map bucket_label (top_bars m) = map fst top /\
     others_pct_of m = of_tenths (Z.max 0 (remainder m)) /\
     top_four_plus_others m =
     Ok (top_bars m ++
         if (4 <? List.length m)%nat && (0 <? remainder m)
         then [{| bucket_label := "Others";
                  pct := of_tenths (remainder m) |}]
         else [])) /\
  top_four_plus_others teacher_counts_5 =
  Ok [ {| bucket_label := "T1"; pct := literal 385 10 |};
       {| bucket_label := "T2"; pct := literal 269 10 |};
       {| bucket_label := "T3"; pct := literal 192 10 |};
       {| bucket_label := "T4"; pct := literal 115 10 |};
       {| bucket_label := "Others"; pct := literal 39 10 |} ].
Proof.
  split; [|vm_compute; reflexivity].
  intros m H top rest. split; [apply top_of_sorted|].
  split.
  { unfold top_bars. rewrite map_map. reflexivity. }
  split; [apply others_pct_of_value; exact H|].
  apply top_four_plus_others_value. exact H.
Qed.

Lemma top_four_plus_others_others_witness :
  counts_nonneg full_top /\
  top_four_plus_others full_top = Ok (top_bars full_top) /\
  remainder full_top = 0.
Proof.
  assert (H : counts_nonneg full_top).
  { unfold counts_nonneg, full_top. repeat constructor; simpl; lia. }
  split; [exact H|].
  assert (R : remainder full_top = 0) by (vm_compute; reflexivity).
  split; [|exact R].
  destruct (proj1 top_four_plus_others_others full_top H) as (_ & _ & _ & E).
  rewrite E, R. rewrite andb_false_r. apply f_equal. apply app_nil_r.
Defined.

Lemma tenths_sum_app (a b : list bucket) :
  tenths_sum (a ++ b) = tenths_sum a + tenths_sum b.
Proof.
  induction a as [|x r IH].
  - reflexivity.
  - change (tenths_sum ((x :: r) ++ b))
      with (tenths_of (pct x) + tenths_sum (r ++ b)).
    change (tenths_sum (x :: r)) with (tenths_of (pct x) + tenths_sum r).
    rewrite IH. lia.
Qed.

Lemma top_bars_decimal (m : dict string Z) :
  counts_nonneg m -> Forall decimal_bar (top_bars m).
Proof.
  intros H. apply Forall_forall. intros b Hb. unfold top_bars in Hb.
  apply in_map_iff in Hb. destruct Hb as (e & <- & He).
  destruct (top_counts m e H He) as [_ Hc]. destruct (total_of_pos m H) as [Ht _].
  destruct (pct_tenths (snd e) (total_of m) Hc ltac:(lia)) as (K & E & _).
  split; [exact E | exact K].
Qed.

Lemma others_bar_decimal (m : dict string Z) :
  counts_nonneg m -> 0 < remainder m ->
  decimal_bar (others_bar m) /\ tenths_of (pct (others_bar m)) = remainder m.
Proof.
  intros H R. pose proof (top_bars_sum m H) as B.
  assert (E : tenths_of (pct (others_bar m)) = remainder m).
  { unfold others_bar. cbn [pct]. apply tenths_of_of_tenths.
    unfold remainder in *. lia. }
  split; [|exact E]. unfold decimal_bar. rewrite E. split.
  - reflexivity.
  - unfold remainder in *. lia.
Qed.

Lemma pct_sum_decimal (l : list bucket) :
  Forall decimal_bar l ->
  (pct_sum l <= inject_Z (tenths_sum l) / 10 * (1 + ulp_half))%Q.
Proof.
  induction 1 as [|b r [E K] _ IH].
  - apply Qle_bool_iff. reflexivity.
  - change (pct_sum (b :: r)) with (pct b + pct_sum r)%Q.
    change (tenths_sum (b :: r)) with (tenths_of (pct b) + tenths_sum r).
    rewrite inject_Z_plus.
    assert (P : (0 <= inject_Z (tenths_of (pct b)) / 10)%Q).
    { apply Qle_shift_div_l; [reflexivity|].
      destruct K as [K0 _]. rewrite Zle_Qle in K0.
      change (inject_Z 0) with 0%Q in K0. lra. }
    destruct (rne_err_nonneg _ P) as [_ U].
    fold (of_tenths (tenths_of (pct b))) in U. rewrite <- E in U.
    assert (D : ((inject_Z (tenths_of (pct b)) + inject_Z (tenths_sum r)) / 10
                 == inject_Z (tenths_of (pct b)) / 10
                    + inject_Z (tenths_sum r) / 10)%Q) by field.
    rewrite D. unfold ulp_half in *.
    set (p := pct b) in *. set (k10 := (inject_Z (tenths_of p) / 10)%Q) in *.
    set (s10 := (inject_Z (tenths_sum r) / 10)%Q) in *.
    set (ps := pct_sum r) in *. clearbody p k10 s10 ps. lra.
Qed.

(** C4, amended.  On a mapping of counts, every returned percentage is the
    float of a one-decimal number, and the sum of the percentages, read as
    these one-decimal numbers, is at most 100.0 plus 0.05 per bucket.  The
    sum of the binary float values is at most that bound enlarged by the
    relative representation error [2^-53] of a float. *)
Theorem top_four_plus_others_sum (m : dict string Z) :
  counts_nonneg m ->
  exists items,
    top_four_plus_others m = Ok items /\
    Forall (fun b => pct b = of_tenths (tenths_of (pct b))) items /\
    (inject_Z (tenths_sum items) / 10 <= epsilon_bound (List.length items))%Q /\
    (pct_sum items <= epsilon_bound (List.length items) * (1 + ulp_half))%Q.
Proof.
  intros H.
  pose proof (top_four_plus_others_value m H) as V.
  pose proof (top_bars_decimal m H) as D.
  pose proof (top_bars_sum_tight m H) as T.
  pose proof (top_bars_sum m H) as B.
  set (extra := if (4 <? List.length m)%nat && (0 <? remainder m)
                then [others_bar m] else []) in *.
  assert (X : Forall decimal_bar (top_bars m ++ extra) /\
              2 * tenths_sum (top_bars m ++ extra)
              <= 2000 + Z.of_nat (List.length (top_bars m ++ extra))).
  { subst extra. destruct ((4 <? List.length m)%nat && (0 <? remainder m)) eqn:C.
    - apply andb_true_iff in C. destruct C as [_ C]. apply Z.ltb_lt in C.
      destruct (others_bar_decimal m H C) as [O1 O2]. split.
      + apply Forall_app. split; [exact D|]. constructor; [exact O1|constructor].
      + rewrite tenths_sum_app.
        change (tenths_sum [others_bar m])
          with (tenths_of (pct (others_bar m)) + 0).
        rewrite O2. unfold remainder. lia.
    - rewrite app_nil_r. split; [exact D | exact T]. }
  destruct X as [XD XS].
  exists (top_bars m ++ extra). split; [exact V|]. split.
  { apply Forall_forall. intros b Hb. rewrite Forall_forall in XD.
    apply (XD b Hb). }
  assert (S : (inject_Z (tenths_sum (top_bars m ++ extra)) / 10
               <= epsilon_bound (List.length (top_bars m ++ extra)))%Q).
  { unfold epsilon_bound. apply Qle_shift_div_r; [reflexivity|].
    rewrite Zle_Qle in XS. rewrite inject_Z_plus, inject_Z_mult in XS.
    change (inject_Z 2) with 2%Q in XS. change (inject_Z 2000) with 2000%Q in XS.
    set (zs := inject_Z (tenths_sum _)) in *. set (zn := inject_Z (Z.of_nat _)) in *.
    clearbody zs zn. lra. }
  split; [exact S|].
  pose proof (pct_sum_decimal _ XD) as P. unfold ulp_half in *.
  set (ps := pct_sum _) in *. set (s10 := (inject_Z _ / 10)%Q) in *.
  set (eb := epsilon_bound _) in *. clearbody ps s10 eb. lra.
Qed.

Lemma top_four_plus_others_sum_witness :
  counts_nonneg two_ties /\
  exists items,
    top_four_plus_others two_ties = Ok items /\
    Forall (fun b => pct b = of_tenths (tenths_of (pct b))) items /\
    (inject_Z (tenths_sum items) / 10 <= epsilon_bound (List.length items))%Q /\
    (pct_sum items <= epsilon_bound (List.length items) * (1 + ulp_half))%Q.
Proof.
  assert (H : counts_nonneg two_ties).
  { unfold counts_nonneg, two_ties. repeat constructor; cbn [snd]; lia. }
  split; [exact H|]. exact (top_four_plus_others_sum two_ties H).
Defined.

(** C4, as stated, fails: the bound does not hold of the returned values.
    For the counts 1923 and 77 the two percentages are 96.2 and 3.9, each
    rounded up from a tie; the exact sum of the two floats is above
    100 + 2 * 0.05, and their sum computed in floats is above the float
    [100.0 + 0.05 * 2]. *)
Lemma top_four_plus_others_sum_counterexample :
  counts_nonneg two_ties /\
  top_four_plus_others two_ties =
  Ok [ {| bucket_label := "a"; pct := literal 962 10 |};
       {| bucket_label := "b"; pct := literal 39 10 |} ] /\
  ~ sums_within_epsilon /\
  ~ float_sums_within_epsilon.
Proof.
  assert (H : counts_nonneg two_ties).
  { unfold counts_nonneg, two_ties. repeat constructor; cbn [snd]; lia. }
  assert (E : top_four_plus_others two_ties =
              Ok [ {| bucket_label := "a"; pct := literal 962 10 |};
                   {| bucket_label := "b"; pct := literal 39 10 |} ])
    by (vm_compute; reflexivity).
  split; [exact H|]. split; [exact E|]. split.
  - intros C. specialize (C two_ties _ H E).
    unfold sum_within_epsilon in C. apply Qle_bool_iff in C.
    vm_compute in C. discriminate C.
  - intros C. specialize (C two_ties _ H E).
    vm_compute in C. discriminate C.
Qed.

(** The bound of the amended C4 is reached, and the binary floats drift
    above it: for the counts 1923 and 77 the one-decimal numbers add up to
    100.1; the exact sum of the two floats, and their sum computed in
    floats, are just above 100 + 2 * 0.05. *)
Example float_sum_drift :
  top_four_plus_others two_ties =
  Ok [ {| bucket_label := "a"; pct := literal 962 10 |};
       {| bucket_label := "b"; pct := literal 39 10 |} ] /\
  tenths_sum [ {| bucket_label := "a"; pct := literal 962 10 |};
               {| bucket_label := "b"; pct := literal 39 10 |} ] = 1001 /\
  ~ sum_within_epsilon
      [ {| bucket_label := "a"; pct := literal 962 10 |};
        {| bucket_label := "b"; pct := literal 39 10 |} ] /\
  flt (float_bound 2)
      (float_sum [ {| bucket_label := "a"; pct := literal 962 10 |};
                   {| bucket_label := "b"; pct := literal 39 10 |} ]) = true.
Proof.
  split; [vm_compute; reflexivity|]. split; [vm_compute; reflexivity|].
  split; [|vm_compute; reflexivity].
  unfold sum_within_epsilon. intros C. apply Qle_bool_iff in C.
  vm_compute in C. discriminate C.
Qed.

(** [acc_pct] drifts as well: for five labels whose top percentages are
    99.1, 0.7, 0.1 and 0.1, it is just below 100, and the rounding of the
    remainder to one decimal gives 0: no [Others] bar. *)
Example acc_pct_drift :
  (acc_pct_of full_top < 100)%Q /\
  others_pct_of full_top = literal 0 1 /\
  remainder full_top = 0 /\
  top_four_plus_others full_top = Ok (top_bars full_top).
Proof.
  split; [reflexivity|]. split; [vm_compute; reflexivity|].
  split; vm_compute; reflexivity.
Qed.
End Bars.

(* ================================================================== *)
(** * Properties of the leaderboard *)

Module LeadersFacts.
Import Py App.
Local Open Scope Z_scope.
Local Open Scope list_scope.

(** ** Dictionaries *)

Section Tally.
Variables A K : Type.
Variable eqb : K -> K -> bool.
Hypothesis eqb_eq : forall x y, eqb x y = true <-> x = y.
Variable entry : A -> option (K * Z).

Lemma eqb_refl (x : K) : eqb x x = true.
Proof. apply eqb_eq. reflexivity. Qed.

Lemma eqb_sym (x y : K) : eqb x y = eqb y x.
Proof.
  destruct (eqb x y) eqn:E, (eqb y x) eqn:F; try reflexivity.
  - apply eqb_eq in E. subst y. rewrite eqb_refl in F. discriminate.
  - apply eqb_eq in F. subst y. rewrite eqb_refl in E. discriminate.
Qed.

Lemma dict_get_set (d : dict K Z) (k s : K) (v : Z) :
  dict_get eqb (dict_set eqb d k v) s =
  if eqb s k then Some v else dict_get eqb d s.
Proof.
  induction d as [|[k' v'] r IH]; cbn [dict_set dict_get].
  - reflexivity.
  - destruct (eqb k k') eqn:E; cbn [dict_get].
    + apply eqb_eq in E. subst k'. destruct (eqb s k); reflexivity.
    + rewrite IH. destruct (eqb s k') eqn:E1; [|reflexivity].
      apply eqb_eq in E1. subst k'. rewrite (eqb_sym s k), E. reflexivity.
Qed.

Lemma dict_get_add (d : dict K Z) (k s : K) (w : Z) :
  dict_get eqb (dict_add eqb d k w) s =
  if eqb s k
  then Some (match dict_get eqb d k with Some v => v | None => 0 end + w)
  else dict_get eqb d s.
Proof. unfold dict_add. apply dict_get_set. Qed.

Lemma dict_set_keys (d : dict K Z) (k : K) (v : Z) :
  map fst (dict_set eqb d k v) =
  match dict_get eqb d k with
  | Some _ => map fst d
  | None => map fst d ++ [k]
  end.
Proof.
  induction d as [|[k' v'] r IH]; cbn [dict_set dict_get map fst].
  - reflexivity.
  - destruct (eqb k k') eqn:E; cbn [map fst].
    + reflexivity.
    + rewrite IH. destruct (dict_get eqb r k); reflexivity.
Qed.

Lemma dict_get_none (d : dict K Z) (k : K) :
  dict_get eqb d k = None -> ~ In k (map fst d).
Proof.
  induction d as [|[k' v'] r IH]; cbn [dict_get map fst]; intros H.
  - intros [].
  - destruct (eqb k k') eqn:E; [discriminate|].
    intros [C|C]; [|exact (IH H C)].
    subst k'. rewrite eqb_refl in E. discriminate.
Qed.

(** The keys of a dictionary stay distinct. *)
Lemma dict_add_nodup (d : dict K Z) (k : K) (w : Z) :
  NoDup (map fst d) -> NoDup (map fst (dict_add eqb d k w)).
Proof.
  intros H. unfold dict_add. rewrite dict_set_keys.
  destruct (dict_get eqb d k) eqn:E; [exact H|].
  apply NoDup_app; [exact H | repeat constructor; intros [] |].
  intros x Hx [Hk|[]]. subst x. exact (dict_get_none d k E Hx).
Qed.

Lemma tally_nodup (q : list A) :
  forall d, NoDup (map fst d) ->
            NoDup (map fst (fold_left (tally_step eqb entry) q d)).
Proof.
  induction q as [|n r IH]; intros d H; cbn [fold_left].
  - exact H.
  - apply IH. unfold tally_step. destruct (entry n) as [[k w]|]; [|exact H].
    apply dict_add_nodup. exact H.
Qed.

Lemma tally_get (q : list A) (s : K) :
  forall d,
    dict_get eqb (fold_left (tally_step eqb entry) q d) s =
    match filter (hits eqb entry s) q with
    | [] => dict_get eqb d s
    | l => Some (match dict_get eqb d s with Some v => v | None => 0 end
                 + fold_right (fun n a => amount entry n + a) 0 l)
    end.
Proof.
  induction q as [|n r IH]; intros d; cbn [fold_left filter].
  - reflexivity.
  - rewrite IH. clear IH.
    assert (E : amount entry n = match entry n with Some (_, w) => w | None => 0 end)
      by reflexivity.
    unfold tally_step, hits at 2.
    destruct (entry n) as [[k w]|].
    + rewrite !dict_get_add. rewrite (eqb_sym s k).
      destruct (eqb k s) eqn:F.
      * apply eqb_eq in F. subst k. cbn [fold_right]. rewrite E.
        destruct (filter (hits eqb entry s) r) as [|x l]; cbn [fold_right];
          f_equal; lia.
      * reflexivity.
    + reflexivity.
Qed.

Lemma amounts_one (s : K) (l : list A) :
  (forall n, hits eqb entry s n = true -> amount entry n = 1) ->
  Forall (fun n => hits eqb entry s n = true) l ->
  fold_right (fun n a => amount entry n + a) 0 l = Z.of_nat (List.length l).
Proof.
  intros H. induction 1 as [|n r Hn _ IH].
  - reflexivity.
  - cbn [fold_right List.length]. rewrite IH, (H n Hn), Nat2Z.inj_succ. lia.
Qed.

(** A dictionary that counts: each entry adds 1. *)
Lemma count_get (q : list A) (s : K) :
  (forall n k w, entry n = Some (k, w) -> w = 1) ->
  dict_get eqb (fold_left (tally_step eqb entry) q []) s =
  match filter (hits eqb entry s) q with
  | [] => None
  | l => Some (Z.of_nat (List.length l))
  end.
Proof.
  intros H1. rewrite tally_get. cbn [dict_get].
  assert (F : Forall (fun n => hits eqb entry s n = true)
                (filter (hits eqb entry s) q)).
  { apply Forall_forall. intros x Hx. apply filter_In in Hx. apply Hx. }
  destruct (filter (hits eqb entry s) q) as [|x l]; [reflexivity|].
  f_equal. rewrite Z.add_0_l. apply (amounts_one s); [|exact F].
  intros n Hn. unfold hits, amount in *.
  destruct (entry n) as [[k w]|] eqn:E; [|discriminate].
  apply (H1 n k w E).
Qed.
End Tally.

Lemma tally_note_folds (q : list Note) :
  forall t,
    app_sec (fold_left tally_note q t)
      = fold_left (tally_step Z.eqb app_entry) q (app_sec t) /\
    appr_sec (fold_left tally_note q t)
      = fold_left (tally_step Z.eqb appr_entry) q (appr_sec t) /\
    top_t (fold_left tally_note q t)
      = fold_left (tally_step Z.eqb teacher_entry) q (top_t t).
Proof.
  induction q as [|n r IH]; intros t; cbn [fold_left].
  - repeat split.
  - destruct (IH (tally_note t n)) as (A & G & T). rewrite A, G, T.
    unfold tally_note, tally_step, app_entry, appr_entry, teacher_entry.
    cbn [app_sec appr_sec top_t].
    repeat split.
    + destruct (receiver_section_id n); [|reflexivity].
      destruct (_ && _); reflexivity.
    + destruct (giver_section_id n); [|reflexivity].
      destruct (_ && _); reflexivity.
    + destruct (receiver_teacher_id n); [|reflexivity].
      destruct (_ && _); reflexivity.
Qed.

Lemma hits_app (s : Z) (n : Note) : hits Z.eqb app_entry s n = student_receiver_in s n.
Proof.
  unfold hits, app_entry, student_receiver_in.
  destruct (receiver_section_id n); [|reflexivity].
  destruct (_ && _); reflexivity.
Qed.

Lemma hits_appr (s : Z) (n : Note) : hits Z.eqb appr_entry s n = student_giver_in s n.
Proof.
  unfold hits, appr_entry, student_giver_in.
  destruct (giver_section_id n); [|reflexivity].
  destruct (_ && _); reflexivity.
Qed.

Lemma hits_teacher (k : Z) (n : Note) :
  hits Z.eqb teacher_entry k n = teacher_receiver_is k n.
Proof.
  unfold hits, teacher_entry, teacher_receiver_is.
  destruct (receiver_teacher_id n); [|reflexivity].
  destruct (_ && _); reflexivity.
Qed.

Lemma amounts_weight (s : Z) (l : list Note) :
  Forall (fun n => hits Z.eqb appr_entry s n = true) l ->
  fold_right (fun n a => amount appr_entry n + a) 0 l =
  fold_right (fun n a => Py.or_int (weight_applied n) 1 + a) 0 l.
Proof.
  induction 1 as [|n r Hn _ IH].
  - reflexivity.
  - cbn [fold_right]. rewrite IH. f_equal.
    unfold hits, amount, appr_entry in *.
    destruct (giver_section_id n); [|discriminate].
    destruct (_ && _); [reflexivity|discriminate].
Qed.

Lemma filter_all {A : Type} (p : A -> bool) (l : list A) :
  Forall (fun x => p x = true) (filter p l).
Proof.
  apply Forall_forall. intros x Hx. apply filter_In in Hx. apply Hx.
Qed.

(** ** The three dictionaries of a window *)

Lemma app_sec_get (q : list Note) (s : Z) :
  dict_get Z.eqb (app_sec (fold_left tally_note q no_tallies)) s =
  count_entry (filter (student_receiver_in s) q).
Proof.
  destruct (tally_note_folds q no_tallies) as (-> & _ & _).
  rewrite (tally_get _ _ Z.eqb Z.eqb_eq). cbn [app_sec no_tallies dict_get].
  pose proof (filter_all (hits Z.eqb app_entry s) q) as F.
  rewrite (filter_ext _ _ (hits_app s)) in *.
  destruct (filter (student_receiver_in s) q) as [|x l] eqn:E; [reflexivity|].
  unfold count_entry. f_equal. rewrite Z.add_0_l.
  apply (amounts_one _ _ Z.eqb app_entry s); [|].
  - intros n Hn. unfold hits, amount, app_entry in *.
    destruct (receiver_section_id n); [|discriminate].
    destruct (_ && _); [reflexivity|discriminate].
  - exact F.
Qed.

Lemma top_t_get (q : list Note) (k : Z) :
  dict_get Z.eqb (top_t (fold_left tally_note q no_tallies)) k =
  count_entry (filter (teacher_receiver_is k) q).
Proof.
  destruct (tally_note_folds q no_tallies) as (_ & _ & ->).
  rewrite (tally_get _ _ Z.eqb Z.eqb_eq). cbn [top_t no_tallies dict_get].
  pose proof (filter_all (hits Z.eqb teacher_entry k) q) as F.
  rewrite (filter_ext _ _ (hits_teacher k)) in *.
  destruct (filter (teacher_receiver_is k) q) as [|x l] eqn:E; [reflexivity|].
  unfold count_entry. f_equal. rewrite Z.add_0_l.
  apply (amounts_one _ _ Z.eqb teacher_entry k); [|].
  - intros n Hn. unfold hits, amount, teacher_entry in *.
    destruct (receiver_teacher_id n); [|discriminate].
    destruct (_ && _); [reflexivity|discriminate].
  - exact F.
Qed.

Lemma appr_sec_get (q : list Note) (s : Z) :
  dict_get Z.eqb (appr_sec (fold_left tally_note q no_tallies)) s =
  weight_entry (filter (student_giver_in s) q).
Proof.
  destruct (tally_note_folds q no_tallies) as (_ & -> & _).
  rewrite (tally_get _ _ Z.eqb Z.eqb_eq). cbn [appr_sec no_tallies dict_get].
  pose proof (filter_all (hits Z.eqb appr_entry s) q) as F.
  rewrite (filter_ext _ _ (hits_appr s)) in *.
  destruct (filter (student_giver_in s) q) as [|x l] eqn:E; [reflexivity|].
  unfold weight_entry. f_equal. rewrite Z.add_0_l.
  apply amounts_weight with (s := s).
  exact F.
Qed.

(** ** The selection of the winner *)

Lemma max_from_first (best : Z * Z) (l : list (Z * Z)) :
  first_max (max_from best l) (best :: l).
Proof.
  revert best. induction l as [|x r IH]; intros best; cbn [max_from].
  - exists [], []. repeat split; intros y [].
  - destruct (snd best <? snd x) eqn:E.
    + apply Z.ltb_lt in E.
      destruct (IH x) as (b & a & Eq & Hb & Ha).
      exists (best :: b), a. split; [cbn; rewrite Eq; reflexivity|].
      split; [|exact Ha].
      intros y [<-|Hy]; [|apply Hb; exact Hy].
      assert (Hx : In x (b ++ max_from x r :: a)) by (rewrite <- Eq; left; reflexivity).
      apply in_app_or in Hx. destruct Hx as [Hx|[Hx|Hx]].
      * specialize (Hb x Hx). lia.
      * rewrite Hx. exact E.
      * specialize (Ha x Hx). lia.
    + apply Z.ltb_ge in E.
      destruct (IH best) as (b & a & Eq & Hb & Ha).
      destruct b as [|b0 b'].
      * cbn in Eq. injection Eq as E1 E2. exists [], (x :: a).
        split; [cbn; rewrite <- E1, <- E2; reflexivity|].
        split; [intros y []|].
        intros y [<-|Hy]; [rewrite <- E1; exact E|apply Ha; exact Hy].
      * cbn in Eq. injection Eq as E1 E2. subst b0.
        exists (best :: x :: b'), a.
        split; [cbn; do 2 f_equal; exact E2|].
        split; [|exact Ha].
        assert (Hbest : snd best < snd (max_from best r)) by (apply Hb; left; reflexivity).
        intros y [<-|[<-|Hy]]; [exact Hbest|lia|apply Hb; right; exact Hy].
Qed.

Lemma best_of_selected (m : dict Z Z) :
  exists best, best_of m = Ok best /\ selected m best.
Proof.
  destruct m as [|x r].
  - exists None. split; reflexivity.
  - exists (Some (max_from x r)). split; [reflexivity|].
    apply max_from_first.
Qed.

Lemma best_of_value (m : dict Z Z) : best_of m = Ok (first_of_max m).
Proof. destruct m; reflexivity. Qed.

Lemma first_of_max_selected (m : dict Z Z) : selected m (first_of_max m).
Proof.
  destruct m as [|x r]; cbn [first_of_max selected].
  - reflexivity.
  - apply max_from_first.
Qed.

Lemma leaders_of_window_value (d : db) (start end_ : Z) :
  leaders_of_window d start end_ = Ok (window_value d start end_).
Proof.
  unfold leaders_of_window. rewrite !best_of_value. reflexivity.
Qed.

Lemma leaders_of_windows_value (d : db) (prs : list (string * (Z * Z))) :
  leaders_of_windows d prs =
  Ok (map (fun pr => (fst pr, window_value d (fst (snd pr)) (snd (snd pr)))) prs).
Proof.
  induction prs as [|[key [start end_]] rest IH]; cbn [leaders_of_windows map].
  - reflexivity.
  - rewrite leaders_of_window_value, IH. reflexivity.
Qed.

Lemma window_notes_in (d : db) (start end_ : Z) (n : Note) :
  In n (window_notes d start end_) <->
  In n (notes d) /\ status n = "approved"%string /\ start <= created_at n <= end_.
Proof.
  unfold window_notes, in_window, is_approved. rewrite filter_In.
  rewrite !andb_true_iff, String.eqb_eq, !Z.leb_le. tauto.
Qed.

Lemma winner_text_none (name : Z -> string) (m : dict Z Z) :
  winner_text name (first_of_max m) = None <-> m = [].
Proof.
  destruct m as [|x r]; cbn [first_of_max winner_text].
  - tauto.
  - destruct (max_from x r). split; discriminate.
Qed.
End LeadersFacts.

(* ================================================================== *)
(** * The leaderboard: statements *)

Module Leaders.
Import Py App LeadersFacts Examples.
Local Open Scope Z_scope.
Local Open Scope list_scope.

(** C1.  For every database and window, the loop of [compute_leaders] runs
    over the approved notes of the window and builds three dictionaries:
    receiver section to the number of notes received by a student of it,
    giver section to the sum of the weights ([weight_applied], 1 when unset)
    of the notes given by a student of it, receiver teacher to the number of
    notes received; of each non-empty dictionary the first entry of maximal
    count is selected, the winner texts are made of the selected entries,
    and the four windows of [period_ranges] are treated so.  For the two
    approved notes of students A and B of section 6-A, to sections 6-A and
    7-A, the giver-section dictionary of the weekly window holds 3 for 6-A. *)
Theorem compute_leaders_mappings :
  (forall (d : db) (start end_ : Z),
     let q := window_notes d start end_ in
     let t := window_tallies d start end_ in
     (forall n, In n q <->
                In n (notes d) /\ status n = "approved"%string /\
                start <= created_at n <= end_) /\
     (forall s, dict_get Z.eqb (app_sec t) s =
                count_entry (filter (student_receiver_in s) q)) /\
     (forall s, dict_get Z.eqb (appr_sec t) s =
                weight_entry (filter (student_giver_in s) q)) /\
     (forall k, dict_get Z.eqb (top_t t) k =
                count_entry (filter (teacher_receiver_is k) q)) /\
     exists best_app_sec best_appr_sec best_teacher,
       selected (app_sec t) best_app_sec /\
       selected (appr_sec t) best_appr_sec /\
       selected (top_t t) best_teacher /\
       leaders_of_window d start end_ =
       Ok {| top_appreciated_section := winner_text (sec_label d) best_app_sec;
             top_appreciator_section := winner_text (sec_label d) best_appr_sec;
             top_teacher := winner_text (teacher_label d) best_teacher |}) /\
  (forall (c : clock) (d : db),
     exists weekly monthly yearly alltime,
       compute_leaders c d =
       Ok [ ("weekly"%string, weekly); ("monthly"%string, monthly);
            ("yearly"%string, yearly); ("alltime"%string, alltime) ] /\
       leaders_of_window d (now c - seven_days) (now c) = Ok weekly /\
       leaders_of_window d (monthly_start c) (now c) = Ok monthly /\
       leaders_of_window d (yearly_start c) (now c) = Ok yearly /\
       leaders_of_window d epoch (now c) = Ok alltime) /\
  (map (fun n => (giver_name n, giver_section_id n, receiver_section_id n,
                  weight_applied n, status n))
     (window_notes two_notes_db (now clock0 - seven_days) (now clock0)) =
   [ (Some "A"%string, Some 1, Some 1, Some 1, "approved"%string);
     (Some "B"%string, Some 1, Some 2, Some 2, "approved"%string) ] /\
   appr_sec (window_tallies two_notes_db (now clock0 - seven_days) (now clock0))
   = [(1, 3)] /\
   option_map top_appreciator_section
     (match compute_leaders clock0 two_notes_db with
      | Ok out => dict_get String.eqb out "weekly"%string
      | Raise _ => None
      end) = Some (Some "6-A — 3"%string)).
Proof.
  split; [|split].
  - intros d start end_ q t. split; [apply window_notes_in|].
    split; [intros s; apply app_sec_get|].
    split; [intros s; apply appr_sec_get|].
    split; [intros k; apply top_t_get|].
    exists (first_of_max (app_sec t)), (first_of_max (appr_sec t)),
           (first_of_max (top_t t)).
    repeat split; try apply first_of_max_selected.
    apply leaders_of_window_value.
  - intros c d. unfold compute_leaders. rewrite leaders_of_windows_value.
    cbn [period_ranges map fst snd].
    do 4 eexists. split; [reflexivity|].
    repeat split; apply leaders_of_window_value.
  - vm_compute. repeat split.
Qed.

(** C8.  For every window, [leaders_of_window] raises nothing, and the entry
    of a category is [None] when (and only when) the dictionary of that
    category over the window is empty.  So it is for the four windows of
    [compute_leaders]. *)
Theorem compute_leaders_empty (c : clock) (d : db) :
  (forall start end_ : Z,
     let t := window_tallies d start end_ in
     exists w,
       leaders_of_window d start end_ = Ok w /\
       (app_sec t = [] -> top_appreciated_section w = None) /\
       (appr_sec t = [] -> top_appreciator_section w = None) /\
       (top_t t = [] -> top_teacher w = None) /\
       (top_appreciated_section w = None -> app_sec t = []) /\
       (top_appreciator_section w = None -> appr_sec t = []) /\
       (top_teacher w = None -> top_t t = [])) /\
  exists out,
    compute_leaders c d = Ok out /\
    Forall2 (fun pr o =>
               fst o = fst pr /\
               leaders_of_window d (fst (snd pr)) (snd (snd pr)) = Ok (snd o))
      (period_ranges c) out.
Proof.
  split.
  - intros start end_ t. exists (window_value d start end_).
    split; [apply leaders_of_window_value|].
    unfold window_value. cbn [top_appreciated_section top_appreciator_section top_teacher].
    fold t. repeat split; intros H;
      first [apply winner_text_none; exact H | apply winner_text_none in H; exact H].
  - unfold compute_leaders. rewrite leaders_of_windows_value.
    eexists. split; [reflexivity|].
    induction (period_ranges c) as [|pr rest IH]; cbn [map].
    + constructor.
    + constructor; [|exact IH]. split; [reflexivity|].
      cbn [fst snd]. apply leaders_of_window_value.
Qed.

Lemma compute_leaders_empty_witness :
  app_sec (window_tallies seed_db epoch (now clock0)) = [] /\
  exists w,
    leaders_of_window seed_db epoch (now clock0) = Ok w /\
    top_appreciated_section w = None.
Proof.
  assert (H : app_sec (window_tallies seed_db epoch (now clock0)) = [])
    by reflexivity.
  split; [exact H|].
  destruct (proj1 (compute_leaders_empty clock0 seed_db) epoch (now clock0))
    as (w & E & A & _).
  exists w. split; [exact E | exact (A H)].
Defined.
End Leaders.

(* ================================================================== *)
(** * Only approved notes count *)

Module Approved.
Import Py PyFacts App LeadersFacts Examples.
Local Open Scope Z_scope.
Local Open Scope list_scope.

Lemma filter_filter {A : Type} (p q : A -> bool) (l : list A) :
  filter p (filter q l) = filter (fun x => q x && p x) l.
Proof.
  induction l as [|x r IH]; cbn [filter].
  - reflexivity.
  - destruct (q x); cbn [filter andb]; [destruct (p x)|]; rewrite IH; reflexivity.
Qed.

Lemma approved_notes_idem (d : db) :
  approved_notes (approved_only d) = approved_notes d.
Proof.
  unfold approved_only, approved_notes. cbn [notes with_notes].
  rewrite filter_filter. apply filter_ext. intros n. apply andb_diag.
Qed.

Lemma window_notes_approved (d : db) (start end_ : Z) :
  window_notes (approved_only d) start end_ = window_notes d start end_.
Proof.
  unfold window_notes, approved_only, approved_notes. cbn [notes with_notes].
  rewrite filter_filter. apply filter_ext. intros n. unfold in_window.
  destruct (is_approved n); reflexivity.
Qed.

Lemma approved_only_eq (d1 d2 : db) :
  same_tables d1 d2 -> approved_notes d1 = approved_notes d2 ->
  approved_only d1 = approved_only d2.
Proof.
  intros (S1 & S2 & S3 & S4) A. unfold approved_only, with_notes.
  rewrite S1, S2, S3, S4, A. reflexivity.
Qed.

(** Each view reads the notes through the approved ones only. *)
Lemma compute_leaders_approved (c : clock) (d : db) :
  compute_leaders c (approved_only d) = compute_leaders c d.
Proof.
  unfold compute_leaders. rewrite !leaders_of_windows_value. f_equal.
  apply map_ext. intros [key [start end_]]. cbn [fst snd]. f_equal.
  unfold window_value, window_tallies. rewrite window_notes_approved. reflexivity.
Qed.

Lemma wall_approved (d : db) : wall (approved_only d) = wall d.
Proof. unfold wall. rewrite approved_notes_idem. reflexivity. Qed.

Lemma leaders_approved (d : db) : leaders (approved_only d) = leaders d.
Proof. unfold leaders. rewrite approved_notes_idem. reflexivity. Qed.

Lemma certificate_approved (d : db) (category : string) (rank : Z) :
  certificate (approved_only d) category rank = certificate d category rank.
Proof.
  unfold certificate, certificate_label. rewrite approved_notes_idem. reflexivity.
Qed.

Lemma newest_first_in (ns : list Note) (n : Note) :
  In n (newest_first ns) -> In n ns.
Proof.
  unfold newest_first. intros H. apply in_map_iff in H.
  destruct H as ([n' k] & E & H). cbn [fst] in E. subst n'.
  apply (Permutation_in _ (Permutation_sym (sorted_desc_perm _ _))) in H.
  apply in_map_iff in H. destruct H as (x & E & Hx).
  injection E as -> _. exact Hx.
Qed.

(** C6.  Two databases with the same tables and the same approved notes
    give the same leaderboard winners, wall (listing and bars), leaders page
    and certificates: the notes that are not approved contribute nothing.
    Every note listed on the wall is an approved note of the database. *)
Theorem only_approved_contribute (d1 d2 : db) :
  same_tables d1 d2 -> approved_notes d1 = approved_notes d2 ->
  (forall c, compute_leaders c d1 = compute_leaders c d2) /\
  wall d1 = wall d2 /\
  leaders d1 = leaders d2 /\
  (forall category rank,
     certificate d1 category rank = certificate d2 category rank) /\
  (forall listed b,
     wall d1 = Ok (listed, b) ->
     Forall (fun n => In n (notes d1) /\ status n = "approved"%string) listed).
Proof.
  intros T A. pose proof (approved_only_eq d1 d2 T A) as E.
  split; [|split; [|split; [|split]]].
  - intros c. rewrite <- (compute_leaders_approved c d1), E.
    apply compute_leaders_approved.
  - rewrite <- (wall_approved d1), E. apply wall_approved.
  - rewrite <- (leaders_approved d1), E. apply leaders_approved.
  - intros category rank. rewrite <- (certificate_approved d1), E.
    apply certificate_approved.
  - intros listed b W. unfold wall in W.
    remember (firstn 200 (newest_first (approved_notes d1))) as l0 eqn:L0.
    destruct (bars_of _) as [b'|e]; [|discriminate W].
    cbn [bind] in W. injection W as <- _.
    apply Forall_forall. intros n Hn. rewrite L0 in Hn.
    apply BarsFacts.In_firstn in Hn. apply newest_first_in in Hn.
    unfold approved_notes in Hn. apply filter_In in Hn.
    destruct Hn as [Hn Hs]. split; [exact Hn|].
    apply String.eqb_eq. exact Hs.
Qed.

Lemma only_approved_contribute_witness :
  same_tables two_notes_db with_hidden_db /\
  approved_notes two_notes_db = approved_notes with_hidden_db /\
  List.length (notes two_notes_db) <> List.length (notes with_hidden_db) /\
  wall two_notes_db = wall with_hidden_db.
Proof.
  assert (T : same_tables two_notes_db with_hidden_db) by (repeat split).
  assert (A : approved_notes two_notes_db = approved_notes with_hidden_db)
    by reflexivity.
  split; [exact T|]. split; [exact A|]. split; [discriminate|].
  exact (proj1 (proj2 (only_approved_contribute two_notes_db with_hidden_db T A))).
Defined.
End Approved.

(* ================================================================== *)
(** * Certificates *)

Module Certificates.
Import Py PyFacts App LeadersFacts Examples.
Local Open Scope Z_scope.
Local Open Scope list_scope.

Lemma string_eqb_eq (x y : string) : String.eqb x y = true <-> x = y.
Proof. apply String.eqb_eq. Qed.

Lemma fold_left_ext {A B : Type} (f g : A -> B -> A) (l : list B) (a : A) :
  (forall x y, f x y = g x y) -> fold_left f l a = fold_left g l a.
Proof.
  intros H. revert a. induction l as [|y r IH]; intros a; cbn [fold_left].
  - reflexivity.
  - rewrite H. apply IH.
Qed.

Lemma teacher_count_tally (d : db) (ns : list Note) :
  fold_left (teacher_count d) ns [] =
  fold_left (tally_step String.eqb (teacher_name_entry d)) ns [].
Proof.
  apply fold_left_ext. intros c n.
  unfold teacher_count, tally_step, teacher_name_entry.
  destruct (if String.eqb (receiver_type n) "teacher" then _ else _); reflexivity.
Qed.

Lemma staff_count_tally (d : db) (ns : list Note) :
  fold_left (staff_count d) ns [] =
  fold_left (tally_step String.eqb (staff_name_entry d)) ns [].
Proof.
  apply fold_left_ext. intros c n.
  unfold staff_count, tally_step, staff_name_entry.
  destruct (if String.eqb (receiver_type n) "staff" then _ else _); reflexivity.
Qed.

Lemma section_count_tally (ns : list Note) :
  fold_left section_count ns [] =
  fold_left (tally_step Z.eqb app_entry) ns [].
Proof.
  apply fold_left_ext. intros c n.
  unfold section_count, tally_step, app_entry.
  destruct (receiver_section_id n); [|reflexivity].
  destruct (_ && _); reflexivity.
Qed.

Lemma label_not_empty (sec : ClassSection) : label sec <> ""%string.
Proof.
  unfold label. destruct (class_name sec); discriminate.
Qed.

Lemma ranked_nth {K : Type} (items : list (K * Z)) (rank : Z) :
  1 <= rank ->
  ranked items rank = option_map fst (nth_error items (Z.to_nat (rank - 1))).
Proof.
  intros H. unfold ranked. destruct (_ >=? rank) eqn:E; [reflexivity|].
  rewrite Z.geb_leb in E. apply Z.leb_gt in E.
  assert (N : nth_error items (Z.to_nat (rank - 1)) = None)
    by (apply nth_error_None; lia).
  rewrite N. reflexivity.
Qed.

(** The answer of [certificate] from the label found, and what it means
    for the items with their resolved labels. *)
Lemma answer_cases (category : string) (rank : Z)
    (items : list (option string * Z)) (lbl : option string) :
  (match nth_error items (Z.to_nat (rank - 1)) with
   | Some (Some l, _) => l <> ""%string /\ lbl = Some l
   | Some (None, _) => truthy_str lbl = false
   | None => lbl = None
   end) ->
  let answer := if truthy_str lbl
                then Certificate category rank (or_str lbl "")
                else NotEnoughData in
  1 <= rank ->
  (answer = NotEnoughData <->
   Z.of_nat (List.length items) < rank \/
   exists c, nth_error items (Z.to_nat (rank - 1)) = Some (None, c)) /\
  (forall l, answer = Certificate category rank l <->
             exists c, nth_error items (Z.to_nat (rank - 1)) = Some (Some l, c)).
Proof.
  intros H answer R. subst answer.
  destruct (nth_error items (Z.to_nat (rank - 1))) as [[[l|] c]|] eqn:N.
  - destruct H as [Hl ->]. cbn [truthy_str or_str].
    apply String.eqb_neq in Hl. rewrite Hl. cbn [negb].
    assert (L : (Z.to_nat (rank - 1) < List.length items)%nat)
      by (apply nth_error_Some; rewrite N; discriminate).
    split.
    + split; [discriminate|]. intros [C|[c' C]]; [lia|discriminate].
    + intros l'. split.
      * intros E. injection E as <-. exists c. reflexivity.
      * intros [c' E]. injection E as <- _. reflexivity.
  - rewrite H. split.
    + split; [|reflexivity]. intros _. right. exists c. reflexivity.
    + intros l. split; [discriminate|]. intros [c' E]. discriminate.
  - subst lbl. cbn [truthy_str]. apply nth_error_None in N. split.
    + split; [|reflexivity]. intros _. left. lia.
    + intros l. split; [discriminate|]. intros [c' E]. discriminate.
Qed.

Lemma named_label (items : list (string * Z)) (i : nat) :
  match nth_error (map (fun e => (shown (fst e), snd e)) items) i with
  | Some (Some l, _) =>
      l <> ""%string /\ option_map fst (nth_error items i) = Some l
  | Some (None, _) => truthy_str (option_map fst (nth_error items i)) = false
  | None => option_map fst (nth_error items i) = None
  end.
Proof.
  rewrite nth_error_map. destruct (nth_error items i) as [[k c]|]; cbn [option_map fst snd].
  - unfold shown. destruct (String.eqb k "") eqn:E.
    + cbn [truthy_str]. rewrite E. reflexivity.
    + split; [apply String.eqb_neq; exact E | reflexivity].
  - reflexivity.
Qed.

Lemma section_label (d : db) (items : list (Z * Z)) (i : nat) :
  match nth_error
          (map (fun e => (option_map label (get_section d (fst e)), snd e)) items) i
  with
  | Some (Some l, _) =>
      l <> ""%string /\
      match option_map fst (nth_error items i) with
      | Some k => option_map label (get_section d k)
      | None => None
      end = Some l
  | Some (None, _) =>
      truthy_str match option_map fst (nth_error items i) with
                 | Some k => option_map label (get_section d k)
                 | None => None
                 end = false
  | None =>
      match option_map fst (nth_error items i) with
      | Some k => option_map label (get_section d k)
      | None => None
      end = None
  end.
Proof.
  rewrite nth_error_map. destruct (nth_error items i) as [[k c]|]; cbn [option_map fst snd].
  - destruct (get_section d k) as [sec|]; cbn [option_map].
    + split; [apply label_not_empty | reflexivity].
    + reflexivity.
  - reflexivity.
Qed.

Lemma sorted_resolved {K : Type} (f : K -> option string) (items : list (K * Z)) :
  desc_counts items -> desc_counts (map (fun e => (f (fst e), snd e)) items).
Proof.
  unfold desc_counts. induction 1 as [|e r Hr IH He]; cbn [map].
  - constructor.
  - constructor; [exact IH|]. apply Forall_forall. intros x Hx.
    apply in_map_iff in Hx. destruct Hx as (y & <- & Hy). cbn [snd].
    rewrite Forall_forall in He. apply He. exact Hy.
Qed.

Lemma category_items_sorted (d : db) (category : string) :
  desc_counts (category_items d category).
Proof.
  unfold category_items.
  destruct (String.eqb category "teacher"); [|destruct (String.eqb category "staff")].
  - apply (sorted_resolved shown), sorted_desc_sorted.
  - apply (sorted_resolved shown), sorted_desc_sorted.
  - apply (sorted_resolved (fun k => option_map label (get_section d k))),
      sorted_desc_sorted.
Qed.

Lemma certificate_answer (d : db) (category : string) (rank : Z) :
  valid_category category -> valid_rank rank ->
  certificate d category rank =
  if truthy_str (certificate_label d category rank)
  then Certificate category rank (or_str (certificate_label d category rank) "")
  else NotEnoughData.
Proof.
  intros C R. unfold certificate.
  assert (V : negb (String.eqb category "teacher" || String.eqb category "staff"
                    || String.eqb category "student_section")
              || negb ((rank =? 1) || (rank =? 2) || (rank =? 3)) = false).
  { destruct C as [-> | [-> | ->]]; destruct R as [-> | [-> | ->]]; reflexivity. }
  rewrite V. reflexivity.
Qed.

Lemma certificate_label_resolved (d : db) (category : string) (rank : Z) :
  valid_category category -> 1 <= rank ->
  match nth_error (category_items d category) (Z.to_nat (rank - 1)) with
  | Some (Some l, _) =>
      l <> ""%string /\ certificate_label d category rank = Some l
  | Some (None, _) => truthy_str (certificate_label d category rank) = false
  | None => certificate_label d category rank = None
  end.
Proof.
  intros C R. unfold certificate_label, category_items.
  fold (teacher_items d). fold (staff_items d). fold (section_items d).
  destruct C as [-> | [-> | ->]].
  - change (String.eqb "teacher" "teacher") with true. cbv iota.
    rewrite ranked_nth by exact R. apply named_label.
  - change (String.eqb "staff" "teacher") with false.
    change (String.eqb "staff" "staff") with true. cbv iota.
    rewrite ranked_nth by exact R. apply named_label.
  - change (String.eqb "student_section" "teacher") with false.
    change (String.eqb "student_section" "staff") with false. cbv iota.
    rewrite ranked_nth by exact R. apply section_label.
Qed.

(** C7, as it holds.  For a category among teacher, staff, student_section
    and a rank among 1, 2, 3: the count dictionary of the category is
    recomputed from the approved notes (one entry per name or section,
    holding the number of approved notes received), its items are sorted by
    count, descending, and the answer is the certificate of the label of
    the item of that rank.  The answer is "not enough data" exactly when
    there are fewer than [rank] items, or the item of that rank has no
    label: its section does not exist, or its name is empty. *)
Theorem certificate_rank (d : db) (category : string) (rank : Z) :
  valid_category category -> valid_rank rank ->
  let approved := approved_notes d in
  let items := category_items d category in
  ((forall name,
      dict_get String.eqb (fold_left (teacher_count d) approved []) name =
      count_entry (filter (hits String.eqb (teacher_name_entry d) name) approved)) /\
   (forall name,
      dict_get String.eqb (fold_left (staff_count d) approved []) name =
      count_entry (filter (hits String.eqb (staff_name_entry d) name) approved)) /\
   (forall s,
      dict_get Z.eqb (fold_left section_count approved []) s =
      count_entry (filter (student_receiver_in s) approved)) /\
   NoDup (map fst (fold_left (teacher_count d) approved [])) /\
   NoDup (map fst (fold_left (staff_count d) approved [])) /\
   NoDup (map fst (fold_left section_count approved []))) /\
  desc_counts items /\
  (certificate d category rank = NotEnoughData <->
   Z.of_nat (List.length items) < rank \/
   exists c, nth_error items (Z.to_nat (rank - 1)) = Some (None, c)) /\
  (forall l,
     certificate d category rank = Certificate category rank l <->
     exists c, nth_error items (Z.to_nat (rank - 1)) = Some (Some l, c)).
Proof.
  intros C R approved items.
  assert (R1 : 1 <= rank) by (destruct R as [-> | [-> | ->]]; lia).
  split.
  { repeat split.
    - intros name. rewrite teacher_count_tally.
      rewrite (count_get _ _ String.eqb string_eqb_eq).
      + unfold count_entry. destruct (filter _ approved); reflexivity.
      + intros n k w. unfold teacher_name_entry.
        destruct (if String.eqb (receiver_type n) "teacher" then _ else _);
          [intros E; injection E as _ <-; reflexivity | discriminate].
    - intros name. rewrite staff_count_tally.
      rewrite (count_get _ _ String.eqb string_eqb_eq).
      + unfold count_entry. destruct (filter _ approved); reflexivity.
      + intros n k w. unfold staff_name_entry.
        destruct (if String.eqb (receiver_type n) "staff" then _ else _);
          [intros E; injection E as _ <-; reflexivity | discriminate].
    - intros s0. rewrite section_count_tally.
      rewrite (count_get _ _ Z.eqb Z.eqb_eq).
      + rewrite (filter_ext _ _ (hits_app s0)).
        unfold count_entry. destruct (filter _ approved); reflexivity.
      + intros n k w. unfold app_entry.
        destruct (receiver_section_id n); [|discriminate].
        destruct (_ && _); [intros E; injection E as _ <-; reflexivity | discriminate].
    - rewrite teacher_count_tally.
      apply (tally_nodup _ _ String.eqb string_eqb_eq). constructor.
    - rewrite staff_count_tally.
      apply (tally_nodup _ _ String.eqb string_eqb_eq). constructor.
    - rewrite section_count_tally.
      apply (tally_nodup _ _ Z.eqb Z.eqb_eq). constructor. }
  split; [apply category_items_sorted|].
  rewrite (certificate_answer d category rank C R).
  apply answer_cases; [|exact R1].
  apply certificate_label_resolved; assumption.
Qed.

Lemma certificate_rank_witness :
  valid_category "student_section" /\ valid_rank 1 /\
  certificate two_notes_db "student_section" 1
  = Certificate "student_section" 1 "6-A".
Proof.
  assert (C : valid_category "student_section") by (right; right; reflexivity).
  assert (R : valid_rank 1) by (left; reflexivity).
  split; [exact C|]. split; [exact R|].
  destruct (certificate_rank two_notes_db "student_section" 1 C R)
    as (_ & _ & _ & L).
  apply (L "6-A"%string). exists 1. reflexivity.
Defined.

(** C7, as stated, fails for the student_section category when the section
    of the first item does not exist: the dictionary has one entry and the
    answer for rank 1 is "not enough data". *)
Lemma certificate_rank_counterexample :
  List.length (category_items unknown_section_db "student_section") = 1%nat /\
  certificate unknown_section_db "student_section" 1 = NotEnoughData /\
  ~ fails_iff_too_few unknown_section_db "student_section" 1.
Proof.
  split; [reflexivity|]. split; [reflexivity|].
  unfold fails_iff_too_few. intros [H _].
  specialize (H eq_refl). vm_compute in H. discriminate H.
Qed.
End Certificates.

(* ================================================================== *)
(** * Submissions *)

Module Submissions.
Import Py App Examples.
Local Open Scope Z_scope.
Local Open Scope list_scope.

(** A note that the commit stores is at the end of the table. *)
Lemma insert_note_stored (d d' : db) (n : Note) :
  insert_note d n = Ok d' -> d' = add_note d n.
Proof.
  unfold insert_note. destruct (_ && _); [|discriminate].
  intros E. injection E as <-. reflexivity.
Qed.

Ltac branches :=
  repeat match goal with
    | H : insert_note _ _ = Ok _ |- _ => apply insert_note_stored in H; subst
    | H : context [if ?b then _ else _] |- _ => destruct b eqn:?
    | H : context [bind ?c _] |- _ => destruct c eqn:?; cbn [bind] in H
    | H : Ok _ = Ok _ |- _ => injection H as <- <-
    | H : Raise _ = Ok _ |- _ => discriminate H
    end.

Lemma unchanged (P : Note -> Prop) (d : db) : adds_at_most P d d.
Proof. split; [repeat split | left; reflexivity]. Qed.

Lemma added (P : Note -> Prop) (d : db) (n : Note) :
  P n -> adds_at_most P d (add_note d n).
Proof.
  intros H. split; [repeat split|]. right. exists n. split; [reflexivity|exact H].
Qed.

Lemma post_student_adds (t : Z) (rq : request) (d d' : db) (resp : response) :
  post_student t rq d = Ok (d', resp) ->
  adds_at_most
    (fun n => status n = "pending"%string /\ receiver_type n = "student"%string /\
              giver_type n = field_giver_type (form rq) /\
              weight_applied n =
              Some (weight_of (field_giver_type (form rq))
                      (field_or_none (form rq) "giver_section_id")
                      (form_get (form rq) "receiver_section_id")) /\
              int_or_none (field_or_none (form rq) "giver_section_id")
                = Ok (giver_section_id n) /\
              (exists r, receiver_section_id n = Some r /\
                 Py.int (or_str (form_get (form rq) "receiver_section_id") "")
                 = Ok r) /\
              (giver_type n = "student"%string ->
               truthy_str (field_or_none (form rq) "giver_section_id") = true))
    d d'.
Proof.
  unfold post_student. intros H. branches; try apply unchanged;
    (apply added;
     cbn [status receiver_type giver_type weight_applied
            giver_section_id receiver_section_id];
     repeat split; try reflexivity;
     [ eexists; split; reflexivity
     | intros G;
       match goal with
       | X : String.eqb (field_giver_type _) "student" && negb _ = false |- _ =>
           rewrite G, String.eqb_refl in X; cbn [andb] in X;
           apply negb_false_iff in X; exact X
       end ]).
Qed.

Lemma post_teacher_adds (t : Z) (rq : request) (d d' : db) (resp : response) :
  post_teacher t rq d = Ok (d', resp) ->
  adds_at_most (fun n => status n = "pending"%string) d d'.
Proof.
  unfold post_teacher. intros H.
  branches; try apply unchanged; apply added; reflexivity.
Qed.

Lemma post_staff_adds (t : Z) (rq : request) (d d' : db) (resp : response) :
  post_staff t rq d = Ok (d', resp) ->
  adds_at_most (fun n => status n = "pending"%string) d d'.
Proof.
  unfold post_staff. intros H.
  branches; try apply unchanged; apply added; reflexivity.
Qed.

Ltac row_branches :=
  repeat match goal with
    | |- context [if ?b then _ else _] => destruct b eqn:?
    end;
  cbn [fst];
  first [ left; reflexivity | right; eexists; split; reflexivity ].

Lemma r_post_student_adds (rq : request) (rows : list R.NoteRow) :
  adds_row_at_most (fun n => R.status n = "pending"%string)
    rows (fst (R.post_student rq rows)).
Proof. unfold R.post_student, adds_row_at_most. row_branches. Qed.

Lemma r_post_teacher_adds (rq : request) (rows : list R.NoteRow) :
  adds_row_at_most (fun n => R.status n = "pending"%string)
    rows (fst (R.post_teacher rq rows)).
Proof. unfold R.post_teacher, adds_row_at_most. row_branches. Qed.

Lemma r_post_staff_adds (rq : request) (rows : list R.NoteRow) :
  adds_row_at_most (fun n => R.status n = "pending"%string)
    rows (fst (R.post_staff rq rows)).
Proof. unfold R.post_staff, adds_row_at_most. row_branches. Qed.

(** C10.  Each of the three submission handlers, in [app.py] and in [r.py],
    leaves the notes as they were or appends one note, whose status is
    'pending'; the other tables are not touched.  No submission creates an
    approved or a hidden note. *)
Theorem submissions_pending :
  (forall h, In h [post_student; post_teacher; post_staff] ->
   forall (t : Z) (rq : request) (d d' : db) (resp : response),
     h t rq d = Ok (d', resp) ->
     adds_at_most (fun n => status n = "pending"%string) d d') /\
  (forall h, In h [R.post_student; R.post_teacher; R.post_staff] ->
   forall (rq : request) (rows : list R.NoteRow),
     adds_row_at_most (fun n => R.status n = "pending"%string)
       rows (fst (h rq rows))).
Proof.
  split.
  - intros h [<-|[<-|[<-|[]]]] t rq d d' resp H.
    + destruct (post_student_adds t rq d d' resp H) as [T [E|(n & E & P)]].
      * split; [exact T | left; exact E].
      * split; [exact T|]. right. exists n. split; [exact E | apply P].
    + apply (post_teacher_adds t rq d d' resp H).
    + apply (post_staff_adds t rq d d' resp H).
  - intros h [<-|[<-|[<-|[]]]] rq rows.
    + apply r_post_student_adds.
    + apply r_post_teacher_adds.
    + apply r_post_staff_adds.
Qed.

Lemma submissions_pending_witness :
  In post_student [post_student; post_teacher; post_staff] /\
  post_student t0 form_same_section seed_db
  = Ok (after (post_student t0 form_same_section) seed_db, thanks) /\
  adds_at_most (fun n => status n = "pending"%string) seed_db
    (after (post_student t0 form_same_section) seed_db).
Proof.
  assert (I : In post_student [post_student; post_teacher; post_staff])
    by (left; reflexivity).
  assert (E : post_student t0 form_same_section seed_db
              = Ok (after (post_student t0 form_same_section) seed_db, thanks))
    by reflexivity.
  split; [exact I|]. split; [exact E|].
  exact (proj1 submissions_pending post_student I t0 form_same_section seed_db
           _ _ E).
Defined.

(** ** The weight of a note between students *)

Lemma int_empty : Py.int "" = Raise ValueError.
Proof. reflexivity. Qed.

Lemma last_note (l : list Note) (n n' : Note) (P : Note -> Prop) :
  l ++ [n] = l \/ (exists m, l ++ [n] = l ++ [m] /\ P m) -> P n.
Proof.
  intros [E|(m & E & H)].
  - exfalso. apply (f_equal (@List.length Note)) in E.
    rewrite length_app in E. cbn in E. lia.
  - apply app_inj_tail in E. destruct E as [_ ->]. exact H.
Qed.

(** For a note of [post_student] given by a student: the weight is 1 or 2;
    it is 1 exactly when the two section fields were submitted as the same
    text, and then the stored sections are the same.  So a note whose stored
    sections differ carries 2. *)
Lemma post_student_weight (t : Z) (rq : request) (d d' : db)
    (resp : response) (n : Note) :
  post_student t rq d = Ok (d', resp) ->
  notes d' = notes d ++ [n] ->
  giver_type n = "student"%string ->
  (weight_applied n = Some 1 \/ weight_applied n = Some 2) /\
  (weight_applied n = Some 1 <->
   form_get (form rq) "giver_section_id"
   = form_get (form rq) "receiver_section_id") /\
  (giver_section_id n <> receiver_section_id n -> weight_applied n = Some 2).
Proof.
  intros H E G.
  destruct (post_student_adds t rq d d' resp H) as [_ A]. rewrite E in A.
  apply (last_note (notes d) n n) in A.
  destruct A as (_ & _ & Gt & W & Ig & (r & Er & Ir) & Tr).
  specialize (Tr G). rewrite G in Gt. rewrite <- Gt in W.
  unfold weight_of in W. rewrite Tr in W. cbn [String.eqb Ascii.eqb Bool.eqb andb] in W.
  unfold field_or_none in *.
  destruct (form_get (form rq) "giver_section_id") as [g|] eqn:Fg;
    [|discriminate Tr].
  destruct (truthy_str (Some g)) eqn:Tg; [|discriminate Tr]. clear Tr.
  cbn [str_of_field int_or_none] in *.
  destruct (form_get (form rq) "receiver_section_id") as [r0|] eqn:Fr;
    cbn [or_str str_of_field] in *.
  2:{ rewrite int_empty in Ir. discriminate Ir. }
  destruct (String.eqb g r0) eqn:Q; cbn [negb] in W.
  - apply String.eqb_eq in Q. subst r0. split; [left; exact W|].
    split; [split; [reflexivity|intros _; exact W]|].
    intros D. exfalso. apply D.
    assert (Ir' : Py.int g = Ok r).
    { revert Ir. cbn [truthy_str] in Tg. apply negb_true_iff in Tg.
      rewrite Tg. intros X. exact X. }
    rewrite Ir' in Ig. cbn [bind] in Ig. injection Ig as <-. symmetry. exact Er.
  - split; [right; exact W|]. split.
    + split; [intros X; rewrite X in W; discriminate W|].
      intros X. injection X as ->. rewrite String.eqb_refl in Q. discriminate Q.
    + intros _. exact W.
Qed.

(** When equal sections are submitted as equal text, as the options of the
    form are, the weight is 2 for a cross-section note and 1 for a
    same-section note. *)
Lemma post_student_weight_canonical (t : Z) (rq : request) (d d' : db)
    (resp : response) (n : Note) :
  post_student t rq d = Ok (d', resp) ->
  notes d' = notes d ++ [n] ->
  giver_type n = "student"%string ->
  (giver_section_id n = receiver_section_id n ->
   form_get (form rq) "giver_section_id"
   = form_get (form rq) "receiver_section_id") ->
  (giver_section_id n <> receiver_section_id n <-> weight_applied n = Some 2) /\
  (giver_section_id n = receiver_section_id n <-> weight_applied n = Some 1).
Proof.
  intros H E G C.
  destruct (post_student_weight t rq d d' resp n H E G) as (W & W1 & W2).
  assert (S1 : giver_section_id n = receiver_section_id n ->
               weight_applied n = Some 1).
  { intros X. apply W1, C, X. }
  split; split.
  - exact W2.
  - intros X Y. rewrite (S1 Y) in X. discriminate X.
  - exact S1.
  - intros X. destruct (giver_section_id n) as [a|], (receiver_section_id n) as [b|];
      try (destruct (Z.eq_dec a b) as [->|N]; [reflexivity|]);
      try reflexivity;
      match goal with
      | |- ?l = ?r =>
          assert (D : l <> r) by congruence;
          rewrite (W2 D) in X; discriminate X
      end.
Qed.

(** C5 at the input where the code departs from it: a student of section 1
    thanks a student of section 1 and submits the receiver's section as
    "01".  Both handlers create the note with weight 2; [app.py] stores
    section 1 for giver and receiver. *)
Theorem post_student_same_section_weight :
  (exists n,
     post_student t0 form_noncanonical seed_db
     = Ok (add_note seed_db n, thanks) /\
     giver_type n = "student"%string /\ receiver_type n = "student"%string /\
     giver_section_id n = Some 1 /\ receiver_section_id n = Some 1 /\
     weight_applied n = Some 2) /\
  (exists n,
     R.post_student form_noncanonical [] = ([n], R.posted) /\
     R.giver_type n = "student"%string /\ R.receiver_type n = "student"%string /\
     R.giver_section_id n = Some "1"%string /\
     R.receiver_section_id n = Some "01"%string /\
     Py.int "1" = Py.int "01" /\
     R.weight_applied n = 2).
Proof.
  split; eexists; repeat split.
Qed.
End Submissions.

(* ================================================================== *)
(** * The seeded rows and the uniqueness of the rows added later *)

Module Tables.
Import Startup Notions.
Local Open Scope Z_scope.
Local Open Scope list_scope.

Lemma fresh_id_above (ids : list Z) (x : Z) : In x ids -> x < fresh_id ids.
Proof.
  unfold fresh_id. intros H.
  assert (G : forall l a, (a <= fold_left Z.max l a) /\
                          (In x l -> x <= fold_left Z.max l a)).
  { induction l as [|y r IH]; intros a; cbn [fold_left In].
    - split; [lia | tauto].
    - destruct (IH (Z.max a y)) as [I1 I2]. split; [lia|].
      intros [->|Hx]; [lia | auto]. }
  destruct (G ids 0) as [_ G2]. specialize (G2 H). lia.
Qed.

Lemma fresh_id_new (ids : list Z) : ~ In (fresh_id ids) ids.
Proof. intros H. apply fresh_id_above in H. lia. Qed.

Lemma fresh_id_pos (ids : list Z) : 1 <= fresh_id ids.
Proof.
  unfold fresh_id.
  assert (G : forall l a, a <= fold_left Z.max l a).
  { induction l as [|y r IH]; intros a; cbn [fold_left]; [lia|].
    specialize (IH (Z.max a y)). lia. }
  specialize (G ids 0). lia.
Qed.

Lemma NoDup_snoc {A : Type} (l : list A) (x : A) :
  NoDup l -> ~ In x l -> NoDup (l ++ [x]).
Proof.
  intros N H. apply NoDup_app; [exact N | repeat constructor; intros [] | ].
  intros y Hy [<-|[]]. exact (H Hy).
Qed.

Lemma pair_eqb (a b c d : string) :
  String.eqb a c && String.eqb b d = true <-> (a, b) = (c, d).
Proof.
  rewrite andb_true_iff, !String.eqb_eq. split.
  - intros [-> ->]. reflexivity.
  - intros E. injection E as -> ->. split; reflexivity.
Qed.

(** A table with a key of two text columns, rows added at the end. *)
Section Keyed.
Variable Row : Type.
Variable key : Row -> string * string.

Lemma find_key_none (l : list Row) (k : string * string) :
  find (has_key key k) l = None <-> ~ In k (map key l).
Proof.
  split.
  - intros F H. apply in_map_iff in H. destruct H as (x & E & Hx).
    apply (find_none _ _ F) in Hx. unfold has_key in Hx.
    rewrite E in Hx. rewrite !String.eqb_refl in Hx. discriminate Hx.
  - intros H. destruct (find (has_key key k) l) as [x|] eqn:F; [|reflexivity].
    exfalso. apply H. apply find_some in F. destruct F as [Hx E].
    apply in_map_iff. exists x. split; [|exact Hx].
    unfold has_key in E. apply pair_eqb in E.
    destruct (key x) as [a b], k as [c d]. exact E.
Qed.

Lemma find_key_snoc (l : list Row) (k : string * string) (x : Row) :
  find (has_key key k) (l ++ [x]) =
  match find (has_key key k) l with
  | Some y => Some y
  | None => if has_key key k x then Some x else None
  end.
Proof.
  induction l as [|y r IH]; cbn [app find].
  - reflexivity.
  - destruct (has_key key k y); [reflexivity | exact IH].
Qed.

Lemma has_key_refl (x : Row) : has_key key (key x) x = true.
Proof. unfold has_key. rewrite !String.eqb_refl. reflexivity. Qed.
End Keyed.

(** The three queries are searches by key. *)
Lemma section_named_key (d : db) (c s : string) :
  section_named d c s = find (has_key section_key (c, s)) (sections d).
Proof. reflexivity. Qed.

Lemma teacher_named_key (d : db) (n s : string) :
  teacher_named d n s = find (has_key teacher_key (n, s)) (teachers d).
Proof. reflexivity. Qed.

Lemma staff_named_key (d : db) (n r : string) :
  staff_named d n r = find (has_key staff_key (n, r)) (staff d).
Proof. reflexivity. Qed.

(** Adding a row whose key is absent keeps keys and ids distinct. *)
Lemma add_section_unique (d : db) (c s : string) :
  section_named d c s = None -> unique_sections d ->
  unique_sections (add_section d c s).
Proof.
  intros F [K I]. rewrite section_named_key in F.
  apply find_key_none in F.
  unfold unique_sections, add_section. cbn [sections with_sections].
  rewrite !map_app. cbn [map].
  split; apply NoDup_snoc; try assumption. apply fresh_id_new.
Qed.

Lemma add_teacher_unique (d : db) (n s : string) :
  teacher_named d n s = None -> unique_teachers d ->
  unique_teachers (add_teacher d n s).
Proof.
  intros F [K I]. rewrite teacher_named_key in F.
  apply find_key_none in F.
  unfold unique_teachers, add_teacher. cbn [teachers with_teachers].
  rewrite !map_app. cbn [map].
  split; apply NoDup_snoc; try assumption. apply fresh_id_new.
Qed.

Lemma add_staff_unique (d : db) (n r : string) :
  staff_named d n r = None -> unique_staff d ->
  unique_staff (add_staff d n r).
Proof.
  intros F [K I]. rewrite staff_named_key in F.
  apply find_key_none in F.
  unfold unique_staff, add_staff. cbn [staff with_staff].
  rewrite !map_app. cbn [map].
  split; apply NoDup_snoc; try assumption. apply fresh_id_new.
Qed.

(** A loop of "add the row unless its key is there", for any table. *)
Section Seeding.
Variable Row : Type.
Variable key : Row -> string * string.
Variable rows : db -> list Row.
Variable step : db -> string * string -> db.

Hypothesis step_found :
  forall d e x, find (has_key key e) (rows d) = Some x -> step d e = d.
Hypothesis step_added :
  forall d e, find (has_key key e) (rows d) = None ->
              exists x, rows (step d e) = rows d ++ [x] /\ key x = e.

Lemma step_grows (d : db) (e : string * string) :
  exists l, rows (step d e) = rows d ++ l.
Proof.
  destruct (find (has_key key e) (rows d)) as [x|] eqn:F.
  - exists []. rewrite (step_found _ _ _ F), app_nil_r. reflexivity.
  - destruct (step_added _ _ F) as (x & E & _). exists [x]. exact E.
Qed.

Lemma step_present (d : db) (e : string * string) :
  find (has_key key e) (rows (step d e)) <> None.
Proof.
  destruct (find (has_key key e) (rows d)) as [x|] eqn:F.
  - rewrite (step_found _ _ _ F), F. discriminate.
  - destruct (step_added _ _ F) as (x & E & K). rewrite E, find_key_snoc, F.
    rewrite <- K, has_key_refl. discriminate.
Qed.

Lemma grows_present (l : list Row) (l' : list Row) (k : string * string) :
  find (has_key key k) l <> None -> find (has_key key k) (l ++ l') <> None.
Proof.
  induction l as [|y r IH]; cbn [app find]; intros H.
  - contradiction.
  - destruct (has_key key k y); [discriminate | auto].
Qed.

Lemma loop_grows (l : list (string * string)) :
  forall d, exists a, rows (fold_left step l d) = rows d ++ a.
Proof.
  induction l as [|e r IH]; intros d; cbn [fold_left].
  - exists []. rewrite app_nil_r. reflexivity.
  - destruct (IH (step d e)) as (a & E). destruct (step_grows d e) as (b & G).
    exists (b ++ a). rewrite E, G, app_assoc. reflexivity.
Qed.

Lemma loop_present (l : list (string * string)) :
  forall d e, In e l -> find (has_key key e) (rows (fold_left step l d)) <> None.
Proof.
  induction l as [|e' r IH]; intros d e H; cbn [fold_left].
  - destruct H.
  - destruct H as [->|H]; [|apply IH; exact H].
    destruct (loop_grows r (step d e)) as (a & E). rewrite E.
    apply grows_present, step_present.
Qed.

Lemma loop_fixed (l : list (string * string)) (d : db) :
  (forall e, In e l -> find (has_key key e) (rows d) <> None) ->
  fold_left step l d = d.
Proof.
  induction l as [|e r IH]; intros H; cbn [fold_left]; [reflexivity|].
  destruct (find (has_key key e) (rows d)) as [x|] eqn:F.
  - rewrite (step_found _ _ _ F). apply IH. intros e' H'. apply H. right. exact H'.
  - exfalso. apply (H e); [left; reflexivity | exact F].
Qed.

Lemma loop_invariant (P : db -> Prop) (l : list (string * string)) :
  (forall d e, P d -> P (step d e)) -> forall d, P d -> P (fold_left step l d).
Proof.
  intros S. induction l as [|e r IH]; intros d H; cbn [fold_left]; auto.
Qed.
End Seeding.

Lemma seed_section_found (d : db) e x :
  find (has_key section_key e) (sections d) = Some x -> seed_section d e = d.
Proof.
  destruct e as [c s]. unfold seed_section. cbn [fst snd].
  rewrite section_named_key. intros ->. reflexivity.
Qed.

Lemma seed_section_added (d : db) e :
  find (has_key section_key e) (sections d) = None ->
  exists x, sections (seed_section d e) = sections d ++ [x] /\ section_key x = e.
Proof.
  destruct e as [c s]. unfold seed_section. cbn [fst snd].
  rewrite section_named_key. intros ->. eexists. split; reflexivity.
Qed.

Lemma seed_teacher_found (d : db) e x :
  find (has_key teacher_key e) (teachers d) = Some x -> seed_teacher d e = d.
Proof.
  destruct e as [c s]. unfold seed_teacher. cbn [fst snd].
  rewrite teacher_named_key. intros ->. reflexivity.
Qed.

Lemma seed_teacher_added (d : db) e :
  find (has_key teacher_key e) (teachers d) = None ->
  exists x, teachers (seed_teacher d e) = teachers d ++ [x] /\ teacher_key x = e.
Proof.
  destruct e as [c s]. unfold seed_teacher. cbn [fst snd].
  rewrite teacher_named_key. intros ->. eexists. split; reflexivity.
Qed.

Lemma seed_staff_found (d : db) e x :
  find (has_key staff_key e) (staff d) = Some x -> seed_staff d e = d.
Proof.
  destruct e as [c s]. unfold seed_staff. cbn [fst snd].
  rewrite staff_named_key. intros ->. reflexivity.
Qed.

Lemma seed_staff_added (d : db) e :
  find (has_key staff_key e) (staff d) = None ->
  exists x, staff (seed_staff d e) = staff d ++ [x] /\ staff_key x = e.
Proof.
  destruct e as [c s]. unfold seed_staff. cbn [fst snd].
  rewrite staff_named_key. intros ->. eexists. split; reflexivity.
Qed.

Lemma seed_section_others (d : db) e :
  teachers (seed_section d e) = teachers d /\ staff (seed_section d e) = staff d /\
  others_kept d (seed_section d e).
Proof.
  unfold seed_section, others_kept.
  destruct (section_named _ _ _); repeat split; reflexivity.
Qed.

Lemma seed_teacher_others (d : db) e :
  sections (seed_teacher d e) = sections d /\ staff (seed_teacher d e) = staff d /\
  others_kept d (seed_teacher d e).
Proof.
  unfold seed_teacher, others_kept.
  destruct (teacher_named _ _ _); repeat split; reflexivity.
Qed.

Lemma seed_staff_others (d : db) e :
  sections (seed_staff d e) = sections d /\ teachers (seed_staff d e) = teachers d /\
  others_kept d (seed_staff d e).
Proof.
  unfold seed_staff, others_kept.
  destruct (staff_named _ _ _); repeat split; reflexivity.
Qed.

Lemma seed_section_unique (d : db) e :
  unique_sections d -> unique_sections (seed_section d e).
Proof.
  intros U. unfold seed_section.
  destruct (section_named _ _ _) eqn:F; [exact U|].
  apply add_section_unique; assumption.
Qed.

Lemma seed_teacher_unique (d : db) e :
  unique_teachers d -> unique_teachers (seed_teacher d e).
Proof.
  intros U. unfold seed_teacher.
  destruct (teacher_named _ _ _) eqn:F; [exact U|].
  apply add_teacher_unique; assumption.
Qed.

Lemma seed_staff_unique (d : db) e :
  unique_staff d -> unique_staff (seed_staff d e).
Proof.
  intros U. unfold seed_staff.
  destruct (staff_named _ _ _) eqn:F; [exact U|].
  apply add_staff_unique; assumption.
Qed.

Lemma seeded_sections_tables (d : db) :
  teachers (seeded_sections d) = teachers d /\
  staff (seeded_sections d) = staff d /\ others_kept d (seeded_sections d).
Proof.
  unfold seeded_sections.
  apply (loop_invariant seed_section
           (fun x => teachers x = teachers d /\ staff x = staff d /\ others_kept d x)).
  - intros x e (A & B & C & D). destruct (seed_section_others x e) as (A' & B' & C' & D').
    unfold others_kept. rewrite A', B', C', D'. repeat split; assumption.
  - repeat split.
Qed.

Lemma seeded_teachers_tables (d : db) :
  sections (seeded_teachers d) = sections d /\
  staff (seeded_teachers d) = staff d /\ others_kept d (seeded_teachers d).
Proof.
  unfold seeded_teachers.
  apply (loop_invariant seed_teacher
           (fun x => sections x = sections d /\ staff x = staff d /\ others_kept d x)).
  - intros x e (A & B & C & D). destruct (seed_teacher_others x e) as (A' & B' & C' & D').
    unfold others_kept. rewrite A', B', C', D'. repeat split; assumption.
  - repeat split.
Qed.

Lemma seeded_staff_tables (d : db) :
  sections (seeded_staff d) = sections d /\
  teachers (seeded_staff d) = teachers d /\ others_kept d (seeded_staff d).
Proof.
  unfold seeded_staff.
  apply (loop_invariant seed_staff
           (fun x => sections x = sections d /\ teachers x = teachers d /\ others_kept d x)).
  - intros x e (A & B & C & D). destruct (seed_staff_others x e) as (A' & B' & C' & D').
    unfold others_kept. rewrite A', B', C', D'. repeat split; assumption.
  - repeat split.
Qed.

Lemma seed_defaults_steps (d : db) :
  seed_defaults d = seeded_staff (seeded_teachers (seeded_sections d)).
Proof.
  unfold seed_defaults, seeded_staff, seeded_teachers, seeded_sections.
  reflexivity.
Qed.

Lemma seed_defaults_kept (d : db) :
  sections (seed_defaults d) = sections (seeded_sections d) /\
  teachers (seed_defaults d) = teachers (seeded_teachers (seeded_sections d)) /\
  teachers (seeded_sections d) = teachers d /\
  staff (seeded_teachers (seeded_sections d)) = staff d /\
  others_kept d (seed_defaults d).
Proof.
  rewrite seed_defaults_steps.
  destruct (seeded_sections_tables d) as (A1 & A2 & A3 & A4).
  destruct (seeded_teachers_tables (seeded_sections d)) as (B1 & B2 & B3 & B4).
  destruct (seeded_staff_tables (seeded_teachers (seeded_sections d)))
    as (C1 & C2 & C3 & C4).
  unfold others_kept. repeat split; congruence.
Qed.

Lemma seed_defaults_present (d : db) :
  (forall e, In e default_sections ->
             find (has_key section_key e) (sections (seed_defaults d)) <> None) /\
  (forall e, In e default_teachers ->
             find (has_key teacher_key e) (teachers (seed_defaults d)) <> None) /\
  (forall e, In e default_staff ->
             find (has_key staff_key e) (staff (seed_defaults d)) <> None).
Proof.
  destruct (seed_defaults_kept d) as (A & B & _).
  split; [|split]; intros e H.
  - rewrite A. unfold seeded_sections.
    apply (loop_present _ section_key sections seed_section
             seed_section_found seed_section_added); exact H.
  - rewrite B. unfold seeded_teachers.
    apply (loop_present _ teacher_key teachers seed_teacher
             seed_teacher_found seed_teacher_added); exact H.
  - rewrite seed_defaults_steps. unfold seeded_staff at 1.
    apply (loop_present _ staff_key staff seed_staff
             seed_staff_found seed_staff_added); exact H.
Qed.

Lemma seed_defaults_fixed (d : db) :
  (forall e, In e default_sections ->
             find (has_key section_key e) (sections d) <> None) ->
  (forall e, In e default_teachers ->
             find (has_key teacher_key e) (teachers d) <> None) ->
  (forall e, In e default_staff ->
             find (has_key staff_key e) (staff d) <> None) ->
  seed_defaults d = d.
Proof.
  intros A B C. rewrite seed_defaults_steps.
  assert (E1 : seeded_sections d = d)
    by (apply (loop_fixed _ section_key sections seed_section seed_section_found);
        exact A).
  rewrite E1.
  assert (E2 : seeded_teachers d = d)
    by (apply (loop_fixed _ teacher_key teachers seed_teacher seed_teacher_found);
        exact B).
  rewrite E2.
  apply (loop_fixed _ staff_key staff seed_staff seed_staff_found). exact C.
Qed.

Lemma seed_defaults_grows (d : db) :
  exists a b c,
    sections (seed_defaults d) = sections d ++ a /\
    teachers (seed_defaults d) = teachers d ++ b /\
    staff (seed_defaults d) = staff d ++ c.
Proof.
  destruct (seed_defaults_kept d) as (A & B & T & S & _).
  destruct (loop_grows _ section_key sections seed_section
              seed_section_found seed_section_added default_sections d)
    as (a & Ea).
  destruct (loop_grows _ teacher_key teachers seed_teacher
              seed_teacher_found seed_teacher_added default_teachers
              (seeded_sections d)) as (b & Eb).
  destruct (loop_grows _ staff_key staff seed_staff
              seed_staff_found seed_staff_added default_staff
              (seeded_teachers (seeded_sections d))) as (c & Ec).
  exists a, b, c. split; [|split].
  - rewrite A. exact Ea.
  - rewrite B, <- T. exact Eb.
  - rewrite seed_defaults_steps, <- S. exact Ec.
Qed.

Lemma seed_defaults_unique (d : db) :
  (unique_sections d -> unique_sections (seed_defaults d)) /\
  (unique_teachers d -> unique_teachers (seed_defaults d)) /\
  (unique_staff d -> unique_staff (seed_defaults d)).
Proof.
  destruct (seed_defaults_kept d) as (A & B & T & S & _).
  split; [|split]; intros U.
  - unfold unique_sections. rewrite A.
    apply (loop_invariant seed_section unique_sections default_sections
             (fun x e => seed_section_unique x e) d U).
  - unfold unique_teachers. rewrite B.
    apply (loop_invariant seed_teacher unique_teachers default_teachers
             (fun x e => seed_teacher_unique x e)).
    unfold unique_teachers. rewrite T. exact U.
  - rewrite seed_defaults_steps.
    apply (loop_invariant seed_staff unique_staff default_staff
             (fun x e => seed_staff_unique x e)).
    unfold unique_staff. rewrite S. exact U.
Qed.

(** X1.  The seeding of [create_app] is idempotent: run on a database that
    it has seeded, it changes nothing.  Run on any database it keeps the
    rows that are there, adds rows at the end of the three seeded tables
    only, and leaves every default section, teacher and staff member
    present.  On an empty database it gives the five sections, four
    teachers and three staff members of [seed_db], with the keys 1, 2, ... *)
Theorem seed_defaults_idempotent (d : db) :
  seed_defaults (seed_defaults d) = seed_defaults d /\
  (forall c s, In (c, s) default_sections ->
               section_named (seed_defaults d) c s <> None) /\
  (forall n s, In (n, s) default_teachers ->
               teacher_named (seed_defaults d) n s <> None) /\
  (forall n r, In (n, r) default_staff ->
               staff_named (seed_defaults d) n r <> None) /\
  (exists a b c,
     sections (seed_defaults d) = sections d ++ a /\
     teachers (seed_defaults d) = teachers d ++ b /\
     staff (seed_defaults d) = staff d ++ c) /\
  students (seed_defaults d) = students d /\
  notes (seed_defaults d) = notes d /\
  seed_defaults empty_db = seed_db.
Proof.
  destruct (seed_defaults_present d) as (P1 & P2 & P3).
  destruct (seed_defaults_kept d) as (_ & _ & _ & _ & K1 & K2).
  split; [apply seed_defaults_fixed; assumption|].
  split; [intros c s H; rewrite section_named_key; apply P1; exact H|].
  split; [intros n s H; rewrite teacher_named_key; apply P2; exact H|].
  split; [intros n r H; rewrite staff_named_key; apply P3; exact H|].
  split; [apply seed_defaults_grows|].
  split; [exact K1|]. split; [exact K2|]. reflexivity.
Qed.
End Tables.

(* ================================================================== *)
(** * The listings of the wall and of the home page *)

Module Listings.
Import Py PyFacts App Site Notions.
Local Open Scope Z_scope.
Local Open Scope list_scope.

Lemma stamped_in (ns : list Note) (e : Note * Z) :
  In e (sorted_desc (stamped ns)) -> snd e = created_at (fst e) /\ In (fst e) ns.
Proof.
  intros H.
  apply (Permutation_in _ (Permutation_sym (sorted_desc_perm _ _))) in H.
  apply in_map_iff in H. destruct H as (n & <- & Hn). split; [reflexivity | exact Hn].
Qed.

Lemma newest_order_map (l : list (Note * Z)) :
  (forall e, In e l -> snd e = created_at (fst e)) ->
  desc_counts l -> newest_order (map fst l).
Proof.
  intros H S. induction S as [|e r S IH F]; cbn [map]; constructor.
  - apply IH. intros x Hx. apply H. right. exact Hx.
  - apply Forall_forall. intros n Hn. apply in_map_iff in Hn.
    destruct Hn as (x & <- & Hx). rewrite Forall_forall in F.
    specialize (F x Hx). cbn beta in F.
    rewrite (H x (or_intror Hx)), (H e (or_introl eq_refl)) in F. exact F.
Qed.

(** The [k] newest notes of a list: [order_by(created_at.desc()).limit(k)]. *)
Lemma newest_limit (k : nat) (ns : list Note) :
  let listed := firstn k (newest_first ns) in
  exists rest,
    Permutation ns (listed ++ rest) /\
    List.length listed = Nat.min k (List.length ns) /\
    newest_order listed /\
    (forall n m, In n listed -> In m rest -> created_at m <= created_at n).
Proof.
  cbn zeta. unfold newest_first. fold (stamped ns).
  destruct (top_of_sorted _ k (stamped ns)) as (P & L & S & B).
  set (sl := sorted_desc (stamped ns)) in *.
  assert (I : forall e, In e sl -> snd e = created_at (fst e) /\ In (fst e) ns)
    by (intros e; apply stamped_in).
  exists (map fst (skipn k sl)). rewrite firstn_map. split; [|split; [|split]].
  - rewrite <- map_app, firstn_skipn.
    apply (Permutation_map fst) in P. rewrite firstn_skipn in P.
    unfold stamped in P at 1. rewrite map_map in P. cbn [fst] in P.
    rewrite map_id in P. exact P.
  - rewrite length_map, L. unfold stamped. rewrite length_map.
    reflexivity.
  - apply newest_order_map; [|exact S].
    intros e He. apply I. apply (BarsFacts.In_firstn k). exact He.
  - intros n m Hn Hm.
    apply in_map_iff in Hn. destruct Hn as (a & <- & Ha).
    apply in_map_iff in Hm. destruct Hm as (b & <- & Hb).
    specialize (B a b Ha Hb).
    assert (Ia : In a sl) by (apply (BarsFacts.In_firstn k); exact Ha).
    assert (Ib : In b sl).
    { rewrite <- (firstn_skipn k sl). apply in_or_app. right. exact Hb. }
    rewrite (proj1 (I a Ia)), (proj1 (I b Ib)) in B. exact B.
Qed.

(** The bars are computed for every mapping. *)
Lemma top_four_plus_others_ok (m : dict string Z) :
  exists items, top_four_plus_others m = Ok items.
Proof.
  unfold top_four_plus_others.
  rewrite (BarsFacts.bars_loop_ok _ _ (BarsFacts.total_of_nonzero m)).
  cbn [bind]. destruct (_ && _); eexists; reflexivity.
Qed.

Lemma bars_of_ok (c : chart_counts) : exists b, bars_of c = Ok b.
Proof.
  unfold bars_of.
  destruct (top_four_plus_others_ok (teacher_counts c)) as (t & ->).
  destruct (top_four_plus_others_ok (student_counts c)) as (s & ->).
  destruct (top_four_plus_others_ok (staff_counts c)) as (f & ->).
  cbn [bind]. eexists. reflexivity.
Qed.

(** X2.  The wall is rendered for every database.  It lists the 200 newest
    approved notes, or all of them if there are fewer, from the newest to
    the oldest: no approved note left out is newer than a listed one.  Its
    bars count the listed notes only. *)
Theorem wall_listing (d : db) :
  exists listed b rest,
    wall d = Ok (listed, b) /\
    bars_of (chart_counts_of d listed) = Ok b /\
    Permutation (approved_notes d) (listed ++ rest) /\
    List.length listed = Nat.min 200 (List.length (approved_notes d)) /\
    newest_order listed /\
    (forall n m, In n listed -> In m rest -> created_at m <= created_at n) /\
    (List.length (approved_notes d) <= 200 -> rest = [])%nat.
Proof.
  destruct (newest_limit 200 (approved_notes d)) as (rest & P & L & S & B).
  remember (firstn 200 (newest_first (approved_notes d))) as listed eqn:E.
  destruct (bars_of_ok (chart_counts_of d listed)) as (b & Hb).
  exists listed, b, rest. split; [|split; [exact Hb|]].
  - unfold wall. rewrite <- E, Hb. reflexivity.
  - split; [exact P|]. split; [exact L|]. split; [exact S|]. split; [exact B|].
    intros H. apply Permutation_length in P. rewrite length_app, L in P.
    destruct rest; [reflexivity|]. cbn [List.length] in P. lia.
Qed.

Lemma count_partition (ns : list Note) :
  Forall valid_status ns ->
  (List.length (filter (fun n => String.eqb (status n) "pending") ns)
   + List.length (filter (fun n => String.eqb (status n) "approved") ns)
   + List.length (filter (fun n => String.eqb (status n) "hidden") ns)
   = List.length ns)%nat.
Proof.
  induction 1 as [|n r H F IH]; [reflexivity|].
  cbn [filter List.length].
  destruct H as [E|[E|E]]; rewrite E; cbn [String.eqb Ascii.eqb Bool.eqb];
    cbn [List.length]; lia.
Qed.

Lemma count_disjoint (ns : list Note) :
  (List.length (filter (fun n => String.eqb (status n) "pending") ns)
   + List.length (filter (fun n => String.eqb (status n) "approved") ns)
   + List.length (filter (fun n => String.eqb (status n) "hidden") ns)
   <= List.length ns)%nat.
Proof.
  induction ns as [|n r IH]; [reflexivity|].
  cbn [filter List.length].
  destruct (String.eqb (status n) "pending") eqn:E1.
  { apply String.eqb_eq in E1. rewrite E1. cbn [String.eqb Ascii.eqb Bool.eqb].
    cbn [List.length]. lia. }
  destruct (String.eqb (status n) "approved") eqn:E2.
  { apply String.eqb_eq in E2. rewrite E2. cbn [String.eqb Ascii.eqb Bool.eqb].
    cbn [List.length]. lia. }
  destruct (String.eqb (status n) "hidden"); cbn [List.length]; lia.
Qed.

(** X3.  The home page is rendered for every database.  Its leaders are
    those of [compute_leaders]; its recent notes are the five newest approved
    notes, newest first; its three counts never add up to more than the
    number of notes, and to exactly that number when every note is pending,
    approved or hidden. *)
Theorem home_counts (c : clock) (d : db) :
  exists p rest,
    home c d = Ok p /\
    compute_leaders c d = Ok (leader p) /\
    Permutation (approved_notes d) (recent p ++ rest) /\
    List.length (recent p) = Nat.min 5 (List.length (approved_notes d)) /\
    newest_order (recent p) /\
    (forall n m, In n (recent p) -> In m rest -> created_at m <= created_at n) /\
    counts_approved p = Z.of_nat (List.length (approved_notes d)) /\
    counts_pending p + counts_approved p + counts_hidden p
      <= Z.of_nat (List.length (notes d)) /\
    (Forall valid_status (notes d) ->
     counts_pending p + counts_approved p + counts_hidden p
       = Z.of_nat (List.length (notes d))).
Proof.
  destruct (newest_limit 5 (approved_notes d)) as (rest & P & L & S & B).
  unfold home, compute_leaders. rewrite LeadersFacts.leaders_of_windows_value.
  cbn [bind]. eexists. exists rest. split; [reflexivity|].
  cbn [leader recent counts_pending counts_approved counts_hidden].
  split; [reflexivity|]. split; [exact P|]. split; [exact L|].
  split; [exact S|]. split; [exact B|]. split; [reflexivity|].
  unfold count_status, with_status. split.
  - pose proof (count_disjoint (notes d)). lia.
  - intros V. pose proof (count_partition (notes d) V). lia.
Qed.
End Listings.

(* ================================================================== *)
(** * Dictionaries of counts *)

Module Tallies.
Import Py PyFacts App.
Local Open Scope Z_scope.
Local Open Scope list_scope.

Section Counting.
Variables A K : Type.
Variable eqb : K -> K -> bool.
Hypothesis eqb_eq : forall x y, eqb x y = true <-> x = y.
Variable entry : A -> option (K * Z).

Lemma dict_get_some_in (d : dict K Z) (k : K) (v : Z) :
  dict_get eqb d k = Some v -> In (k, v) d.
Proof.
  induction d as [|[k' v'] r IH]; cbn [dict_get]; [discriminate|].
  destruct (eqb k k') eqn:E.
  - apply eqb_eq in E. subst k'. intros [= ->]. left. reflexivity.
  - intros H. right. exact (IH H).
Qed.

Lemma dict_get_in (d : dict K Z) (k : K) (v : Z) :
  NoDup (map fst d) -> In (k, v) d -> dict_get eqb d k = Some v.
Proof.
  induction d as [|[k' v'] r IH]; cbn [dict_get map fst]; intros N H.
  - destruct H.
  - inversion N as [|? ? N1 N2]; subst.
    destruct H as [H|H].
    + injection H as -> ->. rewrite (LeadersFacts.eqb_refl K eqb eqb_eq). reflexivity.
    + destruct (eqb k k') eqn:E; [|exact (IH N2 H)].
      apply eqb_eq in E. subst k'. exfalso. apply N1.
      apply in_map_iff. exists (k, v). split; [reflexivity | exact H].
Qed.

Lemma sum_values_set (d : dict K Z) (k : K) (v : Z) :
  sum_values (dict_set eqb d k v) =
  sum_values d - match dict_get eqb d k with Some x => x | None => 0 end + v.
Proof.
  induction d as [|[k' v'] r IH]; cbn [dict_set dict_get].
  - unfold sum_values. cbn. lia.
  - destruct (eqb k k') eqn:E.
    + rewrite !sum_values_cons. cbn [snd]. lia.
    + rewrite !sum_values_cons, IH. cbn [snd]. lia.
Qed.

Lemma sum_values_add (d : dict K Z) (k : K) (w : Z) :
  sum_values (dict_add eqb d k w) = sum_values d + w.
Proof. unfold dict_add. rewrite sum_values_set. lia. Qed.

(** The values of a tally add up to the amounts of the elements. *)
Lemma tally_sum (q : list A) :
  forall d, sum_values (fold_left (tally_step eqb entry) q d) =
            sum_values d + fold_right (fun n a => amount entry n + a) 0 q.
Proof.
  induction q as [|n r IH]; intros d; cbn [fold_left fold_right]; [lia|].
  rewrite IH. unfold tally_step, amount at 2.
  destruct (entry n) as [[k w]|]; [rewrite sum_values_add|]; lia.
Qed.

Lemma dict_set_in (d : dict K Z) (k : K) (v : Z) (e : K * Z) :
  In e (dict_set eqb d k v) -> In e d \/ snd e = v.
Proof.
  induction d as [|[k' v'] r IH]; cbn [dict_set].
  - intros [<-|[]]. right. reflexivity.
  - destruct (eqb k k').
    + intros [<-|H]; [right; reflexivity | left; right; exact H].
    + intros [<-|H]; [left; left; reflexivity|].
      destruct (IH H) as [H'|H']; [left; right; exact H' | right; exact H'].
Qed.

(** A tally of positive amounts holds positive counts. *)
Lemma tally_positive (q : list A) :
  (forall n k w, entry n = Some (k, w) -> 1 <= w) ->
  forall d, Forall (fun e => 1 <= snd e) d ->
            Forall (fun e => 1 <= snd e) (fold_left (tally_step eqb entry) q d).
Proof.
  intros W. induction q as [|n r IH]; intros d H; cbn [fold_left]; [exact H|].
  apply IH. unfold tally_step. destruct (entry n) as [[k w]|] eqn:E; [|exact H].
  apply Forall_forall. intros e He. unfold dict_add in He.
  apply dict_set_in in He. destruct He as [He| ->].
  - rewrite Forall_forall in H. exact (H e He).
  - specialize (W n k w E).
    destruct (dict_get eqb d k) as [v|] eqn:G; [|lia].
    apply dict_get_some_in in G. rewrite Forall_forall in H.
    specialize (H (k, v) G). cbn [snd] in H. lia.
Qed.

(** Every key of a tally is the key of an element. *)
Lemma tally_keys (q : list A) (k : K) :
  forall d, In k (map fst (fold_left (tally_step eqb entry) q d)) ->
            In k (map fst d) \/ exists n w, In n q /\ entry n = Some (k, w).
Proof.
  induction q as [|n r IH]; intros d; cbn [fold_left]; [left; assumption|].
  intros H. apply IH in H. destruct H as [H|(m & w & Hm & E)].
  - unfold tally_step in H. destruct (entry n) as [[k' w']|] eqn:E; [|left; exact H].
    unfold dict_add in H. rewrite (LeadersFacts.dict_set_keys K eqb) in H.
    destruct (dict_get eqb d k'); [left; exact H|].
    apply in_app_or in H. destruct H as [H|[<-|[]]]; [left; exact H|].
    right. exists n, w'. split; [left; reflexivity | exact E].
  - right. exists m, w. split; [right; exact Hm | exact E].
Qed.

Lemma amounts_count (q : list A) :
  (forall n k w, entry n = Some (k, w) -> w = 1) ->
  fold_right (fun n a => amount entry n + a) 0 q =
  Z.of_nat (List.length
              (filter (fun n => match entry n with Some _ => true | None => false end) q)).
Proof.
  intros W. induction q as [|n r IH]; [reflexivity|].
  cbn [fold_right filter]. rewrite IH. unfold amount.
  destruct (entry n) as [[k w]|] eqn:E.
  - rewrite (W n k w E). cbn [List.length]. lia.
  - lia.
Qed.
End Counting.

(** Three tests of which no two hold of an element. *)
Lemma filter_disjoint {A : Type} (p q r : A -> bool) (l : list A) :
  (forall x, p x = true -> q x = false /\ r x = false) ->
  (forall x, q x = true -> r x = false) ->
  (List.length (filter p l) + List.length (filter q l)
   + List.length (filter r l) <= List.length l)%nat.
Proof.
  intros H1 H2. induction l as [|x l IH]; [reflexivity|].
  cbn [filter List.length].
  destruct (p x) eqn:P.
  - destruct (H1 x P) as [-> ->]. cbn [List.length]. lia.
  - destruct (q x) eqn:Q.
    + rewrite (H2 x Q). cbn [List.length]. lia.
    + destruct (r x); cbn [List.length]; lia.
Qed.
End Tallies.

(* ================================================================== *)
(** * The counts behind the bars *)

Module Charts.
Import Py PyFacts App LeadersFacts Tallies Notions.
Local Open Scope Z_scope.
Local Open Scope list_scope.

Lemma string_eqb_iff (x y : string) : String.eqb x y = true <-> x = y.
Proof. apply String.eqb_eq. Qed.

(** The [if]/[elif] chain counts as three loops would, one per chart. *)
Lemma count_note_split (d : db) (c : chart_counts) (n : Note) :
  teacher_counts (count_note d c n)
    = tally_step String.eqb (teacher_name_entry d) (teacher_counts c) n /\
  staff_counts (count_note d c n)
    = tally_step String.eqb (staff_name_entry d) (staff_counts c) n /\
  student_counts (count_note d c n)
    = tally_step String.eqb (student_name_entry d) (student_counts c) n.
Proof.
  unfold count_note, tally_step, teacher_name_entry, staff_name_entry,
    student_name_entry.
  destruct (String.eqb (receiver_type n) "teacher") eqn:T.
  { apply String.eqb_eq in T. rewrite T. cbn [String.eqb Ascii.eqb Bool.eqb andb].
    destruct (receiver_teacher d n); repeat split; reflexivity. }
  destruct (String.eqb (receiver_type n) "staff") eqn:S.
  { apply String.eqb_eq in S. rewrite S. cbn [String.eqb Ascii.eqb Bool.eqb andb].
    destruct (receiver_staff d n); repeat split; reflexivity. }
  destruct (String.eqb (receiver_type n) "student"); cbn [andb];
    [destruct (truthy_str (student_label d n))|]; repeat split; reflexivity.
Qed.

Lemma chart_counts_split (d : db) (ns : list Note) :
  forall c,
    teacher_counts (fold_left (count_note d) ns c)
      = fold_left (tally_step String.eqb (teacher_name_entry d)) ns (teacher_counts c) /\
    staff_counts (fold_left (count_note d) ns c)
      = fold_left (tally_step String.eqb (staff_name_entry d)) ns (staff_counts c) /\
    student_counts (fold_left (count_note d) ns c)
      = fold_left (tally_step String.eqb (student_name_entry d)) ns (student_counts c).
Proof.
  induction ns as [|n r IH]; intros c; cbn [fold_left].
  - repeat split.
  - destruct (IH (count_note d c n)) as (A & B & C).
    destruct (count_note_split d c n) as (A' & B' & C').
    rewrite A, B, C, A', B', C'. repeat split.
Qed.

Lemma hits_teacher_named (d : db) (name : string) (n : Note) :
  hits String.eqb (teacher_name_entry d) name n = to_teacher_named d name n.
Proof.
  unfold hits, teacher_name_entry, to_teacher_named.
  destruct (String.eqb (receiver_type n) "teacher"); cbn [andb]; [|reflexivity].
  destruct (receiver_teacher d n); reflexivity.
Qed.

Lemma hits_staff_named (d : db) (name : string) (n : Note) :
  hits String.eqb (staff_name_entry d) name n = to_staff_named d name n.
Proof.
  unfold hits, staff_name_entry, to_staff_named.
  destruct (String.eqb (receiver_type n) "staff"); cbn [andb]; [|reflexivity].
  destruct (receiver_staff d n); reflexivity.
Qed.

Lemma hits_student_named (d : db) (name : string) (n : Note) :
  hits String.eqb (student_name_entry d) name n = to_student_named d name n.
Proof.
  unfold hits, student_name_entry, to_student_named.
  destruct (String.eqb (receiver_type n) "student"); cbn [andb]; [|reflexivity].
  destruct (student_label d n) as [l|]; cbn [truthy_str or_str]; [|apply eq_sym, andb_false_r].
  destruct (String.eqb l "") eqn:E; cbn [negb].
  - apply String.eqb_eq in E. subst l. rewrite (String.eqb_sym "" name).
    destruct (String.eqb name ""); reflexivity.
  - destruct (String.eqb l name) eqn:F; [|apply eq_sym, andb_false_r].
    apply String.eqb_eq in F. subst l. rewrite E. reflexivity.
Qed.

Lemma one_each_teacher (d : db) (n : Note) (k : string) (w : Z) :
  teacher_name_entry d n = Some (k, w) -> w = 1.
Proof.
  unfold teacher_name_entry.
  destruct (String.eqb _ _); [destruct (receiver_teacher d n)|];
    try discriminate; intros [= _ <-]; reflexivity.
Qed.

Lemma one_each_staff (d : db) (n : Note) (k : string) (w : Z) :
  staff_name_entry d n = Some (k, w) -> w = 1.
Proof.
  unfold staff_name_entry.
  destruct (String.eqb _ _); [destruct (receiver_staff d n)|];
    try discriminate; intros [= _ <-]; reflexivity.
Qed.

Lemma one_each_student (d : db) (n : Note) (k : string) (w : Z) :
  student_name_entry d n = Some (k, w) -> w = 1 /\ k <> "".
Proof.
  unfold student_name_entry.
  destruct (String.eqb (receiver_type n) "student"); cbn [andb]; [|discriminate].
  destruct (student_label d n) as [l|]; cbn [truthy_str or_str]; [|discriminate].
  destruct (String.eqb l "") eqn:E; cbn [negb]; [discriminate|].
  intros [= <- <-]. split; [reflexivity|]. intros ->. discriminate E.
Qed.

(** The entries, keys and sum of a chart's dictionary. *)
Lemma filter_ext_hits {A : Type} (p q : A -> bool) (l : list A) :
  (forall x, p x = q x) -> filter p l = filter q l.
Proof. intros H. apply filter_ext. exact H. Qed.

Lemma exclusive_entries (d : db) (n : Note) :
  (teacher_name_entry d n <> None ->
   staff_name_entry d n = None /\ student_name_entry d n = None) /\
  (staff_name_entry d n <> None -> student_name_entry d n = None).
Proof.
  unfold teacher_name_entry, staff_name_entry, student_name_entry.
  destruct (String.eqb (receiver_type n) "teacher") eqn:T.
  { apply String.eqb_eq in T. rewrite T. cbn [String.eqb Ascii.eqb Bool.eqb andb].
    split; [split; reflexivity | intros H; exfalso; apply H; reflexivity]. }
  destruct (String.eqb (receiver_type n) "staff") eqn:S.
  { apply String.eqb_eq in S. rewrite S. cbn [String.eqb Ascii.eqb Bool.eqb andb].
    split; [intros H; exfalso; apply H; reflexivity | reflexivity]. }
  split; intros H; exfalso; apply H; reflexivity.
Qed.

(** Every count of the three dictionaries is at least 1. *)
Lemma chart_counts_positive (d : db) (ns : list Note) :
  Forall (fun e => 1 <= snd e) (teacher_counts (chart_counts_of d ns)) /\
  Forall (fun e => 1 <= snd e) (staff_counts (chart_counts_of d ns)) /\
  Forall (fun e => 1 <= snd e) (student_counts (chart_counts_of d ns)).
Proof.
  unfold chart_counts_of.
  destruct (chart_counts_split d ns no_counts) as (A & B & C).
  rewrite A, B, C. cbn [teacher_counts staff_counts student_counts no_counts].
  repeat split; apply (tally_positive _ _ _ string_eqb_iff); try constructor;
    intros n k w E.
  - rewrite (one_each_teacher d n k w E). lia.
  - rewrite (one_each_staff d n k w E). lia.
  - destruct (one_each_student d n k w E) as [-> _]. lia.
Qed.

(** X4.  The dictionaries behind the bars of the wall and of the leaders
    page, for any list of notes: a name is a key of the teachers' (staff's,
    students') dictionary exactly when a note of the list is addressed to a
    teacher (staff member, student) of that name, and its count is the
    number of these notes; a student's name is never empty.  No key occurs
    twice, every count is at least 1, and the three dictionaries together
    count no note twice. *)
Theorem chart_counts_entries (d : db) (ns : list Note) :
  let c := chart_counts_of d ns in
  (forall name, dict_get String.eqb (teacher_counts c) name =
                count_entry (filter (to_teacher_named d name) ns)) /\
  (forall name, dict_get String.eqb (staff_counts c) name =
                count_entry (filter (to_staff_named d name) ns)) /\
  (forall name, dict_get String.eqb (student_counts c) name =
                count_entry (filter (to_student_named d name) ns)) /\
  (NoDup (map fst (teacher_counts c)) /\ NoDup (map fst (staff_counts c)) /\
   NoDup (map fst (student_counts c)) /\ ~ In "" (map fst (student_counts c))) /\
  (Forall (fun e => 1 <= snd e) (teacher_counts c) /\
   Forall (fun e => 1 <= snd e) (staff_counts c) /\
   Forall (fun e => 1 <= snd e) (student_counts c)) /\
  sum_values (teacher_counts c) + sum_values (staff_counts c)
    + sum_values (student_counts c) <= Z.of_nat (List.length ns).
Proof.
  cbn zeta. unfold chart_counts_of.
  destruct (chart_counts_split d ns no_counts) as (A & B & C).
  rewrite A, B, C. cbn [teacher_counts staff_counts student_counts no_counts].
  clear A B C.
  assert (S1 : forall n k w, student_name_entry d n = Some (k, w) -> w = 1)
    by (intros n k w E; apply (one_each_student d n k w E)).
  split; [|split; [|split; [|split; [|split]]]].
  - intros name. rewrite (count_get _ _ _ string_eqb_iff _ _ _ (one_each_teacher d)).
    rewrite (filter_ext_hits _ _ ns (hits_teacher_named d name)).
    destruct (filter _ ns); reflexivity.
  - intros name. rewrite (count_get _ _ _ string_eqb_iff _ _ _ (one_each_staff d)).
    rewrite (filter_ext_hits _ _ ns (hits_staff_named d name)).
    destruct (filter _ ns); reflexivity.
  - intros name. rewrite (count_get _ _ _ string_eqb_iff _ _ _ S1).
    rewrite (filter_ext_hits _ _ ns (hits_student_named d name)).
    destruct (filter _ ns); reflexivity.
  - repeat split; try (apply (tally_nodup _ _ _ string_eqb_iff); constructor).
    intros H. apply (tally_keys _ _ String.eqb) in H.
    destruct H as [[]|(n & w & _ & E)].
    apply one_each_student in E. destruct E as [_ E]. apply E. reflexivity.
  - repeat split; apply (tally_positive _ _ _ string_eqb_iff); try constructor;
      intros n k w E.
    + rewrite (one_each_teacher d n k w E). lia.
    + rewrite (one_each_staff d n k w E). lia.
    + rewrite (S1 n k w E). lia.
  - rewrite !(tally_sum _ _ String.eqb). unfold sum_values at 1 2 3. cbn [fold_left].
    rewrite (amounts_count _ _ _ _ (one_each_teacher d)).
    rewrite (amounts_count _ _ _ _ (one_each_staff d)).
    rewrite (amounts_count _ _ _ _ S1).
    pose proof (filter_disjoint
                  (fun n => match teacher_name_entry d n with Some _ => true | None => false end)
                  (fun n => match staff_name_entry d n with Some _ => true | None => false end)
                  (fun n => match student_name_entry d n with Some _ => true | None => false end)
                  ns) as F.
    assert (G : (List.length (filter (fun n => match teacher_name_entry d n with Some _ => true | None => false end) ns)
                 + List.length (filter (fun n => match staff_name_entry d n with Some _ => true | None => false end) ns)
                 + List.length (filter (fun n => match student_name_entry d n with Some _ => true | None => false end) ns)
                 <= List.length ns)%nat).
    { apply F.
      - intros x Hx. destruct (exclusive_entries d x) as [E _].
        destruct (teacher_name_entry d x); [|discriminate].
        destruct E as [-> ->]; [discriminate|]. split; reflexivity.
      - intros x Hx. destruct (exclusive_entries d x) as [_ E].
        destruct (staff_name_entry d x); [|discriminate].
        rewrite E; [reflexivity | discriminate]. }
    lia.
Qed.
End Charts.

(* ================================================================== *)
(** * The leaders page *)

Module LeaderPages.
Import Py PyFacts App LeadersFacts Tallies Charts Notions Scenarios.
Local Open Scope Z_scope.
Local Open Scope list_scope.

Lemma Z_eqb_iff (x y : Z) : (x =? y) = true <-> x = y.
Proof. apply Z.eqb_eq. Qed.

(** The first ten of the sorted items of a dictionary with distinct keys. *)
Lemma top_ten_sorted (value : Z -> option Z) (m : dict Z Z) :
  NoDup (map fst m) ->
  (forall k, dict_get Z.eqb m k = value k) ->
  top_ten value (firstn 10 (sorted_desc m)).
Proof.
  intros N G. destruct (top_of_sorted _ 10 m) as (P & L & S & B).
  set (top := firstn 10 (sorted_desc m)) in *.
  set (rest := skipn 10 (sorted_desc m)) in *.
  assert (Lm : List.length m = (List.length top + List.length rest)%nat).
  { rewrite (Permutation_length P), length_app. reflexivity. }
  split; [lia|]. split; [exact S|]. split; [|split].
  - apply (Permutation_map fst) in P. rewrite map_app in P.
    apply (Permutation_NoDup P) in N. apply NoDup_app_remove_r in N. exact N.
  - intros k v H. rewrite <- G. apply (dict_get_in _ _ Z_eqb_iff); [exact N|].
    apply (Permutation_in _ (Permutation_sym P)). apply in_or_app. left. exact H.
  - intros k v H. rewrite <- G in H. apply dict_get_some_in in H; [|exact Z_eqb_iff].
    apply (Permutation_in _ P) in H. apply in_app_or in H.
    destruct H as [H|H]; [left; exact H|]. right. split.
    + destruct rest; [destruct H|]. cbn [List.length] in Lm. lia.
    + intros e He. exact (B e (k, v) He H).
Qed.

(** X5.  The leaders page is rendered for every database.  Each of its three
    rankings holds at most ten entries in descending order of their values,
    no key twice; an entry's value is the sum of the weights of the approved
    notes given by students of the section (appreciators), the number of
    approved notes to students of the section (appreciated), the number of
    approved notes to the teacher; a section or teacher with such notes is
    listed unless ten listed entries have at least its value. *)
Theorem leaders_rankings (d : db) :
  exists page,
    leaders d = Ok page /\
    top_ten (fun s => weight_entry (filter (student_giver_in s) (approved_notes d)))
      (top_appreciators_section page) /\
    top_ten (fun s => count_entry (filter (student_receiver_in s) (approved_notes d)))
      (top_appreciated_section_list page) /\
    top_ten (fun k => count_entry (filter (teacher_receiver_is k) (approved_notes d)))
      (top_teachers page).
Proof.
  unfold leaders.
  destruct (Listings.bars_of_ok (chart_counts_of d (approved_notes d))) as (b & ->).
  cbn [bind]. eexists. split; [reflexivity|].
  cbn [top_appreciators_section top_appreciated_section_list top_teachers].
  destruct (tally_note_folds (approved_notes d) no_tallies) as (A & B & C).
  split; [|split]; apply top_ten_sorted.
  - rewrite B. apply (tally_nodup _ _ _ Z_eqb_iff). constructor.
  - intros k. apply appr_sec_get.
  - rewrite A. apply (tally_nodup _ _ _ Z_eqb_iff). constructor.
  - intros k. apply app_sec_get.
  - rewrite C. apply (tally_nodup _ _ _ Z_eqb_iff). constructor.
  - intros k. apply top_t_get.
Qed.
(** ** The first row of a ranking and the winner of [compute_leaders] *)

Lemma max_from_cons (x : Z * Z) (r : list (Z * Z)) :
  max_from x r = match first_of_max r with
                 | None => x
                 | Some y => if snd x <? snd y then y else x
                 end.
Proof.
  revert x. induction r as [|y r IH]; intros x; cbn [max_from first_of_max].
  - reflexivity.
  - rewrite (IH x), (IH y). destruct (first_of_max r) as [z|].
    + destruct (snd x <? snd y) eqn:A, (snd y <? snd z) eqn:B;
        try rewrite A; try reflexivity.
      * apply Z.ltb_lt in A, B.
        assert (C : (snd x <? snd z) = true) by (apply Z.ltb_lt; lia).
        rewrite C. reflexivity.
      * apply Z.ltb_ge in A, B.
        assert (C : (snd x <? snd z) = false) by (apply Z.ltb_ge; lia).
        rewrite C. reflexivity.
    + destruct (snd x <? snd y); reflexivity.
Qed.

Lemma head_insert (x : Z * Z) (l : list (Z * Z)) :
  hd_error (insert_desc x l) =
  match hd_error l with
  | None => Some x
  | Some y => if snd x <? snd y then Some y else Some x
  end.
Proof.
  destruct l as [|y r]; cbn [insert_desc hd_error]; [reflexivity|].
  destruct (snd x <? snd y); reflexivity.
Qed.

(** The first of the sorted items is the item that [max] selects. *)
Lemma head_sorted (m : dict Z Z) : hd_error (sorted_desc m) = first_of_max m.
Proof.
  induction m as [|x r IH]; cbn [sorted_desc first_of_max]; [reflexivity|].
  rewrite head_insert, IH, max_from_cons.
  destruct (first_of_max r) as [y|]; [|reflexivity].
  destruct (snd x <? snd y); reflexivity.
Qed.

Lemma head_firstn {A : Type} (n : nat) (l : list A) :
  hd_error (firstn (S n) l) = hd_error l.
Proof. destruct l; reflexivity. Qed.

Lemma alltime_notes (c : clock) (d : db) :
  (forall n, In n (approved_notes d) -> epoch <= created_at n <= now c) ->
  window_notes d epoch (now c) = approved_notes d.
Proof.
  intros H. unfold window_notes, approved_notes. apply filter_ext_in.
  intros n Hn. unfold in_window. destruct (is_approved n) eqn:A; [|reflexivity].
  assert (I : In n (approved_notes d)) by (apply filter_In; split; assumption).
  specialize (H n I). cbn [andb].
  destruct (Z.leb_spec epoch (created_at n)), (Z.leb_spec (created_at n) (now c));
    try reflexivity; lia.
Qed.

(** X6.  When every approved note was created between 1970 and now, the
    all-time leaders of [compute_leaders] (the home page) are the first rows
    of the three rankings of the leaders page: the same section or teacher
    with the same value, and none where the ranking is empty. *)
Theorem alltime_leaders_first (c : clock) (d : db) :
  (forall n, In n (approved_notes d) -> epoch <= created_at n <= now c) ->
  exists out page w,
    compute_leaders c d = Ok out /\
    leaders d = Ok page /\
    dict_get String.eqb out "alltime" = Some w /\
    top_appreciated_section w =
      winner_text (sec_label d) (hd_error (top_appreciated_section_list page)) /\
    top_appreciator_section w =
      winner_text (sec_label d) (hd_error (top_appreciators_section page)) /\
    top_teacher w =
      winner_text (teacher_label d) (hd_error (top_teachers page)).
Proof.
  intros H. unfold compute_leaders, leaders.
  rewrite leaders_of_windows_value.
  destruct (Listings.bars_of_ok (chart_counts_of d (approved_notes d))) as (b & ->).
  cbn [bind]. eexists. eexists. exists (window_value d epoch (now c)).
  split; [reflexivity|]. split; [reflexivity|]. split; [reflexivity|].
  cbn [top_appreciators_section top_appreciated_section_list top_teachers].
  unfold window_value, window_tallies. rewrite (alltime_notes c d H).
  cbn [top_appreciated_section top_appreciator_section top_teacher].
  rewrite !head_firstn, !head_sorted. repeat split.
Qed.

Lemma alltime_leaders_first_witness :
  (forall n, In n (approved_notes Examples.two_notes_db) ->
             epoch <= created_at n <= now Examples.clock0) /\
  exists out page w,
    compute_leaders Examples.clock0 Examples.two_notes_db = Ok out /\
    leaders Examples.two_notes_db = Ok page /\
    dict_get String.eqb out "alltime" = Some w /\
    top_appreciated_section w =
      winner_text (sec_label Examples.two_notes_db)
        (hd_error (top_appreciated_section_list page)) /\
    top_appreciator_section w =
      winner_text (sec_label Examples.two_notes_db)
        (hd_error (top_appreciators_section page)) /\
    top_teacher w =
      winner_text (teacher_label Examples.two_notes_db)
        (hd_error (top_teachers page)).
Proof.
  assert (H : forall n, In n (approved_notes Examples.two_notes_db) ->
                        epoch <= created_at n <= now Examples.clock0).
  { intros n [<-|[<-|[]]]; vm_compute; split; discriminate. }
  split; [exact H|].
  exact (alltime_leaders_first Examples.clock0 Examples.two_notes_db H).
Defined.

(** ** The certificates and the bars of the leaders page *)

Lemma top_bars_labels (m : dict string Z) :
  map bucket_label (top_bars m) = map fst (firstn 4 (sorted_desc m)).
Proof. unfold top_bars. rewrite map_map. apply map_ext. intros e. reflexivity. Qed.

Lemma positive_nonneg (m : dict string Z) :
  Forall (fun e => 1 <= snd e) m -> counts_nonneg m.
Proof.
  unfold counts_nonneg. apply Forall_impl. intros e H. lia.
Qed.

(** The labels of the bars of a dictionary of counts, by rank. *)
Lemma bar_label_at (m : dict string Z) (items : list bucket) (i : nat) (w : string) :
  counts_nonneg m -> (i < 4)%nat ->
  top_four_plus_others m = Ok items ->
  option_map fst (nth_error (sorted_desc m) i) = Some w ->
  nth_error (map bucket_label items) i = Some w.
Proof.
  intros N I T W. rewrite (BarsFacts.top_four_plus_others_value m N) in T.
  injection T as <-. rewrite map_app, top_bars_labels.
  assert (E : nth_error (map fst (firstn 4 (sorted_desc m))) i = Some w).
  { rewrite nth_error_map, nth_error_firstn.
    destruct (Nat.ltb_spec i 4); [exact W | lia]. }
  rewrite nth_error_app1; [exact E|].
  apply nth_error_Some. rewrite E. discriminate.
Qed.

Lemma chart_counts_loops (d : db) (ns : list Note) :
  teacher_counts (chart_counts_of d ns) = fold_left (teacher_count d) ns [] /\
  staff_counts (chart_counts_of d ns) = fold_left (staff_count d) ns [].
Proof.
  unfold chart_counts_of.
  destruct (chart_counts_split d ns no_counts) as (A & B & _).
  rewrite A, B. cbn [teacher_counts staff_counts no_counts].
  rewrite Certificates.teacher_count_tally, Certificates.staff_count_tally.
  split; reflexivity.
Qed.

Lemma bars_of_parts (c : chart_counts) (b : bars) :
  bars_of c = Ok b ->
  top_four_plus_others (teacher_counts c) = Ok (bars_teachers b) /\
  top_four_plus_others (student_counts c) = Ok (bars_students b) /\
  top_four_plus_others (staff_counts c) = Ok (bars_staffs b).
Proof.
  unfold bars_of.
  destruct (Listings.top_four_plus_others_ok (teacher_counts c)) as (t & ->).
  destruct (Listings.top_four_plus_others_ok (student_counts c)) as (s & ->).
  destruct (Listings.top_four_plus_others_ok (staff_counts c)) as (f & ->).
  cbn [bind]. intros [= <-]. repeat split.
Qed.

(** X7.  A certificate for a teacher or a staff member names the label of
    the bar of that rank in the chart of the leaders page: the first
    certificate goes to the first bar, the second to the second, the third
    to the third. *)
Theorem certificate_on_chart (d : db) (category : string) (rank : Z) (w : string) :
  category = "teacher" \/ category = "staff" ->
  certificate d category rank = Certificate category rank w ->
  exists page,
    leaders d = Ok page /\
    nth_error (map bucket_label (category_bars category (leaders_bars page)))
      (Z.to_nat (rank - 1)) = Some w.
Proof.
  intros C H. unfold certificate in H.
  destruct (negb _ || negb ((rank =? 1) || (rank =? 2) || (rank =? 3))) eqn:V;
    [discriminate H|].
  apply orb_false_iff in V. destruct V as [_ V]. apply negb_false_iff in V.
  assert (R : rank = 1 \/ rank = 2 \/ rank = 3).
  { apply orb_true_iff in V. destruct V as [V|V]; [apply orb_true_iff in V; destruct V as [V|V]|];
      apply Z.eqb_eq in V; auto. }
  destruct (certificate_label d category rank) as [l|] eqn:L;
    cbn [truthy_str or_str] in H; [|discriminate H].
  destruct (String.eqb l "") eqn:E; cbn [negb] in H; [discriminate H|].
  injection H as ->.
  unfold leaders.
  destruct (Listings.bars_of_ok (chart_counts_of d (approved_notes d))) as (b & Hb).
  rewrite Hb. cbn [bind]. eexists. split; [reflexivity|]. cbn [leaders_bars].
  destruct (bars_of_parts _ _ Hb) as (T & _ & S).
  destruct (chart_counts_loops d (approved_notes d)) as (CT & CS).
  destruct (chart_counts_positive d (approved_notes d)) as (PT & PS & _).
  assert (I : (Z.to_nat (rank - 1) < 4)%nat) by lia.
  unfold certificate_label in L. unfold category_bars.
  destruct C as [-> | ->]; cbn [String.eqb Ascii.eqb Bool.eqb] in L |- *;
    rewrite Certificates.ranked_nth in L by lia.
  - apply (bar_label_at _ _ _ _ (positive_nonneg _ PT) I T).
    rewrite CT. exact L.
  - apply (bar_label_at _ _ _ _ (positive_nonneg _ PS) I S).
    rewrite CS. exact L.
Qed.

Lemma certificate_on_chart_witness :
  ("teacher" = "teacher" \/ "teacher" = "staff") /\
  certificate teacher_noted_db "teacher" 1 = Certificate "teacher" 1 "Mr. Kabir" /\
  exists page,
    leaders teacher_noted_db = Ok page /\
    nth_error (map bucket_label (category_bars "teacher" (leaders_bars page)))
      (Z.to_nat (1 - 1)) = Some "Mr. Kabir".
Proof.
  assert (C : "teacher" = "teacher" \/ "teacher" = "staff") by (left; reflexivity).
  assert (H : certificate teacher_noted_db "teacher" 1
              = Certificate "teacher" 1 "Mr. Kabir") by reflexivity.
  split; [exact C|]. split; [exact H|].
  exact (certificate_on_chart teacher_noted_db "teacher" 1 "Mr. Kabir" C H).
Defined.
End LeaderPages.

(* ================================================================== *)
(** * The bars from below *)

Module BarsBelow.
Import PyFloat PyFloatFacts Py PyFacts App BarsFacts.
Local Open Scope Z_scope.
Local Open Scope list_scope.
Local Open Scope Q_scope.

(** The quotient [cnt * 100.0 / total] is at least the exact ratio, up to
    the rounding of the operations that compute it. *)
Lemma quotient_lower (c t : Z) :
  (0 <= c)%Z -> (0 < t)%Z ->
  let q := rne (fmul (of_int c) (literal 100 1) / of_int t) in
  100 * inject_Z c * (1 - 5 * ulp_half) <= q * inject_Z t.
Proof.
  intros Hc Ht q. subst q.
  pose proof (of_int_pos t Ht) as HT.
  rewrite Zle_Qle in Hc. rewrite Zlt_Qlt in Ht.
  change (inject_Z 0) with 0 in Hc, Ht.
  destruct (rne_err_nonneg (inject_Z c) Hc) as [C1 _].
  destruct (rne_err_nonneg (inject_Z t) (Qlt_le_weak _ _ Ht)) as [_ T2].
  fold (of_int c) in C1. fold (of_int t) in T2.
  assert (HC : 0 <= of_int c) by (apply rne_sign; exact Hc).
  assert (HA0 : 0 <= of_int c * literal 100 1) by (rewrite hundred; lra).
  destruct (rne_err_nonneg _ HA0) as [A1 _].
  fold (fmul (of_int c) (literal 100 1)) in A1.
  assert (HA : 0 <= fmul (of_int c) (literal 100 1)) by (apply rne_sign; exact HA0).
  set (A := fmul (of_int c) (literal 100 1)) in *.
  rewrite hundred in A1.
  assert (HX0 : 0 <= A / of_int t).
  { apply Qle_shift_div_l; [exact HT|]. lra. }
  destruct (rne_err_nonneg _ HX0) as [X1 _].
  assert (Hq : 0 <= rne (A / of_int t)) by (apply rne_sign; exact HX0).
  assert (XT : A / of_int t * of_int t == A) by (field; lra).
  unfold ulp_half in *.
  set (C := of_int c) in *. set (T := of_int t) in *.
  set (X := A / T) in *. set (q := rne X) in *.
  set (zc := inject_Z c) in *. set (zt := inject_Z t) in *.
  clearbody q X A C T zc zt.
  assert (P1 : q * T <= q * (zt * (1 + (1 # 9007199254740992)))).
  { rewrite (Qmult_comm q), (Qmult_comm q (zt * _)).
    apply Qmult_le_compat_r; [exact T2 | exact Hq]. }
  assert (P2 : X * (1 - (1 # 9007199254740992)) * T <= q * T)
    by (apply Qmult_le_compat_r; lra).
  set (qt := q * zt) in *.
  setoid_replace (q * (zt * (1 + (1 # 9007199254740992))))
    with (qt * (1 + (1 # 9007199254740992))) in P1 by (unfold qt; ring).
  setoid_replace (X * (1 - (1 # 9007199254740992)) * T)
    with (X * T * (1 - (1 # 9007199254740992))) in P2 by ring.
  rewrite XT in P2. clearbody qt. set (qT := q * T) in *. clearbody qT.
  lra.
Qed.

(** A percentage falls short of the exact ratio by at most half a tenth and
    the rounding of the quotient. *)
Lemma pct_tenths_lower (c t : Z) :
  (0 <= c <= t)%Z -> (0 < t)%Z ->
  1000 * inject_Z c * (1 - 5 * ulp_half) - inject_Z t * (1 # 2) <=
  inject_Z t * inject_Z (tenths_of (pct_value c t)).
Proof.
  intros [Hc Hct] Ht.
  destruct (pct_tenths c t (conj Hc Hct) Ht) as (K & E & _). cbn zeta in K, E.
  pose proof (quotient_lower c t Hc Ht) as Q1. cbn zeta in Q1.
  set (q := rne (fmul (of_int c) (literal 100 1) / of_int t)) in *.
  assert (E2 : pct_value c t = of_tenths (tenths_of q)) by reflexivity.
  assert (K2 : tenths_of (pct_value c t) = tenths_of q).
  { rewrite E2 at 1. apply tenths_of_of_tenths.
    rewrite E2 in K. rewrite tenths_of_of_tenths in K.
    - lia.
    - destruct (quotient_upper c t Hc Ht) as [Q0 Q2]. fold q in Q0, Q2.
      assert (Hq : q <= 100 * (1 + 5 * ulp_half)).
      { rewrite Zle_Qle in Hct. rewrite Zlt_Qlt in Ht. rewrite Zle_Qle in Hc.
        change (inject_Z 0) with 0 in *. unfold ulp_half in *.
        apply (Qmult_le_r _ _ (inject_Z t) Ht).
        set (zc := inject_Z c) in *. set (zt := inject_Z t) in *.
        set (qt := q * zt) in *. clearbody qt zc zt. lra. }
      split.
      + apply (Z.le_trans _ 0); [lia|].
        rewrite <- (rhe_inject 0). apply rhe_mono. change (inject_Z 0) with 0. lra.
      + apply (Z.le_trans _ 1000); [|lia].
        assert (R : round_half_even (1000 + (1 # 4)) = 1000%Z)
          by (apply rhe_within; change (inject_Z 1000) with 1000; lra).
        rewrite <- R. apply rhe_mono. unfold ulp_half in Hq. lra. }
  rewrite K2.
  destruct (rhe_bounds (10 * q)) as [B1 _]. fold (tenths_of q) in B1.
  rewrite Zlt_Qlt in Ht. change (inject_Z 0) with 0 in Ht.
  assert (P : inject_Z t * (10 * q - (1 # 2)) <=
              inject_Z t * inject_Z (tenths_of q)).
  { rewrite !(Qmult_comm (inject_Z t)). apply Qmult_le_compat_r; lra. }
  unfold ulp_half in *.
  set (zk := inject_Z (tenths_of q)) in *. set (zt := inject_Z t) in *.
  set (zc := inject_Z c) in *.
  setoid_replace (zt * (10 * q - (1 # 2))) with (10 * (q * zt) - zt * (1 # 2))
    in P by ring.
  set (qt := q * zt) in *. set (tk := zt * zk) in *. clearbody qt tk zc zt. lra.
Qed.

Lemma bars_tenths_sum_lower (t : Z) (l : list (string * Z)) :
  (0 < t)%Z -> Forall (fun e => 0 <= snd e <= t)%Z l ->
  1000 * inject_Z (sum_values l) * (1 - 5 * ulp_half)
    - inject_Z (Z.of_nat (List.length l)) * (inject_Z t * (1 # 2)) <=
  inject_Z t * inject_Z (tenths_sum (map (bar_of t) l)).
Proof.
  intros Ht. induction 1 as [|e r He _ IH].
  - cbn. unfold Qle. simpl. lia.
  - change (tenths_sum (map (bar_of t) (e :: r)))
      with (tenths_of (pct_value (snd e) t) + tenths_sum (map (bar_of t) r))%Z.
    change (List.length (e :: r)) with (S (List.length r)).
    rewrite sum_values_cons, Nat2Z.inj_succ. unfold Z.succ.
    rewrite !inject_Z_plus. change (inject_Z 1) with 1.
    pose proof (pct_tenths_lower (snd e) t He Ht) as P.
    set (k := inject_Z (tenths_of (pct_value (snd e) t))) in *.
    set (K := inject_Z (tenths_sum (map (bar_of t) r))) in *.
    set (zt := inject_Z t) in *. set (zc := inject_Z (snd e)) in *.
    set (zs := inject_Z (sum_values r)) in *.
    set (zn := inject_Z (Z.of_nat (List.length r))) in *.
    setoid_replace (zt * (k + K)) with (zt * k + zt * K) by ring.
    set (tk := zt * k) in *. set (tK := zt * K) in *.
    setoid_replace ((zn + 1) * (zt * (1 # 2))) with (zn * (zt * (1 # 2)) + zt * (1 # 2))
      by ring.
    set (nt := zn * (zt * (1 # 2))) in *.
    unfold ulp_half in *. clearbody tk tK nt zt zc zs. lra.
Qed.

(** With at most four labels, the bars, as one-decimal numbers, fall short
    of 100 by at most half a tenth each. *)
Lemma all_bars_sum_lower (m : dict string Z) :
  counts_nonneg m -> (List.length m <= 4)%nat -> (0 < sum_values m)%Z ->
  (2000 - Z.of_nat (List.length (top_bars m)) <= 2 * tenths_sum (top_bars m))%Z.
Proof.
  intros H L4 S0. destruct (total_of_pos m H) as [Ht Hs].
  set (top := firstn 4 (sorted_desc m)).
  assert (F : Forall (fun e => 0 <= snd e <= total_of m)%Z top).
  { apply Forall_forall. intros e He. apply (top_counts m e H He). }
  pose proof (bars_tenths_sum_lower (total_of m) top ltac:(lia) F) as B.
  change (map (bar_of (total_of m)) top) with (top_bars m) in B.
  assert (S : sum_values top = total_of m).
  { unfold top. rewrite firstn_all2 by (rewrite sorted_desc_length; exact L4).
    rewrite <- (sum_values_perm _ _ _ (sorted_desc_perm _ m)).
    destruct (total_of_cases m) as [[_ E]|[E _]]; [symmetry; exact E | lia]. }
  assert (L : List.length (top_bars m) = List.length top)
    by (unfold top_bars; apply length_map).
  rewrite L. rewrite S in B.
  assert (G : (2000 - Z.of_nat (List.length top) - 1 < 2 * tenths_sum (top_bars m))%Z);
    [|lia].
  rewrite Zlt_Qlt. unfold Z.sub.
  rewrite !inject_Z_plus, inject_Z_mult, !inject_Z_opp.
  change (inject_Z 2) with 2. change (inject_Z 2000) with 2000.
  change (inject_Z 1) with 1.
  rewrite Zle_Qle in Ht. change (inject_Z 1) with 1 in Ht.
  set (K := inject_Z (tenths_sum (top_bars m))) in *.
  set (zt := inject_Z (total_of m)) in *.
  set (zn := inject_Z (Z.of_nat (List.length top))) in *.
  apply (Qmult_lt_l _ _ zt); [lra|].
  setoid_replace (zt * (2 * K)) with (2 * (zt * K)) by ring.
  setoid_replace (zt * (2000 + - zn + - (1)))
    with (2000 * zt - 2 * (zn * (zt * (1 # 2))) - zt) by ring.
  set (tK := zt * K) in *. set (nt := zn * (zt * (1 # 2))) in *.
  unfold ulp_half in *. clearbody tK nt zt. lra.
Qed.

Lemma decimal_bar_range (b : bucket) : decimal_bar b -> 0 <= pct b <= 100.
Proof.
  intros [E [K1 K2]]. rewrite E. split.
  - apply (Qle_trans _ (of_tenths 0)); [|apply of_tenths_mono; exact K1].
    apply Qle_bool_iff. reflexivity.
  - apply (Qle_trans _ (of_tenths 1000)); [apply of_tenths_mono; exact K2|].
    apply Qle_bool_iff. reflexivity.
Qed.
(** X8.  For a mapping of counts that are not all zero: every bar has a
    percentage between 0.0 and 100.0; the percentages, read as one-decimal
    numbers, add up to at least 100.0 less 0.05 per bar, and to exactly
    100.0 when there are five bars, that is with an [Others] bar; a mapping
    with a single label gives one bar of 100.0. *)
Theorem bars_sum_from_below (m : dict string Z) :
  counts_nonneg m -> (0 < sum_values m)%Z ->
  exists items,
    top_four_plus_others m = Ok items /\
    Forall (fun b => 0 <= pct b <= 100) items /\
    (2000 - Z.of_nat (List.length items) <= 2 * tenths_sum items)%Z /\
    (List.length items = 5%nat -> tenths_sum items = 1000%Z) /\
    (List.length m = 1%nat ->
     map bucket_label items = map fst m /\
     Forall (fun b => pct b = literal 100 1) items).
Proof.
  intros H S0. rewrite (top_four_plus_others_value m H).
  pose proof (Bars.top_bars_decimal m H) as D.
  pose proof (top_bars_sum_tight m H) as U.
  assert (L : List.length (top_bars m) = Nat.min 4 (List.length m)).
  { unfold top_bars. rewrite length_map, length_firstn, sorted_desc_length.
    reflexivity. }
  destruct ((4 <? List.length m)%nat && (0 <? remainder m)%Z) eqn:C.
  - apply andb_true_iff in C. destruct C as [C1 C2].
    apply Nat.ltb_lt in C1. apply Z.ltb_lt in C2.
    destruct (Bars.others_bar_decimal m H C2) as [DO TO].
    eexists. split; [reflexivity|].
    assert (T : tenths_sum (top_bars m ++ [others_bar m]) = 1000%Z).
    { rewrite Bars.tenths_sum_app.
      change (tenths_sum [others_bar m])
        with (tenths_of (pct (others_bar m)) + 0)%Z.
      rewrite TO. unfold remainder. lia. }
    split; [|split; [|split]].
    + apply Forall_app. split.
      * revert D. apply Forall_impl. exact decimal_bar_range.
      * constructor; [apply decimal_bar_range; exact DO | constructor].
    + rewrite T, length_app, L. cbn [List.length]. lia.
    + intros _. exact T.
    + intros E. lia.
  - rewrite app_nil_r. eexists. split; [reflexivity|].
    split; [|split; [|split]].
    + revert D. apply Forall_impl. exact decimal_bar_range.
    + destruct (Nat.leb_spec (List.length m) 4) as [L4|L4].
      * apply all_bars_sum_lower; assumption.
      * apply andb_false_iff in C. destruct C as [C|C].
        { apply Nat.ltb_ge in C. lia. }
        apply Z.ltb_ge in C. unfold remainder in C. lia.
    + intros E. lia.
    + intros E. destruct m as [|[a c] [|? ?]]; try discriminate E.
      pose proof (all_bars_sum_lower _ H ltac:(cbn; lia) S0) as Lo.
      change (top_bars [(a, c)]) with [bar_of (total_of [(a, c)]) (a, c)] in *.
      split; [reflexivity|].
      inversion D as [|b r [Db _] _]; subst. constructor; [|constructor].
      change (tenths_sum [bar_of (total_of [(a, c)]) (a, c)])
        with (tenths_of (pct (bar_of (total_of [(a, c)]) (a, c))) + 0)%Z in *.
      cbn [List.length] in Lo, U.
      assert (K : tenths_of (pct (bar_of (total_of [(a, c)]) (a, c))) = 1000%Z)
        by lia.
      rewrite Db, K. apply rne_ext. reflexivity.
Qed.

Lemma bars_sum_from_below_witness :
  counts_nonneg Examples.teacher_counts_5 /\
  (0 < sum_values Examples.teacher_counts_5)%Z /\
  exists items,
    top_four_plus_others Examples.teacher_counts_5 = Ok items /\
    Forall (fun b => 0 <= pct b <= 100) items /\
    (2000 - Z.of_nat (List.length items) <= 2 * tenths_sum items)%Z /\
    (List.length items = 5%nat -> tenths_sum items = 1000%Z) /\
    (List.length Examples.teacher_counts_5 = 1%nat ->
     map bucket_label items = map fst Examples.teacher_counts_5 /\
     Forall (fun b => pct b = literal 100 1) items).
Proof.
  assert (H : counts_nonneg Examples.teacher_counts_5)
    by (repeat constructor; cbn; lia).
  assert (S : (0 < sum_values Examples.teacher_counts_5)%Z) by reflexivity.
  split; [exact H|]. split; [exact S|].
  exact (bars_sum_from_below Examples.teacher_counts_5 H S).
Defined.
End BarsBelow.

(* ================================================================== *)
(** * Moderation: approving, hiding and deleting a note *)

Module Moderation.
Import Py PyFacts App Site Notions.
Local Open Scope Z_scope.
Local Open Scope list_scope.

Lemma set_status_same (n : Note) : set_status (status n) n = n.
Proof. destruct n. reflexivity. Qed.

Lemma admin_note_action_map (nid : Z) (action : string) (d : db) :
  admin_note_action true nid action d =
  with_notes d
    (map (fun n => if id n =? nid then set_status (status_after action n) n else n)
       (notes d)).
Proof. reflexivity. Qed.

Lemma with_notes_same (d : db) : with_notes d (notes d) = d.
Proof. destruct d. reflexivity. Qed.

Lemma map_same {A : Type} (f : A -> A) (l : list A) :
  (forall x, In x l -> f x = x) -> map f l = l.
Proof.
  induction l as [|x r IH]; intros H; cbn [map]; [reflexivity|].
  rewrite (H x (or_introl eq_refl)), IH; [reflexivity|].
  intros y Hy. apply H. right. exact Hy.
Qed.

Lemma get_note_map (f : Note -> Note) (ns : list Note) (k : Z) (d : db) :
  (forall n, id (f n) = id n) ->
  get_note (with_notes d (map f ns)) k = option_map f (get_note (with_notes d ns) k).
Proof.
  intros H. unfold get_note. cbn [notes with_notes].
  induction ns as [|n r IH]; cbn [map find]; [reflexivity|].
  rewrite H. destruct (id n =? k); [reflexivity | exact IH].
Qed.

Lemma get_note_id (d : db) (k : Z) (n : Note) : get_note d k = Some n -> id n = k.
Proof.
  unfold get_note. intros H. apply find_some in H. destruct H as [_ H].
  apply Z.eqb_eq. exact H.
Qed.

(** X9.  What [admin_note_action] does to the database.  Without the
    administrator's session it does nothing; with it, an action other than
    approve, hide and unhide, or the id of no note, changes nothing either.
    An action never adds, removes or reorders notes and touches no other
    table; it changes only notes of the given id, and only their status:
    approved after approve and unhide, hidden after hide.  Unhide is
    approve; hiding is undone by unhiding; a later action overrides an
    earlier one.  An approved note shows among the approved notes, a hidden
    one does not. *)
Theorem note_action_effect (d : db) (nid : Z) :
  (forall action, admin_note_action false nid action d = d) /\
  (forall action,
     action <> "approve" -> action <> "hide" -> action <> "unhide" ->
     admin_note_action true nid action d = d) /\
  (get_note d nid = None ->
   forall action, admin_note_action true nid action d = d) /\
  (forall action,
     let d' := admin_note_action true nid action d in
     same_tables d d' /\
     map id (notes d') = map id (notes d) /\
     (forall k, k <> nid -> get_note d' k = get_note d k) /\
     get_note d' nid =
       option_map (fun n => set_status (status_after action n) n) (get_note d nid)) /\
  (admin_note_action true nid "unhide" d = admin_note_action true nid "approve" d /\
   admin_note_action true nid "unhide" (admin_note_action true nid "hide" d)
     = admin_note_action true nid "approve" d /\
   admin_note_action true nid "hide" (admin_note_action true nid "approve" d)
     = admin_note_action true nid "hide" d) /\
  (forall n, In n (notes d) -> id n = nid ->
             In (set_status "approved" n)
                (approved_notes (admin_note_action true nid "approve" d))) /\
  (forall n, In n (approved_notes (admin_note_action true nid "hide" d)) ->
             id n <> nid).
Proof.
  split; [reflexivity|].
  split.
  { intros action A B C. rewrite admin_note_action_map.
    rewrite map_same; [apply with_notes_same|].
    intros n _. unfold status_after.
    apply String.eqb_neq in A, B, C. rewrite A, B, C, set_status_same.
    destruct (id n =? nid); reflexivity. }
  split.
  { intros G action. rewrite admin_note_action_map.
    rewrite map_same; [apply with_notes_same|].
    intros n Hn. destruct (id n =? nid) eqn:E; [|reflexivity].
    exfalso. unfold get_note in G. apply (find_none _ _ G) in Hn.
    cbn beta in Hn. congruence. }
  split.
  { intros action d'. subst d'. rewrite admin_note_action_map.
    split; [repeat split|]. split; [|split].
    - cbn [notes with_notes]. rewrite map_map. apply map_ext.
      intros n. destruct (id n =? nid); reflexivity.
    - intros k Hk. rewrite get_note_map by (intros n; destruct (id n =? nid); reflexivity).
      rewrite with_notes_same. destruct (get_note d k) as [n|] eqn:G; [|reflexivity].
      cbn [option_map]. apply get_note_id in G.
      destruct (Z.eqb_spec (id n) nid); [congruence | reflexivity].
    - rewrite get_note_map by (intros n; destruct (id n =? nid); reflexivity).
      rewrite with_notes_same. destruct (get_note d nid) as [n|] eqn:G; [|reflexivity].
      cbn [option_map]. apply get_note_id in G. rewrite G, Z.eqb_refl. reflexivity. }
  split.
  { split; [reflexivity|]. split.
    - rewrite !admin_note_action_map. cbn [notes with_notes]. rewrite map_map.
      unfold with_notes. f_equal. apply map_ext. intros n.
      destruct (id n =? nid) eqn:E; [|rewrite E; reflexivity].
      change (id (set_status (status_after "hide" n) n)) with (id n).
      rewrite E. reflexivity.
    - rewrite !admin_note_action_map. cbn [notes with_notes]. rewrite map_map.
      unfold with_notes. f_equal. apply map_ext. intros n.
      destruct (id n =? nid) eqn:E; [|rewrite E; reflexivity].
      change (id (set_status (status_after "approve" n) n)) with (id n).
      rewrite E. reflexivity. }
  split.
  { intros n Hn E. rewrite admin_note_action_map. unfold approved_notes.
    cbn [notes with_notes]. apply filter_In. split; [|reflexivity].
    apply in_map_iff. exists n. split; [|exact Hn].
    apply Z.eqb_eq in E. rewrite E. reflexivity. }
  intros n Hn E. rewrite admin_note_action_map in Hn. unfold approved_notes in Hn.
  cbn [notes with_notes] in Hn. apply filter_In in Hn. destruct Hn as [Hn A].
  apply in_map_iff in Hn. destruct Hn as (m & <- & _).
  destruct (id m =? nid) eqn:F; [discriminate A|].
  apply Z.eqb_neq in F. exact (F E).
Qed.

Lemma filter_all_true {A : Type} (p : A -> bool) (l : list A) :
  (forall x, In x l -> p x = true) -> filter p l = l.
Proof.
  induction l as [|x r IH]; intros H; cbn [filter]; [reflexivity|].
  rewrite (H x (or_introl eq_refl)), IH; [reflexivity|].
  intros y Hy. apply H. right. exact Hy.
Qed.

Lemma pages_same (d d' : db) :
  same_tables d d' -> approved_notes d = approved_notes d' ->
  wall d' = wall d /\ leaders d' = leaders d /\
  (forall c, compute_leaders c d' = compute_leaders c d) /\
  (forall category rank,
     certificate d' category rank = certificate d category rank).
Proof.
  intros T A. pose proof (Approved.approved_only_eq d d' T A) as E.
  split; [|split; [|split]].
  - rewrite <- (Approved.wall_approved d'), <- E. apply Approved.wall_approved.
  - rewrite <- (Approved.leaders_approved d'), <- E. apply Approved.leaders_approved.
  - intros c. rewrite <- (Approved.compute_leaders_approved c d'), <- E.
    apply Approved.compute_leaders_approved.
  - intros category rank. rewrite <- (Approved.certificate_approved d'), <- E.
    apply Approved.certificate_approved.
Qed.

(** X10.  What [admin_delete] does to the database.  Without the
    administrator's session it does nothing.  With it, the notes of the
    given id are removed and nothing else changes: the other notes stay, in
    their order, and the other tables stay; deleting again, or deleting an id
    of no note, changes nothing.  The deleted note is never listed on the
    wall afterwards, and deleting a note that is not approved leaves the
    wall, the leaders page, the leaders of the home page and the
    certificates as they were. *)
Theorem admin_delete_effect (d : db) (nid : Z) :
  fst (admin_delete false nid d) = d /\
  let d' := fst (admin_delete true nid d) in
  same_tables d d' /\
  get_note d' nid = None /\
  (forall k, k <> nid -> get_note d' k = get_note d k) /\
  (exists before after,
     notes d = before ++ after /\
     notes d' = filter (fun n => negb (id n =? nid)) before ++ after /\
     Forall (fun n => id n <> nid) after /\
     (get_note d nid = None -> before = [])) /\
  (get_note d nid = None -> d' = d) /\
  fst (admin_delete true nid d') = d' /\
  (forall listed b n, wall d' = Ok (listed, b) -> In n listed -> id n <> nid) /\
  ((forall n, In n (notes d) -> id n = nid -> status n <> "approved") ->
   wall d' = wall d /\ leaders d' = leaders d /\
   (forall c, compute_leaders c d' = compute_leaders c d) /\
   (forall category rank,
      certificate d' category rank = certificate d category rank)).
Proof.
  split; [reflexivity|]. cbn zeta.
  assert (E : notes (fst (admin_delete true nid d)) =
              filter (fun n => negb (id n =? nid)) (notes d)).
  { unfold admin_delete. destruct (get_note d nid) eqn:G; cbn [fst notes with_notes].
    - reflexivity.
    - symmetry. apply filter_all_true. intros n Hn. unfold get_note in G.
      apply (find_none _ _ G) in Hn. cbn beta in Hn. rewrite Hn. reflexivity. }
  assert (T : same_tables d (fst (admin_delete true nid d))).
  { unfold admin_delete. destruct (get_note d nid); repeat split. }
  assert (N : get_note d nid = None -> fst (admin_delete true nid d) = d).
  { intros G. unfold admin_delete. rewrite G. reflexivity. }
  assert (G' : get_note (fst (admin_delete true nid d)) nid = None).
  { unfold get_note. rewrite E.
    destruct (find _ (filter _ _)) as [n|] eqn:F; [|reflexivity].
    apply find_some in F. destruct F as [F1 F2]. apply filter_In in F1.
    destruct F1 as [_ F1]. rewrite F2 in F1. discriminate F1. }
  split; [exact T|]. split; [exact G'|]. split; [|split; [|split; [|split; [|split]]]].
  - intros k Hk. unfold get_note. rewrite E. clear E T N G'.
    induction (notes d) as [|n r IH]; cbn [filter find]; [reflexivity|].
    destruct (Z.eqb_spec (id n) nid) as [I|I]; cbn [negb find].
    + destruct (Z.eqb_spec (id n) k); [congruence | exact IH].
    + destruct (id n =? k); [reflexivity | exact IH].
  - rewrite E. destruct (get_note d nid) eqn:G.
    + exists (notes d), []. rewrite !app_nil_r.
      split; [reflexivity|]. split; [reflexivity|]. split; [constructor|].
      discriminate.
    + exists [], (notes d). cbn [app filter]. split; [reflexivity|].
      assert (F : forall n, In n (notes d) -> negb (id n =? nid) = true).
      { intros n Hn. unfold get_note in G. apply (find_none _ _ G) in Hn.
        cbn beta in Hn. rewrite Hn. reflexivity. }
      split; [apply filter_all_true; exact F|]. split; [|reflexivity].
      apply Forall_forall. intros n Hn. specialize (F n Hn).
      apply negb_true_iff, Z.eqb_neq in F. exact F.
  - exact N.
  - unfold admin_delete at 1. rewrite G'. reflexivity.
  - intros listed b n W Hn. unfold wall in W.
    remember (firstn 200 (newest_first (approved_notes (fst (admin_delete true nid d)))))
      as l0 eqn:L0.
    destruct (bars_of _) as [b'|e]; [|discriminate W].
    cbn [bind] in W. injection W as <- _. rewrite L0 in Hn.
    apply BarsFacts.In_firstn, Approved.newest_first_in in Hn.
    unfold approved_notes in Hn. apply filter_In in Hn. destruct Hn as [Hn _].
    rewrite E in Hn. apply filter_In in Hn. destruct Hn as [_ Hn].
    apply negb_true_iff, Z.eqb_neq in Hn. exact Hn.
  - intros H. apply pages_same; [exact T|].
    unfold approved_notes. rewrite E, Approved.filter_filter.
    apply filter_ext_in. intros n Hn.
    destruct (is_approved n) eqn:A; [|symmetry; apply andb_false_r].
    destruct (Z.eqb_spec (id n) nid) as [I|I]; [|reflexivity].
    exfalso. apply (H n Hn I). apply String.eqb_eq. exact A.
Qed.
End Moderation.

(* ================================================================== *)
(** * What the three forms store *)

Module Stored.
Import Py PyFacts App Site Notions.
Local Open Scope Z_scope.
Local Open Scope list_scope.

Lemma next_id_above (ns : list Note) (n : Note) : In n ns -> id n < next_id ns.
Proof.
  unfold next_id. intros H.
  assert (G : forall l a, (a <= fold_left (fun m x => Z.max m (id x)) l a) /\
                          (In n l -> id n <= fold_left (fun m x => Z.max m (id x)) l a)).
  { induction l as [|y r IH]; intros a; cbn [fold_left In].
    - split; [lia | tauto].
    - destruct (IH (Z.max a (id y))) as [I1 I2]. split; [lia|].
      intros [->|Hx]; [lia | auto]. }
  destruct (G ns 0) as [_ G2]. specialize (G2 H). lia.
Qed.

Lemma next_id_fresh (ns : list Note) : ~ In (next_id ns) (map id ns).
Proof.
  intros H. apply in_map_iff in H. destruct H as (n & E & Hn).
  apply next_id_above in Hn. lia.
Qed.

Lemma int_raises (s : string) (e : pyerror) : Py.int s = Raise e -> e = ValueError.
Proof.
  unfold Py.int.
  destruct (match int_rstrip (int_lstrip s) with
            | EmptyString => _
            | String _ _ => _
            end) as [z|].
  - destruct (_ <? _); [|discriminate]. intros E. injection E as <-. reflexivity.
  - intros E. injection E as <-. reflexivity.
Qed.

(** The commit stores the note or raises [OverflowError], by the ids of the
    note. *)
Lemma insert_note_fits (d d' : db) (n : Note) :
  insert_note d n = Ok d' ->
  column_fits (giver_section_id n) && column_fits (receiver_section_id n)
  && column_fits (receiver_teacher_id n) && column_fits (receiver_staff_id n)
  = true.
Proof. unfold insert_note. destruct (_ && _); [reflexivity | discriminate]. Qed.

Lemma insert_note_raises (d : db) (n : Note) (e : pyerror) :
  insert_note d n = Raise e ->
  e = OverflowError /\
  column_fits (giver_section_id n) && column_fits (receiver_section_id n)
  && column_fits (receiver_teacher_id n) && column_fits (receiver_staff_id n)
  = false.
Proof.
  unfold insert_note. destruct (_ && _); [discriminate|].
  intros E. injection E as <-. split; reflexivity.
Qed.

Lemma int_or_none_raises (x : option string) (e : pyerror) :
  int_or_none x = Raise e -> e = ValueError.
Proof.
  destruct x as [s|]; cbn [int_or_none]; [|discriminate].
  destruct (Py.int s) eqn:E; cbn [bind]; [discriminate|].
  intros [= <-]. exact (int_raises s _ E).
Qed.

Lemma int_or_none_some (x : option string) (g : option Z) :
  truthy_str x = true -> int_or_none x = Ok g -> g <> None.
Proof.
  destruct x as [s|]; cbn [truthy_str int_or_none]; [|discriminate].
  intros _. destruct (Py.int s); cbn [bind]; [|discriminate].
  intros [= <-]. discriminate.
Qed.

(** The giver columns of a stored note. *)
Lemma giver_fields (gt gname : string) (gsec : option string) (g : option Z) :
  String.eqb gt "teacher" && String.eqb gname "" = false ->
  String.eqb gt "student" && negb (truthy_str gsec) = false ->
  int_or_none gsec = Ok g ->
  let shown := if String.eqb gt "student" && String.eqb gname ""
               then "Anonymous" else gname in
  (gt = "student" -> g <> None /\ named (Some shown)) /\
  (gt = "teacher" -> named (Some shown)).
Proof.
  intros H1 H2 Hg shown. subst shown. split; intros ->;
    cbn [String.eqb Ascii.eqb Bool.eqb andb] in *.
  - apply negb_false_iff in H2. split; [exact (int_or_none_some _ _ H2 Hg)|].
    destruct (String.eqb gname "") eqn:E.
    + exists "Anonymous". split; [reflexivity | discriminate].
    + exists gname. split; [reflexivity|]. apply String.eqb_neq. exact E.
  - exists gname. split; [reflexivity|]. apply String.eqb_neq. exact H1.
Qed.

Lemma weight_of_cases (gt : string) (gsec rsec : option string) :
  (weight_of gt gsec rsec = 1 \/ weight_of gt gsec rsec = 2) /\
  (weight_of gt gsec rsec = 2 -> gt = "student" /\ truthy_str gsec = true).
Proof.
  unfold weight_of.
  destruct (String.eqb gt "student") eqn:E; cbn [andb];
    [destruct (truthy_str gsec) eqn:T; [destruct (negb _)|]|];
    (split; [auto | try discriminate]).
  apply String.eqb_eq in E. intros _. split; [exact E | reflexivity].
Qed.

Ltac cases H :=
  repeat match type of H with
    | context [if ?b then _ else _] => destruct b eqn:?
    | context [bind ?c _] => destruct c eqn:?; cbn [bind] in H
    end.

Lemma not_thanks_error (ep msg : string) : flash_error ep msg <> thanks.
Proof. unfold flash_error, thanks. intros H. inversion H. Qed.

(** The facts about the fields of an accepted form. *)
Ltac accepted :=
  match goal with
  | H1 : String.eqb _ "teacher" && _ = false,
    H2 : String.eqb _ "student" && negb _ = false,
    H3 : _ || _ = false,
    Hc : String.eqb _ "student" && String.eqb _ "" = _,
    Hg : int_or_none _ = Ok ?g |- _ =>
      let G1 := fresh "G1" in
      let G2 := fresh "G2" in
      let R1 := fresh "R1" in
      let R2 := fresh "R2" in
      pose proof (giver_fields _ _ _ _ H1 H2 Hg) as [G1 G2];
      cbn zeta in G1, G2; rewrite Hc in G1, G2;
      apply orb_false_iff in H3; destruct H3 as [R1 R2]
  end.

Ltac refused :=
  left; split; [reflexivity | first [apply not_thanks_error | discriminate]].

Ltac committed :=
  match goal with
  | X : insert_note _ _ = Ok _ |- _ =>
      apply Submissions.insert_note_stored in X; subst
  end.

Ltac thanked :=
  right; split; [reflexivity|]; split; [apply String.eqb_eq; assumption|];
  eexists; split; [reflexivity|];
  split; [reflexivity|]; split; [reflexivity|];
  split;
    [|split; [reflexivity|]; split; [apply next_id_fresh|];
      split; [reflexivity|]; split; reflexivity].

Lemma post_student_submitted (t : Z) (rq : request) (d d' : db) (resp : response) :
  post_student t rq d = Ok (d', resp) -> submitted "student" t rq d d' resp.
Proof.
  unfold post_student. intros H. cases H; try discriminate H;
    injection H as <- <-; try refused.
  all: committed; accepted; thanked.
  all: destruct (weight_of_cases (field_giver_type (form rq))
                   (field_or_none (form rq) "giver_section_id")
                   (form_get (form rq) "receiver_section_id")) as [W1 W2].
  all: unfold sound_note;
    cbn [status message receiver_student_id weight_applied giver_type
           giver_section_id giver_name receiver_type].
  all: split; [left; reflexivity|].
  all: split; [apply String.eqb_neq; assumption|].
  all: split; [reflexivity|].
  all: split;
    [left; cbn [receiver_type receiver_name_text receiver_section_id
                  receiver_teacher_id receiver_staff_id];
     split; [reflexivity|]; split;
     [eexists; split; [reflexivity | apply String.eqb_neq; exact R1]|];
     split; [discriminate|]; split; reflexivity|].
  all: split; [destruct W1 as [-> | ->]; auto|].
  all: split;
    [intros [= W]; apply W2 in W; destruct W as [W W'];
     split; [exact W|]; split; [reflexivity|]; apply (G1 W)|].
  all: split; [exact G1|]. all: split; [exact G2 | discriminate].
Qed.

Lemma post_teacher_submitted (t : Z) (rq : request) (d d' : db) (resp : response) :
  post_teacher t rq d = Ok (d', resp) -> submitted "teacher" t rq d d' resp.
Proof.
  unfold post_teacher. intros H. cases H; try discriminate H;
    injection H as <- <-; try refused.
  all: committed; accepted; thanked.
  all: unfold sound_note;
    cbn [status message receiver_student_id weight_applied giver_type
           giver_section_id giver_name receiver_type].
  all: split; [left; reflexivity|].
  all: split; [apply String.eqb_neq; assumption|].
  all: split; [reflexivity|].
  all: split;
    [right; left; cbn [receiver_type receiver_name_text receiver_section_id
                         receiver_teacher_id receiver_staff_id];
     split; [reflexivity|]; split; [discriminate|]; repeat split|].
  all: split; [left; reflexivity|]. all: split; [discriminate|].
  all: split; [exact G1|]. all: split; [exact G2 | discriminate].
Qed.

Lemma post_staff_submitted (t : Z) (rq : request) (d d' : db) (resp : response) :
  post_staff t rq d = Ok (d', resp) -> submitted "staff" t rq d d' resp.
Proof.
  unfold post_staff. intros H. cases H; try discriminate H;
    injection H as <- <-; try refused.
  all: committed; accepted; thanked.
  all: unfold sound_note;
    cbn [status message receiver_student_id weight_applied giver_type
           giver_section_id giver_name receiver_type].
  all: split; [left; reflexivity|].
  all: split; [apply String.eqb_neq; assumption|].
  all: split; [reflexivity|].
  all: split;
    [right; right; cbn [receiver_type receiver_name_text receiver_section_id
                          receiver_teacher_id receiver_staff_id];
     split; [reflexivity|]; split; [discriminate|]; repeat split|].
  all: split; [left; reflexivity|]. all: split; [discriminate|].
  all: split; [exact G1|]. all: split; [exact G2 | discriminate].
Qed.
(** X11.  What the forms of [post_student], [post_teacher] and [post_staff]
    store.  A request that is answered either stores nothing and is not
    thanked, or is a POST, is thanked and stores exactly one note, at the
    end of the table and under a key that no note has.  The stored note is
    pending, was created at the time of the request, has the receiver type
    of the form and the giver type submitted; its message is the submitted
    one without surrounding whitespace and is not empty; its receiver
    columns are those of its receiver type and no other; it never links a
    student row; its weight is 1 or 2, and 2 only between students; a
    student giver has a section and a name ("Anonymous" if none was given),
    a teacher giver has a name. *)
Theorem submissions_stored (t : Z) (rq : request) (d d' : db) (resp : response) :
  (post_student t rq d = Ok (d', resp) -> submitted "student" t rq d d' resp) /\
  (post_teacher t rq d = Ok (d', resp) -> submitted "teacher" t rq d d' resp) /\
  (post_staff t rq d = Ok (d', resp) -> submitted "staff" t rq d d' resp).
Proof.
  split; [apply post_student_submitted|].
  split; [apply post_teacher_submitted | apply post_staff_submitted].
Qed.

(** The ids of the note that a handler builds, against [ids_fit]. *)
Ltac ids_of_note X :=
  cbn [giver_section_id receiver_section_id receiver_teacher_id
         receiver_staff_id column_fits] in X;
  rewrite ?andb_true_r in X.

Ltac failed :=
  match goal with
  | M : String.eqb (method _) "POST" = true |- fails_on _ _ ?e =>
      apply String.eqb_eq in M; unfold fails_on, ids_fit, giver_id, receiver_id;
      split; [exact M|];
      match goal with
      | X : int_or_none _ = Raise e |- _ =>
          pose proof (int_or_none_raises _ _ X); subst e; rewrite X;
          split; [reflexivity|]; left; split; [reflexivity|]; left; reflexivity
      | G : int_or_none _ = Ok _, X : Py.int _ = Raise e |- _ =>
          pose proof (int_raises _ _ X); subst e; rewrite G, X;
          split; [reflexivity|]; left; split; [reflexivity|]; right; reflexivity
      | G : int_or_none _ = Ok _, R : Py.int _ = Ok _,
        X : insert_note _ _ = Raise e |- _ =>
          apply insert_note_raises in X; destruct X as [-> X]; ids_of_note X;
          rewrite G, R; split; [exact X|]; right; split; [reflexivity|];
          eexists; eexists; split; reflexivity
      end
  end.

Lemma post_student_fails (t : Z) (rq : request) (d : db) (e : pyerror) :
  post_student t rq d = Raise e -> fails_on "receiver_section_id" rq e.
Proof.
  unfold post_student. intros H. cases H; try discriminate H;
    injection H as <-; failed.
Qed.

Lemma post_teacher_fails (t : Z) (rq : request) (d : db) (e : pyerror) :
  post_teacher t rq d = Raise e -> fails_on "teacher_id" rq e.
Proof.
  unfold post_teacher. intros H. cases H; try discriminate H;
    injection H as <-; failed.
Qed.

Lemma post_staff_fails (t : Z) (rq : request) (d : db) (e : pyerror) :
  post_staff t rq d = Raise e -> fails_on "staff_id" rq e.
Proof.
  unfold post_staff. intros H. cases H; try discriminate H;
    injection H as <-; failed.
Qed.

(** A form of which the ids do not fit stores nothing. *)
Ltac not_stored :=
  match goal with
  | B : ids_fit _ _ = false, G : int_or_none _ = Ok _, R : Py.int _ = Ok _,
    X : insert_note _ _ = Ok _ |- _ =>
      apply insert_note_fits in X; ids_of_note X;
      unfold ids_fit, giver_id, receiver_id in B; rewrite G, R, X in B;
      discriminate B
  end.

Lemma post_student_rejects (t : Z) (rq : request) (d d' : db) (resp : response) :
  ids_fit "receiver_section_id" rq = false ->
  post_student t rq d = Ok (d', resp) -> d' = d /\ resp <> thanks.
Proof.
  intros B H. unfold post_student in H. cases H; try discriminate H;
    injection H as <- <-;
    try (split; [reflexivity | first [apply not_thanks_error | discriminate]]);
    not_stored.
Qed.

Lemma post_teacher_rejects (t : Z) (rq : request) (d d' : db) (resp : response) :
  ids_fit "teacher_id" rq = false ->
  post_teacher t rq d = Ok (d', resp) -> d' = d /\ resp <> thanks.
Proof.
  intros B H. unfold post_teacher in H. cases H; try discriminate H;
    injection H as <- <-;
    try (split; [reflexivity | first [apply not_thanks_error | discriminate]]);
    not_stored.
Qed.

Lemma post_staff_rejects (t : Z) (rq : request) (d d' : db) (resp : response) :
  ids_fit "staff_id" rq = false ->
  post_staff t rq d = Ok (d', resp) -> d' = d /\ resp <> thanks.
Proof.
  intros B H. unfold post_staff in H. cases H; try discriminate H;
    injection H as <- <-;
    try (split; [reflexivity | first [apply not_thanks_error | discriminate]]);
    not_stored.
Qed.

(** X12.  How the three forms fail, on a form of ASCII text.  A handler
    raises nothing but the [ValueError] of [int] and the [OverflowError] of
    the commit, and only on a POST: a [ValueError] when the giver's section
    or the receiver's id (section, teacher or staff member) is not written
    as an integer, an [OverflowError] when both are but do not both fit the
    64 bits of their columns.  A form of which the two ids are not integers
    that fit never stores a note: it is refused with a message or it fails.
    A request that is not a POST shows the form and stores nothing. *)
Theorem submissions_fail (t : Z) (rq : request) (d : db) :
  ascii_form (form rq) = true ->
  (forall e, post_student t rq d = Raise e -> fails_on "receiver_section_id" rq e) /\
  (forall e, post_teacher t rq d = Raise e -> fails_on "teacher_id" rq e) /\
  (forall e, post_staff t rq d = Raise e -> fails_on "staff_id" rq e) /\
  (ids_fit "receiver_section_id" rq = false ->
   forall d' resp,
     post_student t rq d = Ok (d', resp) -> d' = d /\ resp <> thanks) /\
  (ids_fit "teacher_id" rq = false ->
   forall d' resp,
     post_teacher t rq d = Ok (d', resp) -> d' = d /\ resp <> thanks) /\
  (ids_fit "staff_id" rq = false ->
   forall d' resp,
     post_staff t rq d = Ok (d', resp) -> d' = d /\ resp <> thanks) /\
  (method rq <> "POST" ->
   post_student t rq d = Ok (d, Render "post_student.html") /\
   post_teacher t rq d = Ok (d, Render "post_teacher.html") /\
   post_staff t rq d = Ok (d, Render "post_staff.html")).
Proof.
  intros _.
  split; [intros e; apply post_student_fails|].
  split; [intros e; apply post_teacher_fails|].
  split; [intros e; apply post_staff_fails|].
  split; [intros B d' resp; apply post_student_rejects; exact B|].
  split; [intros B d' resp; apply post_teacher_rejects; exact B|].
  split; [intros B d' resp; apply post_staff_rejects; exact B|].
  intros M. apply String.eqb_neq in M.
  unfold post_student, post_teacher, post_staff. rewrite M. repeat split.
Qed.

Lemma submissions_fail_witness :
  (ascii_form (form Scenarios.form_section_in_words) = true /\
   post_student Examples.t0 Scenarios.form_section_in_words seed_db
     = Raise ValueError /\
   fails_on "receiver_section_id" Scenarios.form_section_in_words ValueError) /\
  (ascii_form (form Scenarios.form_section_too_large) = true /\
   post_student Examples.t0 Scenarios.form_section_too_large seed_db
     = Raise OverflowError /\
   fails_on "receiver_section_id" Scenarios.form_section_too_large
     OverflowError).
Proof.
  assert (A1 : ascii_form (form Scenarios.form_section_in_words) = true)
    by reflexivity.
  assert (E1 : post_student Examples.t0 Scenarios.form_section_in_words seed_db
               = Raise ValueError) by reflexivity.
  assert (A2 : ascii_form (form Scenarios.form_section_too_large) = true)
    by reflexivity.
  assert (E2 : post_student Examples.t0 Scenarios.form_section_too_large seed_db
               = Raise OverflowError) by reflexivity.
  split.
  - split; [exact A1|]. split; [exact E1|].
    destruct (submissions_fail Examples.t0 Scenarios.form_section_in_words
                seed_db A1) as (F & _).
    exact (F ValueError E1).
  - split; [exact A2|]. split; [exact E2|].
    destruct (submissions_fail Examples.t0 Scenarios.form_section_too_large
                seed_db A2) as (F & _).
    exact (F OverflowError E2).
Defined.
End Stored.

(* ================================================================== *)
(** * The site under sequences of requests *)

Module SiteFacts.
Import Py PyFacts App Startup Site Notions Tables Stored Moderation Scenarios.
Local Open Scope Z_scope.
Local Open Scope list_scope.

(** An invariant of every request is an invariant of a sequence. *)
Lemma run_invariant (cfg : config) (P : site -> Prop) :
  (forall v st, P st -> P (fst (handle cfg v st))) ->
  forall vs st, P st -> P (run cfg vs st).
Proof.
  intros S. unfold run. induction vs as [|v r IH]; intros st H; cbn [fold_left].
  - exact H.
  - apply IH, S, H.
Qed.

(** A request is handled by [view], or leaves the site as it was. *)
Lemma handle_cases (cfg : config) (v : visit) (st : site) :
  (handle cfg v st = view cfg v st /\
   exists e, target v = Some e /\ method_matches e (method (rq v)) = true) \/
  fst (handle cfg v st) = st.
Proof.
  unfold handle.
  destruct (require_unlock _ _ _ _); [right; reflexivity|].
  destruct (target v) as [e|]; [|right; reflexivity].
  destruct (method_matches e (method (rq v))) eqn:M; [|right; reflexivity].
  cbn [negb]. destruct (String.eqb _ _); [right; reflexivity|].
  left. split; [reflexivity|]. exists e. split; [reflexivity | exact M].
Qed.

(** What a request does to the database. *)
Lemma handle_data (cfg : config) (v : visit) (st : site) :
  let a := admin_required (sessions st (client v)) in
  let d := data st in
  let d' := data (fst (handle cfg v st)) in
  d' = d \/ posted_to d d' \/
  (exists nid, d' = fst (admin_delete a nid d)) \/
  (exists r, d' = fst (admin_panel a r d)) \/
  (exists nid action, d' = admin_note_action a nid action d).
Proof.
  cbn zeta.
  destruct (handle_cases cfg v st) as [[-> _]| ->]; [|left; reflexivity].
  unfold view. destruct (target v) as [e|]; [|left; reflexivity].
  destruct e; cbn [fst data]; try (left; reflexivity).
  - unfold page. destruct (home _ _); left; reflexivity.
  - unfold stored. destruct (post_student _ _ _) as [[d' resp]|e] eqn:E;
      [|left; reflexivity].
    right. left. exists (now (clk v)), (rq v), resp. left. exact E.
  - unfold stored. destruct (post_teacher _ _ _) as [[d' resp]|e] eqn:E;
      [|left; reflexivity].
    right. left. exists (now (clk v)), (rq v), resp. right. left. exact E.
  - unfold stored. destruct (post_staff _ _ _) as [[d' resp]|e] eqn:E;
      [|left; reflexivity].
    right. left. exists (now (clk v)), (rq v), resp. right. right. exact E.
  - unfold page. destruct (wall _); left; reflexivity.
  - unfold page. destruct (leaders _); left; reflexivity.
  - destruct (auth_register _ _ _ _ _) as [[us resp]|e]; left; reflexivity.
  - destruct (auth_login _ _ _ _); left; reflexivity.
  - destruct (lock _ _); left; reflexivity.
  - right. right. left. exists nid.
    destruct (admin_delete _ _ _); reflexivity.
  - destruct (admin_login _ _ _); left; reflexivity.
  - right. right. right. left. exists (rq v).
    destruct (admin_panel _ _ _); reflexivity.
  - right. right. right. right. exists nid, action. reflexivity.
Qed.

(** What a request does to the users. *)
Lemma handle_users (cfg : config) (v : visit) (st : site) :
  let us' := users (fst (handle cfg v st)) in
  us' = users st \/
  exists t salt rq resp, auth_register cfg t salt rq (users st) = Ok (us', resp).
Proof.
  cbn zeta.
  destruct (handle_cases cfg v st) as [[-> _]| ->]; [|left; reflexivity].
  unfold view. destruct (target v) as [e|]; [|left; reflexivity].
  destruct e; cbn [fst users]; try (left; reflexivity).
  - unfold page. destruct (home _ _); left; reflexivity.
  - unfold stored. destruct (post_student _ _ _) as [[d' resp]|e]; left; reflexivity.
  - unfold stored. destruct (post_teacher _ _ _) as [[d' resp]|e]; left; reflexivity.
  - unfold stored. destruct (post_staff _ _ _) as [[d' resp]|e]; left; reflexivity.
  - unfold page. destruct (wall _); left; reflexivity.
  - unfold page. destruct (leaders _); left; reflexivity.
  - destruct (auth_register _ _ _ _ _) as [[us resp]|e] eqn:E; [|left; reflexivity].
    right. exists (now (clk v)), (salt v), (rq v), resp. exact E.
  - destruct (auth_login _ _ _ _); left; reflexivity.
  - destruct (lock _ _); left; reflexivity.
  - destruct (admin_delete _ _ _); left; reflexivity.
  - destruct (admin_login _ _ _); left; reflexivity.
  - destruct (admin_panel _ _ _); left; reflexivity.
Qed.

Lemma set_session_other (st : site) (c c' : Z) (s : session) :
  c' <> c -> sessions (set_session st c s) c' = sessions st c'.
Proof.
  intros H. cbn [sessions set_session].
  destruct (Z.eqb_spec c' c); [contradiction | reflexivity].
Qed.

Lemma set_session_same (st : site) (c : Z) (s : session) :
  sessions (set_session st c s) c = s.
Proof. cbn [sessions set_session]. rewrite Z.eqb_refl. reflexivity. Qed.

(** What a request does to the sessions: it changes none but its client's,
    and it opens the administrator's session only with the PIN. *)
Lemma handle_sessions (cfg : config) (v : visit) (st : site) :
  let st' := fst (handle cfg v st) in
  (forall c, c <> client v -> sessions st' c = sessions st c) /\
  (admin_required (sessions st' (client v)) = true ->
   admin_required (sessions st (client v)) = true \/ enters_pin cfg v = true).
Proof.
  cbn zeta. unfold enters_pin.
  destruct (handle_cases cfg v st) as [[-> _]| ->]; [|split; [reflexivity | auto]].
  unfold view. destruct (target v) as [e|]; [|split; [reflexivity | auto]].
  destruct e; cbn [fst]; try (split; [reflexivity | auto]).
  - unfold page. destruct (home _ _); split; auto.
  - unfold stored. destruct (post_student _ _ _) as [[d' resp]|e]; split; auto.
  - unfold stored. destruct (post_teacher _ _ _) as [[d' resp]|e]; split; auto.
  - unfold stored. destruct (post_staff _ _ _) as [[d' resp]|e]; split; auto.
  - unfold page. destruct (wall _); split; auto.
  - unfold page. destruct (leaders _); split; auto.
  - destruct (auth_register _ _ _ _ _) as [[us resp]|e]; split; auto.
  - destruct (auth_login _ _ _ _) as [s' resp] eqn:E. cbn [fst]. split.
    + intros c Hc. apply set_session_other. exact Hc.
    + rewrite set_session_same. intros A. left.
      unfold auth_login in E.
      destruct (String.eqb _ _); [|injection E as <- _; exact A].
      destruct (find _ _) as [u|]; [|injection E as <- _; exact A].
      destruct (check_password_hash _ _ _); injection E as <- _; exact A.
  - cbn [auth_logout fst]. split.
    + intros c Hc. apply set_session_other. exact Hc.
    + rewrite set_session_same. intros A. left. exact A.
  - destruct (lock _ _) as [s' resp] eqn:E. cbn [fst]. split.
    + intros c Hc. apply set_session_other. exact Hc.
    + rewrite set_session_same. intros A. left.
      unfold lock in E. destruct (String.eqb _ _); injection E as <- _; exact A.
  - destruct (admin_delete _ _ _); split; auto.
  - destruct (admin_login _ _ _) as [s' o] eqn:E. cbn [fst]. split.
    + intros c Hc. apply set_session_other. exact Hc.
    + rewrite set_session_same. intros A. unfold admin_login in E.
      destruct (String.eqb _ _); [|injection E as <- _; left; exact A].
      destruct (field_is _ _ _); [right; reflexivity|].
      injection E as <- _. left. exact A.
  - cbn [admin_logout fst]. split.
    + intros c Hc. apply set_session_other. exact Hc.
    + rewrite set_session_same. discriminate.
  - destruct (admin_panel _ _ _); split; auto.
Qed.

(** ** Without the administrator's session *)

Lemma submitted_notes (kind : string) (t : Z) (r : request) (d d' : db)
    (resp : response) :
  submitted kind t r d d' resp ->
  same_tables d d' /\
  (d' = d \/
   exists n, notes d' = notes d ++ [n] /\ status n = "pending" /\
             sound_note n /\ ~ In (id n) (map id (notes d))).
Proof.
  intros [[-> _]|(_ & _ & n & -> & _ & P & S & _ & F & _)].
  - split; [repeat split | left; reflexivity].
  - split; [repeat split|]. right. exists n.
    split; [reflexivity|]. split; [exact P|]. split; [exact S | exact F].
Qed.

Lemma posted_notes (d d' : db) :
  posted_to d d' ->
  same_tables d d' /\
  (d' = d \/
   exists n, notes d' = notes d ++ [n] /\ status n = "pending" /\
             sound_note n /\ ~ In (id n) (map id (notes d))).
Proof.
  intros (t & r & resp & [H|[H|H]]).
  - exact (submitted_notes _ _ _ _ _ _ (post_student_submitted _ _ _ _ _ H)).
  - exact (submitted_notes _ _ _ _ _ _ (post_teacher_submitted _ _ _ _ _ H)).
  - exact (submitted_notes _ _ _ _ _ _ (post_staff_submitted _ _ _ _ _ H)).
Qed.

Lemma grown_refl (d : db) : grown d d.
Proof.
  split; [repeat split|]. exists []. rewrite app_nil_r. split; [reflexivity | constructor].
Qed.

Lemma grown_trans (d1 d2 d3 : db) : grown d1 d2 -> grown d2 d3 -> grown d1 d3.
Proof.
  intros [(A1 & A2 & A3 & A4) (a & Ea & Fa)] [(B1 & B2 & B3 & B4) (b & Eb & Fb)].
  split; [repeat split; congruence|].
  exists (a ++ b). rewrite Eb, Ea, app_assoc. split; [reflexivity|].
  apply Forall_app. split; assumption.
Qed.

Lemma grown_approved (d d' : db) :
  grown d d' -> approved_notes d' = approved_notes d.
Proof.
  intros [_ (a & E & F)]. unfold approved_notes. rewrite E, filter_app.
  assert (N : filter is_approved a = []).
  { clear E. induction F as [|n r Hn _ IH]; [reflexivity|].
    cbn [filter]. unfold is_approved at 1. rewrite Hn. exact IH. }
  rewrite N, app_nil_r. reflexivity.
Qed.

Lemma step_without_pin (cfg : config) (v : visit) (st : site) :
  no_admin st -> enters_pin cfg v = false ->
  no_admin (fst (handle cfg v st)) /\ grown (data st) (data (fst (handle cfg v st))).
Proof.
  intros A P. split.
  - intros c. destruct (handle_sessions cfg v st) as [S1 S2]. cbn zeta in S1, S2.
    destruct (Z.eq_dec c (client v)) as [->|N].
    + destruct (admin_required (sessions (fst (handle cfg v st)) (client v))) eqn:E;
        [|reflexivity].
      destruct (S2 eq_refl) as [X|X]; [rewrite A in X | rewrite P in X];
        discriminate X.
    + rewrite (S1 c N). apply A.
  - pose proof (handle_data cfg v st) as D. cbn zeta in D. rewrite (A (client v)) in D.
    destruct D as [->|[D|[(nid & ->)|[(r & ->)|(nid & action & ->)]]]];
      try apply grown_refl.
    apply posted_notes in D. destruct D as [T [->|(n & E & Pn & _)]];
      [apply grown_refl|].
    split; [exact T|]. exists [n]. split; [exact E|]. repeat constructor. exact Pn.
Qed.

(** X13.  Without the PIN nothing is moderated.  Let no client hold the
    administrator's session, and let a sequence of requests, of any clients
    to any endpoints, hold no POST of the right PIN to [admin_login].  Then
    no client holds the administrator's session afterwards; no note was
    deleted or changed and no section, teacher or staff member was added:
    the database differs by pending notes at the end of the table only; so
    the approved notes, the wall, the leaders page, the leaders of the home
    page and the certificates are what they were. *)
Theorem without_the_pin (cfg : config) (vs : list visit) (st : site) :
  no_admin st ->
  Forall (fun v => enters_pin cfg v = false) vs ->
  let d := data st in
  let d' := data (run cfg vs st) in
  no_admin (run cfg vs st) /\
  same_tables d d' /\
  (exists added, notes d' = notes d ++ added /\
                 Forall (fun n => status n = "pending") added) /\
  approved_notes d' = approved_notes d /\
  wall d' = wall d /\
  leaders d' = leaders d /\
  (forall c, compute_leaders c d' = compute_leaders c d) /\
  (forall category rank,
     certificate d' category rank = certificate d category rank).
Proof.
  intros A F. cbn zeta.
  assert (G : no_admin (run cfg vs st) /\ grown (data st) (data (run cfg vs st))).
  { revert st A. unfold run. induction F as [|v r Hv _ IH]; intros st A; cbn [fold_left].
    - split; [exact A | apply grown_refl].
    - destruct (step_without_pin cfg v st A Hv) as [A1 G1].
      destruct (IH _ A1) as [A2 G2]. split; [exact A2|].
      exact (grown_trans _ _ _ G1 G2). }
  destruct G as [A' G]. pose proof (grown_approved _ _ G) as E.
  destruct G as [T X]. split; [exact A'|]. split; [exact T|]. split; [exact X|].
  split; [exact E|]. apply pages_same; [exact T | symmetry; exact E].
Qed.

Lemma without_the_pin_witness :
  no_admin fresh_site /\
  Forall (fun v => enters_pin plain_config v = false)
    [unlock; submit; wrong_pin; approve_first] /\
  List.length
    (notes (data (run plain_config [unlock; submit; wrong_pin; approve_first]
                    fresh_site))) = 1%nat /\
  approved_notes
    (data (run plain_config [unlock; submit; wrong_pin; approve_first] fresh_site))
  = approved_notes (data fresh_site).
Proof.
  assert (A : no_admin fresh_site) by (intros c; reflexivity).
  assert (F : Forall (fun v => enters_pin plain_config v = false)
                [unlock; submit; wrong_pin; approve_first])
    by (repeat constructor).
  split; [exact A|]. split; [exact F|]. split; [reflexivity|].
  destruct (without_the_pin plain_config _ fresh_site A F) as (_ & _ & _ & E & _).
  exact E.
Defined.
(** ** The notes stay sound *)

(** The notes that a deletion keeps have distinct keys if the notes had. *)
Lemma kept_notes_distinct (keep : Note -> bool) (ns : list Note) :
  NoDup (map id ns) -> NoDup (map id (filter keep ns)).
Proof.
  intros N. induction ns as [|n r IH]; cbn [map filter]; [constructor|].
  cbn [map] in N. apply NoDup_cons_iff in N. destruct N as [N1 N2].
  destruct (keep n); cbn [map]; [|exact (IH N2)].
  apply NoDup_cons; [|exact (IH N2)].
  intros H. apply N1. apply in_map_iff in H. destruct H as (m & E & Hm).
  apply filter_In in Hm. apply in_map_iff. exists m. split; [exact E | apply Hm].
Qed.

Lemma Forall_filter {A : Type} (P : A -> Prop) (p : A -> bool) (l : list A) :
  Forall P l -> Forall P (filter p l).
Proof.
  intros H. apply Forall_forall. intros x Hx. apply filter_In in Hx.
  rewrite Forall_forall in H. apply H, Hx.
Qed.

Lemma status_after_valid (action : string) (n : Note) :
  valid_status n -> valid_status (set_status (status_after action n) n).
Proof.
  intros V. unfold valid_status, status_after. cbn [status set_status].
  destruct (String.eqb action "approve"); [auto|].
  destruct (String.eqb action "hide"); [auto|].
  destruct (String.eqb action "unhide"); [auto | exact V].
Qed.

Lemma admin_panel_notes (a : bool) (r : request) (d : db) :
  notes (fst (admin_panel a r d)) = notes d.
Proof.
  unfold admin_panel. destruct a; cbn [negb]; [|reflexivity].
  destruct (_ && field_is _ _ "section").
  { destruct (_ && _); [|reflexivity]. destruct (section_named _ _ _); reflexivity. }
  destruct (_ && field_is _ _ "teacher"); [|reflexivity].
  destruct (_ && _); [|reflexivity]. destruct (teacher_named _ _ _); reflexivity.
Qed.

Lemma step_sound_notes (cfg : config) (v : visit) (st : site) :
  sound_notes (data st) -> sound_notes (data (fst (handle cfg v st))).
Proof.
  intros [N F]. pose proof (handle_data cfg v st) as D. cbn zeta in D.
  destruct D as [->|[D|[(nid & ->)|[(r & ->)|(nid & action & ->)]]]].
  - split; assumption.
  - apply posted_notes in D. destruct D as [_ [->|(n & E & _ & S & I)]];
      [split; assumption|].
    unfold sound_notes. rewrite E, map_app. split.
    + apply NoDup_snoc; assumption.
    + apply Forall_app. split; [exact F | constructor; [exact S | constructor]].
  - unfold admin_delete. destruct (admin_required _); [|split; assumption].
    destruct (get_note _ _); [|split; assumption].
    unfold sound_notes. cbn [fst notes with_notes]. split.
    + apply kept_notes_distinct. exact N.
    + apply Forall_filter. exact F.
  - unfold sound_notes. rewrite admin_panel_notes. split; assumption.
  - destruct (admin_required _); [|split; assumption].
    rewrite admin_note_action_map. unfold sound_notes. cbn [notes with_notes]. split.
    + rewrite map_map.
      rewrite (map_ext _ id); [exact N|].
      intros n. destruct (id n =? nid); reflexivity.
    + apply Forall_forall. intros m Hm. apply in_map_iff in Hm.
      destruct Hm as (n & <- & Hn). rewrite Forall_forall in F.
      specialize (F n Hn). destruct (id n =? nid); [|exact F].
      destruct F as [V S]. split; [|exact S].
      exact (status_after_valid action n V).
Qed.

(** The three lists of the admin panel split the notes. *)
Lemma by_status (ns : list Note) :
  Forall valid_status ns ->
  Permutation ns
    (filter (fun n => String.eqb (status n) "pending") ns ++
     filter (fun n => String.eqb (status n) "approved") ns ++
     filter (fun n => String.eqb (status n) "hidden") ns).
Proof.
  induction 1 as [|n r H _ IH]; [constructor|].
  cbn [filter]. destruct H as [E|[E|E]]; rewrite E;
    cbn [String.eqb Ascii.eqb Bool.eqb].
  - cbn [app]. constructor. exact IH.
  - apply Permutation_cons_app. exact IH.
  - rewrite app_assoc. apply Permutation_cons_app. rewrite <- app_assoc. exact IH.
Qed.

Lemma newest_first_perm (ns : list Note) : Permutation (newest_first ns) ns.
Proof.
  destruct (Listings.newest_limit (List.length ns) ns) as (rest & P & L & _).
  cbn zeta in P, L.
  assert (E : firstn (List.length ns) (newest_first ns) = newest_first ns).
  { apply firstn_all2. apply Permutation_length in P. rewrite length_app in P.
    rewrite Nat.min_id in L.
    assert (X : List.length (newest_first ns) = List.length ns).
    { unfold newest_first. rewrite length_map, sorted_desc_length, length_map.
      reflexivity. }
    lia. }
  rewrite E in P, L. apply Permutation_length in P as P'. rewrite length_app in P'.
  destruct rest; [|cbn [List.length] in P'; lia].
  rewrite app_nil_r in P. symmetry. exact P.
Qed.

(** X14.  The notes stay sound.  Let the notes of the database have distinct
    keys and be sound each (as the forms store them: a status among pending,
    approved and hidden, a message, the receiver columns of the receiver
    type, a weight of 1 or 2, the giver columns of the giver type).  After
    any sequence of requests, of any clients to any endpoints, with or
    without the administrator's session, they still are; and the three lists
    of the admin panel (pending, approved, hidden) hold every note exactly
    once, so that the three counts of the home page add up to the number of
    notes. *)
Theorem notes_stay_sound (cfg : config) (vs : list visit) (st : site) :
  sound_notes (data st) ->
  let d' := data (run cfg vs st) in
  sound_notes d' /\
  Permutation (notes d')
    (pending (panel_notes d') ++ approved (panel_notes d')
     ++ hidden (panel_notes d')) /\
  count_status "pending" d' + count_status "approved" d'
    + count_status "hidden" d' = Z.of_nat (List.length (notes d')).
Proof.
  intros H. cbn zeta.
  assert (S : sound_notes (data (run cfg vs st))).
  { apply (run_invariant cfg (fun x => sound_notes (data x))); [|exact H].
    intros v x. apply step_sound_notes. }
  split; [exact S|]. destruct S as [_ F].
  assert (V : Forall valid_status (notes (data (run cfg vs st)))).
  { revert F. apply Forall_impl. intros n Hn. apply Hn. }
  split.
  - cbn [pending approved hidden panel_notes].
    rewrite (by_status _ V) at 1. unfold with_status.
    repeat apply Permutation_app; symmetry; apply newest_first_perm.
  - unfold count_status, with_status.
    pose proof (Listings.count_partition _ V). lia.
Qed.

Lemma notes_stay_sound_witness :
  sound_notes (data fresh_site) /\
  sound_notes
    (data (run plain_config [unlock; submit; right_pin; approve_first] fresh_site)).
Proof.
  assert (H : sound_notes (data fresh_site)) by (split; constructor).
  split; [exact H|].
  destruct (notes_stay_sound plain_config
              [unlock; submit; right_pin; approve_first] fresh_site H) as (S & _).
  exact S.
Defined.
(** ** The seeded tables stay unique *)

Lemma upper_char_twice (c : ascii) : upper_char (upper_char c) = upper_char c.
Proof. destruct c as [[] [] [] [] [] [] [] []]; reflexivity. Qed.

Lemma lower_char_twice (c : ascii) : lower_char (lower_char c) = lower_char c.
Proof. destruct c as [[] [] [] [] [] [] [] []]; reflexivity. Qed.

Lemma upper_twice (s : string) : upper (upper s) = upper s.
Proof.
  induction s as [|c r IH]; cbn [upper]; [reflexivity|].
  rewrite upper_char_twice, IH. reflexivity.
Qed.

Lemma lower_twice (s : string) : lower (lower s) = lower s.
Proof.
  induction s as [|c r IH]; cbn [lower]; [reflexivity|].
  rewrite lower_char_twice, IH. reflexivity.
Qed.

Lemma extended_refl (d : db) : extended d d.
Proof.
  split; [reflexivity|]. split; [reflexivity|]. exists [], [].
  rewrite !app_nil_r. repeat split; constructor.
Qed.

Lemma extended_same (d d' : db) : same_tables d d' -> extended d d'.
Proof.
  intros (A & B & C & D). split; [congruence|]. split; [congruence|].
  exists [], []. rewrite !app_nil_r. repeat split; try congruence; constructor.
Qed.

Lemma extended_trans (d1 d2 d3 : db) :
  extended d1 d2 -> extended d2 d3 -> extended d1 d3.
Proof.
  intros (A1 & A2 & a & b & Ea & Fa & Eb & Fb) (B1 & B2 & a' & b' & Ea' & Fa' & Eb' & Fb').
  split; [congruence|]. split; [congruence|].
  exists (a ++ a'), (b ++ b'). rewrite Ea', Ea, Eb', Eb, !app_assoc.
  repeat split; try reflexivity; apply Forall_app; split; assumption.
Qed.

Lemma unique_same (d d' : db) :
  same_tables d d' -> unique_tables d -> unique_tables d'.
Proof.
  intros (A & B & C & D) (U1 & U2 & U3).
  unfold unique_tables, unique_sections, unique_teachers, unique_staff in *.
  rewrite <- A, <- C, <- D. repeat split; tauto.
Qed.

Lemma admin_panel_tables (r : request) (d : db) :
  unique_tables d ->
  unique_tables (fst (admin_panel true r d)) /\
  extended d (fst (admin_panel true r d)).
Proof.
  intros U. unfold admin_panel. cbn [negb].
  destruct (_ && field_is _ _ "section").
  { destruct (negb (String.eqb (field_stripped (form r) "class_name") "")
              && negb (String.eqb (upper (field_stripped (form r) "section_name")) ""))
      eqn:V; [|split; [exact U | apply extended_refl]].
    apply andb_true_iff in V. destruct V as [V1 V2].
    apply negb_true_iff, String.eqb_neq in V1, V2.
    destruct (section_named _ _ _) eqn:F; cbn [fst];
      [split; [exact U | apply extended_refl]|].
    destruct U as (U1 & U2 & U3). split.
    - split; [apply add_section_unique; assumption|]. split; assumption.
    - split; [reflexivity|]. split; [reflexivity|].
      eexists. exists [].
      split; [reflexivity|]. split; [|split; [symmetry; apply app_nil_r | constructor]].
      constructor; [|constructor]. split; [exact V1|]. split; [exact V2|].
      apply upper_twice. }
  destruct (_ && field_is _ _ "teacher"); [|split; [exact U | apply extended_refl]].
  destruct (negb (String.eqb (field_stripped (form r) "teacher_name") "")
            && negb (String.eqb (field_stripped (form r) "teacher_subject") ""))
    eqn:V; [|split; [exact U | apply extended_refl]].
  apply andb_true_iff in V. destruct V as [V1 V2].
  apply negb_true_iff, String.eqb_neq in V1, V2.
  destruct (teacher_named _ _ _) eqn:F; cbn [fst];
    [split; [exact U | apply extended_refl]|].
  destruct U as (U1 & U2 & U3). split.
  - split; [exact U1|]. split; [apply add_teacher_unique; assumption | exact U3].
  - split; [reflexivity|]. split; [reflexivity|].
    exists []. eexists.
    split; [symmetry; apply app_nil_r|]. split; [constructor|]. split; [reflexivity|].
    constructor; [|constructor]. split; assumption.
Qed.

Lemma step_tables (cfg : config) (v : visit) (st : site) :
  unique_tables (data st) ->
  unique_tables (data (fst (handle cfg v st))) /\
  extended (data st) (data (fst (handle cfg v st))).
Proof.
  intros U. pose proof (handle_data cfg v st) as D. cbn zeta in D.
  destruct D as [->|[D|[(nid & ->)|[(r & ->)|(nid & action & ->)]]]].
  - split; [exact U | apply extended_refl].
  - apply posted_notes in D. destruct D as [T _].
    split; [exact (unique_same _ _ T U) | exact (extended_same _ _ T)].
  - assert (T : same_tables (data st)
                  (fst (admin_delete (admin_required (sessions st (client v))) nid
                          (data st)))).
    { unfold admin_delete. destruct (admin_required _); [|repeat split].
      destruct (get_note _ _); repeat split. }
    split; [exact (unique_same _ _ T U) | exact (extended_same _ _ T)].
  - destruct (admin_required _); [apply admin_panel_tables; exact U|].
    split; [exact U | apply extended_refl].
  - assert (T : same_tables (data st)
                  (admin_note_action (admin_required (sessions st (client v)))
                     nid action (data st))).
    { unfold admin_note_action. destruct (admin_required _); repeat split. }
    split; [exact (unique_same _ _ T U) | exact (extended_same _ _ T)].
Qed.

Lemma run_tables (cfg : config) (vs : list visit) (x : site) :
  unique_tables (data x) ->
  unique_tables (data (run cfg vs x)) /\ extended (data x) (data (run cfg vs x)).
Proof.
  revert x. unfold run. induction vs as [|v r IH]; intros x Ux; cbn [fold_left].
  - split; [exact Ux | apply extended_refl].
  - destruct (step_tables cfg v x Ux) as [A B].
    destruct (IH _ A) as [A' B']. split; [exact A'|].
    exact (extended_trans _ _ _ B B').
Qed.

Lemma seeded_unique (d : db) : unique_tables d -> unique_tables (seed_defaults d).
Proof.
  intros (U1 & U2 & U3). destruct (seed_defaults_unique d) as (S1 & S2 & S3).
  split; [exact (S1 U1)|]. split; [exact (S2 U2) | exact (S3 U3)].
Qed.

Lemma data_started (st : site) : data (started st) = seed_defaults (data st).
Proof. reflexivity. Qed.

(** X15.  The seeded tables hold no row twice.  Let no two sections of the
    database have the same class and section name or the same key, and
    likewise the teachers (name and subject) and the staff (name and role).
    Then this holds after the seeding of [create_app], and after any
    sequence of requests that follows it: the constraint on the sections is
    never violated.  The requests add no student and no staff member, and
    remove or change no section and no teacher; the sections and teachers
    that they add, through the admin panel, have no empty column, and the
    name of an added section is in upper case. *)
Theorem tables_stay_unique (cfg : config) (vs : list visit) (st : site) :
  unique_tables (data st) ->
  unique_tables (data (started st)) /\
  unique_tables (data (run cfg vs (started st))) /\
  students (data (run cfg vs (started st))) = students (data st) /\
  staff (data (run cfg vs (started st))) = staff (data (started st)) /\
  exists a b,
    sections (data (run cfg vs (started st)))
      = sections (data (started st)) ++ a /\
    Forall panel_section a /\
    teachers (data (run cfg vs (started st)))
      = teachers (data (started st)) ++ b /\
    Forall panel_teacher b.
Proof.
  intros U. pose proof (seeded_unique _ U) as V. rewrite <- data_started in V.
  destruct (seed_defaults_kept (data st)) as (_ & _ & _ & _ & K & _).
  rewrite <- data_started in K.
  destruct (run_tables cfg vs (started st) V) as [A (B1 & B2 & B3)].
  split; [exact V|]. split; [exact A|]. split; [|split; [exact B2 | exact B3]].
  rewrite B1. exact K.
Qed.

Lemma tables_stay_unique_witness :
  unique_tables (data empty_site) /\
  data (started empty_site) = seed_db /\
  List.length
    (sections (data (run plain_config [unlock; right_pin; add_section_9c]
                       (started empty_site)))) = 6%nat /\
  unique_tables
    (data (run plain_config [unlock; right_pin; add_section_9c]
             (started empty_site))).
Proof.
  assert (H : unique_tables (data empty_site)) by (repeat split; constructor).
  split; [exact H|]. split; [reflexivity|]. split; [reflexivity|].
  destruct (tables_stay_unique plain_config
              [unlock; right_pin; add_section_9c] empty_site H) as (_ & U & _).
  exact U.
Defined.

(** ** The users stay sound *)

Lemma find_username_none (us : list User) (name : string) :
  find (fun u => String.eqb (username u) name) us = None ->
  ~ In name (map username us).
Proof.
  intros F H. apply in_map_iff in H. destruct H as (u & E & Hu).
  apply (find_none _ _ F) in Hu. cbn beta in Hu. rewrite E, String.eqb_refl in Hu.
  discriminate Hu.
Qed.

Lemma existsb_in (x : string) (l : list string) :
  existsb (String.eqb x) l = true -> In x l.
Proof.
  intros H. apply existsb_exists in H. destruct H as (y & Hy & E).
  apply String.eqb_eq in E. subst y. exact Hy.
Qed.

(** What a registration does to the users. *)
Lemma auth_register_adds (cfg : config) (t : Z) (salt_ : string) (r : request)
    (us us' : list User) (resp : response) :
  auth_register cfg t salt_ r us = Ok (us', resp) ->
  us' = us \/
  exists u,
    us' = us ++ [u] /\ method r = "POST" /\
    sound_user u /\
    username u = lower (field_stripped (form r) "username") /\
    ~ In (username u) (map username us) /\
    u_id u = fresh_id (map u_id us) /\
    password_hash u =
      generate_password_hash cfg salt_ (or_str (form_get (form r) "password") "").
Proof.
  unfold auth_register. intros H.
  destruct (String.eqb (method r) "POST") eqn:M; [|injection H as <- _; left; reflexivity].
  destruct (negb (existsb _ _)) eqn:R; [injection H as <- _; left; reflexivity|].
  destruct (_ || _) eqn:V; [injection H as <- _; left; reflexivity|].
  destruct (find _ us) eqn:F; [injection H as <- _; left; reflexivity|].
  apply negb_false_iff, existsb_in in R.
  apply orb_false_iff in V. destruct V as [V V3].
  apply orb_false_iff in V. destruct V as [V1 V2].
  apply String.eqb_neq in V1, V2, V3. apply String.eqb_eq in M.
  apply find_username_none in F.
  destruct (String.eqb (field_stripped (form r) "role") "student"
            && truthy_str (field_or_none (form r) "class_section_id")) eqn:S.
  - destruct (int_or_none _) as [sec|e]; cbn [bind] in H; [|discriminate H].
    destruct (column_fits sec); [|discriminate H].
    injection H as <- _. right. eexists. split; [reflexivity|].
    split; [exact M|]. split; [|repeat split; assumption].
    unfold sound_user. cbn [username u_name u_role u_class_section_id].
    split; [exact V2|]. split; [apply lower_twice|]. split; [exact V1|].
    split; [exact R|]. intros _. apply andb_true_iff in S.
    apply String.eqb_eq. apply S.
  - cbn [bind column_fits] in H.
    injection H as <- _. right. eexists. split; [reflexivity|].
    split; [exact M|]. split; [|repeat split; assumption].
    unfold sound_user. cbn [username u_name u_role u_class_section_id].
    split; [exact V2|]. split; [apply lower_twice|]. split; [exact V1|].
    split; [exact R|]. intros C. exfalso. apply C. reflexivity.
Qed.

Lemma step_users (cfg : config) (v : visit) (st : site) :
  sound_users (users st) ->
  sound_users (users (fst (handle cfg v st))) /\
  exists a, users (fst (handle cfg v st)) = users st ++ a.
Proof.
  intros (N1 & N2 & F). destruct (handle_users cfg v st) as [E|(t & s & r & resp & E)].
  - cbn zeta in E. rewrite E. split; [repeat split; assumption|].
    exists []. rewrite app_nil_r. reflexivity.
  - cbn zeta in E. apply auth_register_adds in E.
    destruct E as [->|(u & -> & _ & S & _ & I & K & _)].
    + split; [repeat split; assumption|]. exists []. rewrite app_nil_r. reflexivity.
    + split; [|exists [u]; reflexivity].
      unfold sound_users. rewrite !map_app. cbn [map]. split; [|split].
      * apply NoDup_snoc; assumption.
      * apply NoDup_snoc; [exact N2|]. rewrite K. apply fresh_id_new.
      * apply Forall_app. split; [exact F | constructor; [exact S | constructor]].
Qed.

(** X16.  The accounts stay sound.  Let the users have distinct usernames and
    keys, and be as [auth_register] stores them: a username that is not empty
    and in lower case, a name, a role among student, teacher and staff, a
    section only for a student.  After any sequence of requests they still
    are, and no user was removed or changed: registrations only add users
    at the end of the table. *)
Theorem users_stay_sound (cfg : config) (vs : list visit) (st : site) :
  sound_users (users st) ->
  sound_users (users (run cfg vs st)) /\
  exists a, users (run cfg vs st) = users st ++ a.
Proof.
  revert st. unfold run. induction vs as [|v r IH]; intros st H; cbn [fold_left].
  - split; [exact H|]. exists []. rewrite app_nil_r. reflexivity.
  - destruct (step_users cfg v st H) as [A (a & Ea)].
    destruct (IH _ A) as [B (b & Eb)]. split; [exact B|].
    exists (a ++ b). rewrite Eb, Ea, app_assoc. reflexivity.
Qed.

Lemma users_stay_sound_witness :
  sound_users (users fresh_site) /\
  map username (users (run plain_config [register_ayon] fresh_site)) = ["ayon"] /\
  sound_users (users (run plain_config [register_ayon] fresh_site)).
Proof.
  assert (H : sound_users (users fresh_site)) by (repeat split; constructor).
  split; [exact H|]. split; [reflexivity|].
  destruct (users_stay_sound plain_config [register_ayon] fresh_site H) as [S _].
  exact S.
Defined.

(** X17.  Registration and login.  Let the library check a password against
    the hash that it generated for it.  After a registration that added a
    user, a login with the same username and password fields signs that user
    in: the session holds the user's key, is unlocked, and [current_user]
    is the user. *)
Theorem register_then_login (cfg : config) (t : Z) (salt_ : string)
    (r1 r2 : request) (us us' : list User) (resp : response) (s : session) :
  (forall sl p, check_password_hash cfg (generate_password_hash cfg sl p) p = true) ->
  auth_register cfg t salt_ r1 us = Ok (us', resp) ->
  us' <> us ->
  method r2 = "POST" ->
  form_get (form r2) "username" = form_get (form r1) "username" ->
  form_get (form r2) "password" = form_get (form r1) "password" ->
  exists u,
    us' = us ++ [u] /\
    uid (fst (auth_login cfg r2 us' s)) = Some (u_id u) /\
    unlocked (fst (auth_login cfg r2 us' s)) = Some true /\
    admin_ok (fst (auth_login cfg r2 us' s)) = admin_ok s /\
    current_user us' (fst (auth_login cfg r2 us' s)) = Some u.
Proof.
  intros C R N M Eu Ep. apply auth_register_adds in R.
  destruct R as [->|(u & -> & _ & _ & U & I & K & P)]; [contradiction|].
  exists u. split; [reflexivity|].
  assert (F : find (fun x => String.eqb (username x)
                               (lower (field_stripped (form r2) "username")))
                (us ++ [u]) = Some u).
  { unfold field_stripped. rewrite Eu. fold (field_stripped (form r1) "username").
    rewrite <- U. clear - I. induction us as [|x r IH]; cbn [app find].
    - rewrite String.eqb_refl. reflexivity.
    - destruct (String.eqb_spec (username x) (username u)) as [E|E].
      + exfalso. apply I. left. exact E.
      + apply IH. intros H. apply I. right. exact H. }
  assert (L : fst (auth_login cfg r2 (us ++ [u]) s) =
              {| uid := Some (u_id u); unlocked := Some true; admin_ok := admin_ok s;
                 permanent := if field_is (form r2) "remember" "1"
                              then true else permanent s |}).
  { unfold auth_login. apply String.eqb_eq in M. rewrite M, F, P, Ep, C. reflexivity. }
  rewrite L. cbn [uid unlocked admin_ok]. repeat split.
  unfold current_user. cbn [uid].
  pose proof (fresh_id_pos (map u_id us)) as Pos.
  destruct (Z.eqb_spec (u_id u) 0) as [Z0|_]; [lia|].
  assert (G : forall x, In x us -> u_id x <> u_id u).
  { intros x Hx. rewrite K.
    pose proof (fresh_id_above (map u_id us) (u_id x) (in_map _ _ _ Hx)). lia. }
  clear - G. induction us as [|x r IH]; cbn [app find].
  - rewrite Z.eqb_refl. reflexivity.
  - destruct (Z.eqb_spec (u_id x) (u_id u)) as [E|E].
    + exfalso. apply (G x); [left; reflexivity | exact E].
    + apply IH. intros y Hy. apply G. right. exact Hy.
Qed.

Lemma register_then_login_witness :
  (forall sl p,
     check_password_hash plain_config
       (generate_password_hash plain_config sl p) p = true) /\
  (exists us' resp,
     auth_register plain_config Examples.t0 "c2FsdA" register_form []
       = Ok (us', resp) /\
     us' <> [] /\
     exists u,
       us' = [] ++ [u] /\
       uid (fst (auth_login plain_config register_form us' new_session))
         = Some (u_id u) /\
       unlocked (fst (auth_login plain_config register_form us' new_session))
         = Some true /\
       admin_ok (fst (auth_login plain_config register_form us' new_session))
         = admin_ok new_session /\
       current_user us'
         (fst (auth_login plain_config register_form us' new_session)) = Some u).
Proof.
  assert (C : forall sl p,
             check_password_hash plain_config
               (generate_password_hash plain_config sl p) p = true)
    by (intros sl p; apply String.eqb_refl).
  split; [exact C|].
  destruct (auth_register plain_config Examples.t0 "c2FsdA" register_form [])
    as [[us' resp]|e] eqn:R; [|discriminate R].
  assert (N : us' <> []).
  { intros ->. vm_compute in R. discriminate R. }
  exists us', resp. split; [reflexivity|]. split; [exact N|].
  exact (register_then_login plain_config Examples.t0 "c2FsdA" register_form
           register_form [] us' resp new_session C R N eq_refl eq_refl eq_refl).
Defined.

(** ** The lock screen *)

Lemma locked_redirect (cfg : config) (v : visit) (st : site) :
  locked st (client v) -> exempt v = false ->
  handle cfg v st = (st, Sent (Redirect "lock" None)).
Proof.
  intros [L1 L2] E. unfold handle, require_unlock. unfold exempt in E.
  destruct (routed v) as [e|]; cbn [option_map]; rewrite E, L1, L2; reflexivity.
Qed.

Lemma reaches_routed (v : visit) (e : endpoint) :
  reaches v e ->
  routed v = Some e /\ target v = Some e /\
  method_matches e (method (rq v)) = true /\
  String.eqb (method (rq v)) "OPTIONS" = false.
Proof.
  intros (T & M & O). unfold routed. rewrite T, M.
  repeat split; try assumption. apply String.eqb_neq. exact O.
Qed.

(** X18.  The lock screen.  A client that is neither signed in nor unlocked
    gets nothing but a redirection to the lock screen, and changes nothing,
    unless the request goes to the login, the registration, the logout or
    the lock screen itself, or to a path under [/static].  After a request
    that reaches [auth_logout] or [admin_logout] the client is locked,
    whatever its session was: the administrator's logout also signs the user
    out.  A POST to the lock screen unlocks the client.  No request changes
    the session of another client. *)
Theorem lock_screen (cfg : config) (v : visit) (st : site) :
  (locked st (client v) -> exempt v = false ->
   handle cfg v st = (st, Sent (Redirect "lock" None))) /\
  (reaches v Ep_auth_logout \/ reaches v Ep_admin_logout ->
   locked (fst (handle cfg v st)) (client v)) /\
  (target v = Some Ep_lock -> method (rq v) = "POST" ->
   is_true (unlocked (sessions (fst (handle cfg v st)) (client v))) = true) /\
  (forall c, c <> client v -> sessions (fst (handle cfg v st)) c = sessions st c).
Proof.
  split; [apply locked_redirect|]. split; [|split].
  - intros [H|H]; apply reaches_routed in H; destruct H as (R & T & M & O).
    + unfold handle, require_unlock. rewrite R, T, M, O.
      cbn [option_map endpoint_name negb].
      cbn [allowed existsb String.eqb Ascii.eqb Bool.eqb orb].
      unfold view. rewrite T. cbn [auth_logout fst]. split.
      * unfold current_user. rewrite set_session_same. reflexivity.
      * rewrite set_session_same. reflexivity.
    + unfold handle. rewrite T, M, O. cbn [negb].
      destruct (require_unlock _ _ _ _) as [r|] eqn:Q; cbn [fst].
      * unfold require_unlock in Q.
        destruct (_ || startswith _ _); [discriminate Q|].
        destruct (match current_user _ _ with Some _ => true | None => false end
                  || is_true _) eqn:X; [discriminate Q|].
        apply orb_false_iff in X. destruct X as [X1 X2]. split; [|exact X2].
        destruct (current_user _ _); [discriminate X1 | reflexivity].
      * unfold view. rewrite T. cbn [admin_logout fst]. split.
        -- unfold current_user. rewrite set_session_same. reflexivity.
        -- rewrite set_session_same. reflexivity.
  - intros T M.
    assert (R : reaches v Ep_lock).
    { split; [exact T|]. rewrite M. split; [reflexivity | discriminate]. }
    apply reaches_routed in R. destruct R as (R & _ & MM & O).
    unfold handle, require_unlock. rewrite R, T, MM, O.
    cbn [option_map endpoint_name negb].
    cbn [allowed existsb String.eqb Ascii.eqb Bool.eqb orb].
    unfold view. rewrite T. unfold lock. apply String.eqb_eq in M. rewrite M.
    cbn [fst]. rewrite set_session_same. reflexivity.
  - apply (handle_sessions cfg v st).
Qed.

Lemma lock_screen_witness :
  locked fresh_site (client see_wall) /\ exempt see_wall = false /\
  handle plain_config see_wall fresh_site
    = (fresh_site, Sent (Redirect "lock" None)).
Proof.
  assert (L : locked fresh_site (client see_wall)) by (split; reflexivity).
  assert (E : exempt see_wall = false) by reflexivity.
  split; [exact L|]. split; [exact E|].
  destruct (lock_screen plain_config see_wall fresh_site) as (R & _).
  exact (R L E).
Defined.

(** ** With the administrator's session *)

Lemma unlocked_passes (endpoint_ : option string) (path_ : string)
    (us : list User) (s : session) :
  is_true (unlocked s) = true -> require_unlock endpoint_ path_ us s = None.
Proof.
  intros U. unfold require_unlock. rewrite U, orb_true_r.
  destruct (_ || _); reflexivity.
Qed.

Lemma enters_pin_login (cfg : config) (v : visit) :
  enters_pin cfg v = true ->
  target v = Some Ep_admin_login /\
  String.eqb (method (rq v)) "POST" = true /\
  field_is (form (rq v)) "pin" (ADMIN_PIN cfg) = true.
Proof.
  unfold enters_pin. destruct (target v) as [[]|]; try discriminate.
  intros H. apply andb_true_iff in H. destruct H as [M P]. repeat split; assumption.
Qed.

(** X19.  With the PIN a note is moderated.  Let an unlocked client post the
    right PIN to [admin_login] and then reach [admin_note_action].  Then
    the client holds the administrator's session and the database is the one
    that [admin_note_action] gives with it; after the action approve, the
    notes of the given id are approved and, when at most 200 notes are
    approved, listed on the wall. *)
Theorem with_the_pin (cfg : config) (v1 v2 : visit) (st : site)
    (nid : Z) (action : string) :
  is_true (unlocked (sessions st (client v1))) = true ->
  enters_pin cfg v1 = true ->
  client v2 = client v1 ->
  reaches v2 (Ep_admin_note_action nid action) ->
  admin_required (sessions (run cfg [v1; v2] st) (client v1)) = true /\
  data (run cfg [v1; v2] st) = admin_note_action true nid action (data st) /\
  (action = "approve" ->
   forall n, In n (notes (data st)) -> id n = nid ->
     In (set_status "approved" n) (approved_notes (data (run cfg [v1; v2] st))) /\
     exists listed b,
       wall (data (run cfg [v1; v2] st)) = Ok (listed, b) /\
       ((List.length (approved_notes (data (run cfg [v1; v2] st))) <= 200)%nat ->
        In (set_status "approved" n) listed)).
Proof.
  intros U P C T. destruct (enters_pin_login cfg v1 P) as (T1 & M & F).
  apply reaches_routed in T. destruct T as (_ & T & M2 & O2).
  assert (M1 : method_matches Ep_admin_login (method (rq v1)) = true).
  { unfold method_matches. cbn [takes_post andb]. rewrite M.
    repeat rewrite orb_true_r. reflexivity. }
  assert (O1 : String.eqb (method (rq v1)) "OPTIONS" = false).
  { apply String.eqb_eq in M. rewrite M. reflexivity. }
  assert (E1 : fst (handle cfg v1 st) =
               set_session st (client v1)
                 {| uid := uid (sessions st (client v1));
                    unlocked := unlocked (sessions st (client v1));
                    admin_ok := Some true;
                    permanent := permanent (sessions st (client v1)) |}).
  { unfold handle. rewrite (unlocked_passes _ _ _ _ U).
    rewrite T1, M1, O1. cbn [negb]. unfold view.
    rewrite T1. unfold admin_login. rewrite M, F. reflexivity. }
  assert (E2 : run cfg [v1; v2] st =
               set_data (fst (handle cfg v1 st))
                 (admin_note_action true nid action (data st))).
  { unfold run. cbn [fold_left]. rewrite E1. unfold handle at 1.
    rewrite C. rewrite unlocked_passes
      by (rewrite set_session_same; cbn [unlocked]; exact U).
    rewrite T, M2, O2. cbn [negb].
    unfold view. rewrite T, C, set_session_same. reflexivity. }
  rewrite E2. cbn [data set_data sessions]. rewrite E1, set_session_same.
  split; [reflexivity|]. split; [reflexivity|].
  intros -> n Hn I.
  assert (A : In (set_status "approved" n)
                (approved_notes (admin_note_action true nid "approve" (data st)))).
  { rewrite admin_note_action_map. unfold approved_notes.
    cbn [notes with_notes]. apply filter_In. split; [|reflexivity].
    apply in_map_iff. exists n. split; [|exact Hn].
    apply Z.eqb_eq in I. rewrite I. reflexivity. }
  split; [exact A|].
  set (d' := admin_note_action true nid "approve" (data st)) in *.
  destruct (Listings.newest_limit 200 (approved_notes d')) as (rest & Pm & L & _).
  cbn zeta in Pm, L.
  remember (firstn 200 (newest_first (approved_notes d'))) as listed eqn:El.
  destruct (Listings.bars_of_ok (chart_counts_of d' listed)) as (b & Hb).
  exists listed, b. split.
  - unfold wall. rewrite <- El, Hb. reflexivity.
  - intros Le. apply (Permutation_in _ Pm) in A.
    apply Permutation_length in Pm. rewrite length_app, L in Pm.
    destruct rest; [|cbn [List.length] in Pm; lia].
    rewrite app_nil_r in A. exact A.
Qed.

Lemma with_the_pin_witness :
  is_true (unlocked (sessions (run plain_config [unlock; submit] fresh_site)
                       (client right_pin))) = true /\
  enters_pin plain_config right_pin = true /\
  client approve_first = client right_pin /\
  reaches approve_first (Ep_admin_note_action 1 "approve") /\
  map status
    (notes (data (run plain_config [right_pin; approve_first]
                    (run plain_config [unlock; submit] fresh_site))))
  = ["approved"].
Proof.
  assert (U : is_true (unlocked (sessions (run plain_config [unlock; submit] fresh_site)
                                   (client right_pin))) = true) by reflexivity.
  assert (P : enters_pin plain_config right_pin = true) by reflexivity.
  assert (T : reaches approve_first (Ep_admin_note_action 1 "approve")).
  { split; [reflexivity|]. split; [reflexivity | discriminate]. }
  split; [exact U|]. split; [exact P|]. split; [reflexivity|]. split; [exact T|].
  destruct (with_the_pin plain_config right_pin approve_first
              (run plain_config [unlock; submit] fresh_site) 1 "approve"
              U P eq_refl T) as (_ & E & _).
  rewrite E. reflexivity.
Defined.
End SiteFacts.

(* ================================================================== *)
(** * r.py against app.py *)

Module Variants.
Import Py PyFacts App Startup Site RAdmin Notions Tables Stored Scenarios.
Local Open Scope Z_scope.
Local Open Scope list_scope.

Lemma or_str_default (f : form_data) (k : string) :
  or_str (form_get f k) "" = form_get_default f k "".
Proof.
  unfold form_get_default. destruct (form_get f k) as [t|]; cbn [or_str]; [|reflexivity].
  destruct (String.eqb_spec t ""); [symmetry; assumption | reflexivity].
Qed.

Lemma truthy_some (x : option string) :
  truthy_str x = true -> exists s, x = Some s /\ s <> "" /\ or_str x "" = s.
Proof.
  destruct x as [s|]; cbn [truthy_str or_str]; [|discriminate].
  intros H. apply negb_true_iff in H. exists s. rewrite H.
  split; [reflexivity|]. split; [apply String.eqb_neq; exact H | reflexivity].
Qed.

Lemma weights_agree (gt : string) (g r : option string) :
  truthy_str r = true ->
  R.weight_of gt g r = weight_of gt (if truthy_str g then g else None) r.
Proof.
  intros Tr. unfold R.weight_of, weight_of.
  destruct (String.eqb gt "student"); cbn [andb]; [|reflexivity].
  destruct (truthy_str g) eqn:Tg; cbn [andb truthy_str]; [|reflexivity].
  rewrite Tg, Tr. cbn [andb].
  destruct (truthy_some g Tg) as (s & -> & _ & Es).
  destruct (truthy_some r Tr) as (s' & -> & _ & Es').
  rewrite Es, Es'. reflexivity.
Qed.

(** The row that [r.py] stores for a form that passes its two tests. *)
Lemma r_post_student_accepts (rq : request) (rows : list R.NoteRow) :
  String.eqb (method rq) "POST" = true ->
  String.eqb (field_giver_type (form rq)) "teacher"
    && String.eqb (field_stripped (form rq) "giver_name") "" = false ->
  String.eqb (field_stripped (form rq) "receiver_name") "" = false ->
  String.eqb (field_stripped (form rq) "message") "" = false ->
  R.post_student rq rows =
  (rows ++
   [ {| R.giver_type := field_giver_type (form rq);
        R.giver_name := R.shown_giver (field_giver_type (form rq))
                          (field_stripped (form rq) "giver_name");
        R.giver_section_id := form_get (form rq) "giver_section_id";
        R.receiver_type := "student";
        R.receiver_name_text := Some (field_stripped (form rq) "receiver_name");
        R.receiver_section_id := form_get (form rq) "receiver_section_id";
        R.receiver_teacher_id := None;
        R.receiver_staff_id := None;
        R.message := field_stripped (form rq) "message";
        R.weight_applied :=
          R.weight_of (field_giver_type (form rq))
            (form_get (form rq) "giver_section_id")
            (form_get (form rq) "receiver_section_id");
        R.status := "pending" |} ],
   R.posted).
Proof.
  intros M H1 H3 H4. unfold R.post_student, R.field_giver_type.
  rewrite <- !or_str_default. unfold field_giver_type, field_stripped in *.
  rewrite M, H1, H3, H4. reflexivity.
Qed.

Lemma shown_giver_agrees (gt gname : string) :
  R.shown_giver gt gname =
  if String.eqb gt "student" && String.eqb gname "" then "Anonymous" else gname.
Proof.
  unfold R.shown_giver.
  destruct (String.eqb_spec gname "") as [->|N].
  - rewrite andb_true_r. destruct (String.eqb gt "student"); reflexivity.
  - rewrite andb_false_r. reflexivity.
Qed.

Lemma giver_section_agrees (x : option string) (a : option Z) :
  int_or_none (if truthy_str x then x else None) = Ok a -> same_section x a.
Proof.
  destruct (truthy_str x) eqn:T.
  - destruct (truthy_some x T) as (s & -> & _ & _). cbn [int_or_none].
    destruct (Py.int s) as [z|e] eqn:I; cbn [bind]; [|discriminate].
    intros [= <-]. right. exists s, z. repeat split. exact I.
  - cbn [int_or_none]. intros [= <-]. left. split; [reflexivity | exact T].
Qed.

Lemma receiver_section_agrees (x : option string) (z : Z) :
  truthy_str x = true -> Py.int (or_str x "") = Ok z -> same_section x (Some z).
Proof.
  intros T I. destruct (truthy_some x T) as (s & -> & _ & E). rewrite E in I.
  right. exists s, z. repeat split. exact I.
Qed.

(** The note that [app.py] stores, and the tests that its form passed. *)
Lemma post_student_note (t : Z) (rq : request) (d d' : db) (resp : response)
    (n : Note) :
  post_student t rq d = Ok (d', resp) ->
  notes d' = notes d ++ [n] ->
  let f := form rq in
  String.eqb (method rq) "POST" = true /\
  String.eqb (field_giver_type f) "teacher"
    && String.eqb (field_stripped f "giver_name") "" = false /\
  String.eqb (field_stripped f "receiver_name") "" = false /\
  truthy_str (form_get f "receiver_section_id") = true /\
  String.eqb (field_stripped f "message") "" = false /\
  exists a r,
    int_or_none (field_or_none f "giver_section_id") = Ok a /\
    Py.int (or_str (form_get f "receiver_section_id") "") = Ok r /\
    n = {| id := next_id (notes d);
           giver_type := field_giver_type f;
           giver_name :=
             Some (if String.eqb (field_giver_type f) "student"
                      && String.eqb (field_stripped f "giver_name") ""
                   then "Anonymous" else field_stripped f "giver_name");
           giver_section_id := a;
           receiver_type := "student";
           message := field_stripped f "message";
           receiver_name_text := Some (field_stripped f "receiver_name");
           receiver_section_id := Some r;
           receiver_student_id := None;
           receiver_teacher_id := None;
           receiver_staff_id := None;
           weight_applied :=
             Some (weight_of (field_giver_type f)
                     (field_or_none f "giver_section_id")
                     (form_get f "receiver_section_id"));
           status := "pending";
           created_at := t |}.
Proof.
  unfold post_student. intros H E. cbn zeta.
  destruct (String.eqb (method rq) "POST") eqn:M.
  2:{ injection H as <- _. exfalso. apply (f_equal (@List.length Note)) in E.
      rewrite length_app in E. cbn [List.length] in E. lia. }
  cbn zeta in H.
  destruct (String.eqb (field_giver_type (form rq)) "teacher"
            && String.eqb (field_stripped (form rq) "giver_name") "") eqn:H1.
  { injection H as <- _. exfalso. apply (f_equal (@List.length Note)) in E.
    rewrite length_app in E. cbn [List.length] in E. lia. }
  destruct (String.eqb (field_giver_type (form rq)) "student"
            && negb (truthy_str (field_or_none (form rq) "giver_section_id"))) eqn:H2.
  { injection H as <- _. exfalso. apply (f_equal (@List.length Note)) in E.
    rewrite length_app in E. cbn [List.length] in E. lia. }
  destruct (String.eqb (field_stripped (form rq) "receiver_name") ""
            || negb (truthy_str (form_get (form rq) "receiver_section_id"))) eqn:H3.
  { injection H as <- _. exfalso. apply (f_equal (@List.length Note)) in E.
    rewrite length_app in E. cbn [List.length] in E. lia. }
  destruct (String.eqb (field_stripped (form rq) "message") "") eqn:H4.
  { injection H as <- _. exfalso. apply (f_equal (@List.length Note)) in E.
    rewrite length_app in E. cbn [List.length] in E. lia. }
  destruct (int_or_none _) as [a|e] eqn:Hg; cbn [bind] in H; [|discriminate H].
  destruct (Py.int _) as [r|e] eqn:Hr; cbn [bind] in H; [|discriminate H].
  destruct (insert_note _ _) as [d1|e] eqn:Hi; cbn [bind] in H; [|discriminate H].
  apply Submissions.insert_note_stored in Hi. subst d1.
  injection H as <- _. cbn [notes add_note with_notes] in E.
  apply app_inj_tail in E. destruct E as [_ <-].
  apply orb_false_iff in H3. destruct H3 as [R1 R2]. apply negb_false_iff in R2.
  repeat (split; [assumption || reflexivity|]).
  exists a, r. repeat split.
Qed.

(** X20.  The two implementations of [post_student] agree on what [app.py]
    stores.  When [app.py] stores a note for a form, [r.py] stores a row
    for the same form, with the same giver type and name, receiver name,
    message, weight and status; its two section columns hold the texts of
    the integers that [app.py] stores.  ([r.py] stores more: it asks for no
    section and converts none.) *)
Theorem post_student_agrees (t : Z) (rq : request) (d d' : db) (resp : response)
    (n : Note) (rows : list R.NoteRow) :
  post_student t rq d = Ok (d', resp) ->
  notes d' = notes d ++ [n] ->
  exists m,
    R.post_student rq rows = (rows ++ [m], R.posted) /\
    same_submission m n.
Proof.
  intros H E.
  destruct (post_student_note t rq d d' resp n H E)
    as (M & H1 & R1 & R2 & H4 & a & r & Hg & Hr & ->).
  rewrite (r_post_student_accepts rq rows M H1 R1 H4).
  eexists. split; [reflexivity|]. unfold same_submission.
  cbn [R.giver_type R.giver_name R.giver_section_id R.receiver_type
         R.receiver_name_text R.receiver_section_id R.message
         R.weight_applied R.status giver_type giver_name giver_section_id
         receiver_type receiver_name_text receiver_section_id message
         weight_applied status].
  split; [reflexivity|].
  split; [rewrite shown_giver_agrees; reflexivity|].
  split; [apply giver_section_agrees; exact Hg|].
  split; [reflexivity|]. split; [reflexivity|].
  split; [apply receiver_section_agrees; assumption|].
  split; [reflexivity|].
  split; [rewrite (weights_agree _ _ _ R2); reflexivity | reflexivity].
Qed.

Lemma post_student_agrees_witness :
  post_student Examples.t0 Examples.form_same_section seed_db
    = Ok (add_note seed_db first_note, thanks) /\
  notes (add_note seed_db first_note) = notes seed_db ++ [first_note] /\
  exists m,
    R.post_student Examples.form_same_section [] = ([] ++ [m], R.posted) /\
    same_submission m first_note.
Proof.
  assert (H : post_student Examples.t0 Examples.form_same_section seed_db
              = Ok (add_note seed_db first_note, thanks)) by reflexivity.
  assert (E : notes (add_note seed_db first_note) = notes seed_db ++ [first_note])
    by reflexivity.
  split; [exact H|]. split; [exact E|].
  exact (post_student_agrees Examples.t0 Examples.form_same_section seed_db
           (add_note seed_db first_note) thanks first_note [] H E).
Defined.

(** ** admin_add_section of r.py *)

Lemma r_section_fields (rq : request) :
  Py.strip (form_get_default (form rq) "class_name" "")
    = field_stripped (form rq) "class_name" /\
  Py.strip (form_get_default (form rq) "section_name" "")
    = field_stripped (form rq) "section_name".
Proof. unfold field_stripped. rewrite !or_str_default. split; reflexivity. Qed.

Lemma r_add_section_value (rq : request) (d : db) :
  fst (admin_add_section true rq d) =
  section_added (field_stripped (form rq) "class_name")
    (field_stripped (form rq) "section_name") d.
Proof.
  destruct (r_section_fields rq) as [Ec Es].
  unfold admin_add_section, section_added. cbn [negb]. rewrite Ec, Es.
  destruct (_ || _); [reflexivity|]. destruct (section_named _ _ _); reflexivity.
Qed.

Lemma panel_section_value (rq : request) (d : db) :
  method rq = "POST" -> field_is (form rq) "form" "section" = true ->
  upper (field_stripped (form rq) "section_name")
    = field_stripped (form rq) "section_name" ->
  fst (admin_panel true rq d) =
  section_added (field_stripped (form rq) "class_name")
    (field_stripped (form rq) "section_name") d.
Proof.
  intros M F Up. unfold admin_panel, section_added. cbn [negb].
  apply String.eqb_eq in M. rewrite M, F, Up. cbn [andb].
  destruct (String.eqb (field_stripped (form rq) "class_name") "");
    destruct (String.eqb (field_stripped (form rq) "section_name") "");
    cbn [negb andb orb]; try reflexivity.
  destruct (section_named _ _ _); reflexivity.
Qed.

Lemma section_added_present (c s : string) (d : db) :
  section_named d c s = None ->
  section_named (add_section d c s) c s <> None.
Proof.
  intros F. rewrite section_named_key. unfold add_section.
  cbn [sections with_sections]. rewrite find_key_snoc.
  rewrite section_named_key in F. rewrite F.
  unfold has_key. cbn [section_key class_name section_name fst snd].
  rewrite !String.eqb_refl. discriminate.
Qed.

(** X21.  [admin_add_section] of [r.py].  Without the administrator's session
    it changes nothing.  With it, it adds at most one section, at the end
    of the table, with a class name and a section name that are not empty,
    and none that is there: sections that differ in class or section name
    stay so, and adding the same section again changes nothing.  It stores
    the section name as submitted: on a form whose section name is in upper
    case it does to the database what the section form of the admin panel
    of [app.py] does. *)
Theorem r_admin_add_section (admin : bool) (rq : request) (d : db) :
  unique_sections d ->
  unique_sections (fst (admin_add_section admin rq d)) /\
  (admin = false -> fst (admin_add_section admin rq d) = d) /\
  (fst (admin_add_section admin rq d) = d \/
   exists s,
     fst (admin_add_section admin rq d) = with_sections d (sections d ++ [s]) /\
     class_name s = field_stripped (form rq) "class_name" /\
     section_name s = field_stripped (form rq) "section_name" /\
     class_name s <> "" /\ section_name s <> "") /\
  fst (admin_add_section admin rq (fst (admin_add_section admin rq d)))
    = fst (admin_add_section admin rq d) /\
  (method rq = "POST" -> field_is (form rq) "form" "section" = true ->
   upper (field_stripped (form rq) "section_name")
     = field_stripped (form rq) "section_name" ->
   fst (admin_panel admin rq d) = fst (admin_add_section admin rq d)).
Proof.
  intros U. destruct admin.
  2:{ split; [exact U|]. split; [reflexivity|]. split; [left; reflexivity|].
      split; reflexivity. }
  rewrite !r_add_section_value.
  set (c := field_stripped (form rq) "class_name").
  set (s := field_stripped (form rq) "section_name").
  assert (P : method rq = "POST" -> field_is (form rq) "form" "section" = true ->
              upper s = s -> fst (admin_panel true rq d) = section_added c s d)
    by (intros; apply panel_section_value; assumption).
  unfold section_added in *.
  destruct (String.eqb c "" || String.eqb s "") eqn:V.
  { split; [exact U|]. split; [discriminate|]. split; [left; reflexivity|].
    split; [reflexivity | exact P]. }
  apply orb_false_iff in V. destruct V as [V1 V2].
  destruct (section_named d c s) eqn:F.
  { rewrite F. split; [exact U|]. split; [discriminate|].
    split; [left; reflexivity|]. split; [reflexivity | exact P]. }
  split; [apply add_section_unique; assumption|]. split; [discriminate|].
  split.
  { right. eexists. split; [reflexivity|].
    cbn [class_name section_name]. repeat split; apply String.eqb_neq; assumption. }
  split; [|exact P].
  pose proof (section_added_present c s d F) as F'.
  destruct (section_named (add_section d c s) c s); [reflexivity|].
  exfalso. apply F'. reflexivity.
Qed.

Lemma r_admin_add_section_witness :
  unique_sections seed_db /\
  List.length (sections (fst (admin_add_section true section_form seed_db)))
    = 6%nat /\
  unique_sections (fst (admin_add_section true section_form seed_db)) /\
  fst (admin_panel true upper_section_form seed_db)
    = fst (admin_add_section true upper_section_form seed_db).
Proof.
  assert (U : unique_sections seed_db).
  { split; repeat constructor; cbn [In map sections seed_db section_key cs_id
                                     class_name section_name];
      intuition discriminate. }
  split; [exact U|]. split; [reflexivity|].
  destruct (r_admin_add_section true section_form seed_db U) as (V & _).
  split; [exact V|].
  destruct (r_admin_add_section true upper_section_form seed_db U)
    as (_ & _ & _ & _ & A).
  apply A; reflexivity.
Defined.
End Variants.
